(** * Langchain_Bot: caches, rate limiter, knowledge retrieval and chat orchestration

    A shallow embedding of the service layer of the chat bot
    ([services/knowledge.py], [services/llm.py], [services/conversation.py])
    and the properties its design document states about it.

    Conventions of the embedding:
    - [time.time()] is an explicit argument [now] of the operations of the
      caches and of the rate limiter, and the [clock] field of the state of
      a service, which awaited calls and sleeps advance; timestamps,
      durations and token counts are exact rationals ([Q]), compared with
      [<] and [<=] as the code does;
    - the packages and services a component awaits ([wikipedia], the
      Cohere API, the generation client seen from the chat manager) are
      oracles: what their n-th call does, its latency and its outcome;
    - a Python [dict] whose iteration order is observable (the bounded
      cache: [min] over [access_times.items()]) is an insertion-ordered
      association list; the session cache, only looked up by key, is a
      [gmap];
    - a statement that can raise returns in the [res] monad;
    - text is a [string] of code points below 256, with Python's character
      classes ([str.lower], [\s], [\w], [\d]) on that range. *)

From Stdlib Require Import List String Ascii ZArith QArith Lia Lqa Bool DecimalString.
From stdpp Require Import base option list strings gmap.
Import ListNotations.

(** ** Results of statements that may raise *)

Inductive exc : Type :=
| KeyError
| ZeroDivisionError
| TimeoutError
| PageError
| DisambiguationError (options : list string)
| LLMError
| NameError
| OtherError.

Inductive res (A : Type) : Type :=
| Ok (a : A)
| Raise (e : exc).
Arguments Ok {A} a.
Arguments Raise {A} e.

#[global] Instance res_ret : MRet res := fun A a => Ok a.
#[global] Instance res_bind : MBind res := fun A B k m =>
  match m with
  | Ok a => k a
  | Raise e => Raise e
  end.

(** [try: body except Exception: handler] *)
Definition try_except {A : Type} (body : res A) (handler : exc -> res A) : res A :=
  match body with
  | Ok a => Ok a
  | Raise e => handler e
  end.

(** Statements that also change the state of an object of type [S]: the
    state a statement reaches is kept when it raises. *)
Definition M (S A : Type) : Type := S -> res A * S.

#[global] Instance M_ret {S : Type} : MRet (M S) := fun A a s => (Ok a, s).
#[global] Instance M_bind {S : Type} : MBind (M S) := fun A B k m s =>
  match m s with
  | (Ok a, s') => k a s'
  | (Raise e, s') => (Raise e, s')
  end.

Definition raise {S A : Type} (e : exc) : M S A := fun s => (Raise e, s).

(** a computation that leaves the state alone *)
Definition lift {S A : Type} (r : res A) : M S A := fun s => (r, s).

(** reading a field of the state *)
Definition read {S A : Type} (f : S -> A) : M S A := fun s => (Ok (f s), s).

Definition catch {S A : Type} (body : M S A) (handler : exc -> M S A) : M S A :=
  fun s =>
    match body s with
    | (Ok a, s') => (Ok a, s')
    | (Raise e, s') => handler e s'
    end.

(** ** Clock readings *)

Definition Qltb (x y : Q) : bool := negb (Qle_bool y x).

(** ** Python strings *)

Module PyStr.

Definition code (c : ascii) : N := N_of_ascii c.

Definition between (lo hi : N) (c : ascii) : bool :=
  ((lo <=? code c) && (code c <=? hi))%N.

(** [\d] and [str.isdigit] on decimal digits *)
Definition is_digit (c : ascii) : bool := between 48 57 c.

(** [\s] and [str.isspace]: tab to carriage return, the four separators,
    space, NEL and the no-break space *)
Definition is_space (c : ascii) : bool :=
  between 9 13 c || between 28 32 c || (code c =? 133)%N || (code c =? 160)%N.

(** [\w]: alphanumeric or underscore *)
Definition is_word (c : ascii) : bool :=
  is_digit c || between 65 90 c || (code c =? 95)%N || between 97 122 c
  || (code c =? 170)%N || between 178 179 c || (code c =? 181)%N
  || between 185 186 c || between 188 190 c
  || between 192 214 c || between 216 246 c || between 248 255 c.

Definition is_upper (c : ascii) : bool :=
  between 65 90 c || between 192 214 c || between 216 222 c.

Definition lower_char (c : ascii) : ascii :=
  if is_upper c then ascii_of_N (code c + 32) else c.

(** [s.lower()] *)
Fixpoint lower (s : string) : string :=
  match s with
  | EmptyString => EmptyString
  | String c s' => String (lower_char c) (lower s')
  end.

(** [s[n:]] and [s[:n]] *)
Fixpoint drop (n : nat) (s : string) : string :=
  match n, s with
  | S n', String _ s' => drop n' s'
  | _, _ => s
  end.

Definition take (n : nat) (s : string) : string := substring 0 n s.

(** [needle in hay] *)
Fixpoint contains (hay needle : string) : bool :=
  match hay with
  | EmptyString => String.prefix needle hay
  | String _ hay' => String.prefix needle hay || contains hay' needle
  end.

(** [sep.join(parts)] *)
Definition join (sep : string) (parts : list string) : string :=
  String.concat sep parts.

(** [s.split()]: the maximal runs of non-space characters; [word] is the
    run being read *)
Fixpoint split_ws_from (word : string) (s : string) : list string :=
  match s with
  | EmptyString => if String.eqb word "" then [] else [word]
  | String c s' =>
      if is_space c
      then (if String.eqb word "" then split_ws_from "" s'
            else word :: split_ws_from "" s')
      else split_ws_from (word +:+ String c "") s'
  end.

Definition split_ws (s : string) : list string := split_ws_from "" s.

(** [s.split(sep)] for a non-empty separator; [skip] characters of a
    separator just matched remain to be passed over *)
Fixpoint split_from (sep : string) (skip : nat) (piece : string) (s : string)
  : list string :=
  match s with
  | EmptyString => [piece]
  | String c s' =>
      match skip with
      | S k => split_from sep k piece s'
      | O =>
          if String.prefix sep s
          then piece :: split_from sep (String.length sep - 1) "" s'
          else split_from sep 0 (piece +:+ String c "") s'
      end
  end.

Definition split (s sep : string) : list string := split_from sep 0 "" s.

Fixpoint lstrip (s : string) : string :=
  match s with
  | String c s' => if is_space c then lstrip s' else s
  | EmptyString => EmptyString
  end.

Definition rstrip (s : string) : string := String.rev (lstrip (String.rev s)).

(** [s.strip()] *)
Definition strip (s : string) : string := rstrip (lstrip s).

(** ["\n"] and the paragraph separator ["\n\n"] *)
Definition newline : string := String "010" "".
Definition blank_line : string := newline +:+ newline.

(** [not s or s.strip() == ""] *)
Definition is_blank (s : string) : bool :=
  String.eqb s "" || String.eqb (strip s) "".

(** [str(n)] of an integer *)
Definition of_int (n : Z) : string := NilZero.string_of_int (Z.to_int n).

(** *** Regular expressions

    A pattern is given by its matcher: the length of its match at the
    start of a text, if it matches there. None of the patterns of the
    program matches the empty string. *)

Definition matcher : Type := string -> option nat.

(** [re.sub(pattern, repl, s)]: leftmost non-overlapping matches *)
Fixpoint sub_from (m : matcher) (repl : string) (skip : nat) (s : string) : string :=
  match s with
  | EmptyString => EmptyString
  | String c s' =>
      match skip with
      | S k => sub_from m repl k s'
      | O =>
          match m s with
          | Some (S n) => repl +:+ sub_from m repl n s'
          | _ => String c (sub_from m repl 0 s')
          end
      end
  end.

Definition re_sub (m : matcher) (repl : string) (s : string) : string :=
  sub_from m repl 0 s.

(** length of the longest prefix of characters in a class *)
Fixpoint span (p : ascii -> bool) (s : string) : nat :=
  match s with
  | String c s' => if p c then S (span p s') else O
  | EmptyString => O
  end.

(** a single character of a class: [[^\w\s]] and the like *)
Definition one_of (p : ascii -> bool) : matcher := fun s =>
  match s with
  | String c _ => if p c then Some 1 else None
  | EmptyString => None
  end.

(** [\s+] *)
Definition spaces : matcher := fun s =>
  match span is_space s with
  | O => None
  | n => Some n
  end.

(** [\[\d+\]] *)
Definition ref_marker : matcher := fun s =>
  match s with
  | String "[" r =>
      match span is_digit r with
      | O => None
      | d => if String.prefix "]" (drop d r) then Some (d + 2) else None
      end
  | _ => None
  end.

(** offset of the first [==] that no newline precedes *)
Fixpoint find_close (r : string) : option nat :=
  match r with
  | EmptyString => None
  | String c r' =>
      if String.prefix "==" r then Some 0
      else if (code c =? 10)%N then None
      else option_map S (find_close r')
  end.

(** [==.*?==] *)
Definition heading : matcher := fun s =>
  if String.prefix "==" s
  then option_map (fun j => j + 4) (find_close (drop 2 s))
  else None.

End PyStr.

(** ** Insertion-ordered dictionaries *)

Module PyDict.
Section Dict.
Context {V : Type}.

Definition dict : Type := list (string * V).

Definition keys (d : dict) : list string := map fst d.

  (** [d[k]] as an option, [k in d] *)
Fixpoint get (d : dict) (k : string) : option V :=
    match d with
    | [] => None
    | (k', v) :: d' => if String.eqb k k' then Some v else get d' k
    end.

Definition contains (d : dict) (k : string) : bool :=
    match get d k with Some _ => true | None => false end.

  (** [d[k] = v]: an existing key keeps its place, a new one goes last *)
Fixpoint set (d : dict) (k : string) (v : V) : dict :=
    match d with
    | [] => [(k, v)]
    | (k', v') :: d' =>
        if String.eqb k k' then (k', v) :: d' else (k', v') :: set d' k v
    end.

Definition remove (d : dict) (k : string) : dict :=
    List.filter (fun kv => negb (String.eqb k (fst kv))) d.

  (** [del d[k]] raises [KeyError] on a missing key *)
Definition del (d : dict) (k : string) : res dict :=
    if contains d k then Ok (remove d k) else Raise KeyError.
End Dict.
Arguments dict V : clear implicits.
End PyDict.

(** ** The bounded cache of [services/knowledge.py] *)

Module KnowledgeCache.
Section Cache.
Context {V : Type}.

Record entry : Type := Entry { value : V; expires : Q }.

Record t : Type := Cache {
    cache : PyDict.dict entry;
    max_size : Z;
    ttl : Q;
    access_times : PyDict.dict Q
  }.

  (** [KnowledgeCache(max_size, ttl_seconds)] *)
Definition init (max_size : Z) (ttl_seconds : Q) : t :=
    Cache [] max_size ttl_seconds [].

Definition with_dicts (c : t) (d : PyDict.dict entry) (a : PyDict.dict Q) : t :=
    Cache d (max_size c) (ttl c) a.

Definition get (c : t) (key : string) (now : Q) : res (option V * t) :=
    match PyDict.get (cache c) key with
    | Some e =>
        if Qltb now (expires e) then
          Ok (Some (value e),
              with_dicts c (cache c) (PyDict.set (access_times c) key now))
        else
          d ← PyDict.del (cache c) key;
          a ← (if PyDict.contains (access_times c) key
               then PyDict.del (access_times c) key
               else Ok (access_times c));
          Ok (None, with_dicts c d a)
    | None => Ok (None, c)
    end.

  (** [min(items, key=lambda x: x[1])]: the first item of least value *)
Fixpoint min_item (best : string * Q) (items : list (string * Q)) : string * Q :=
    match items with
    | [] => best
    | x :: items' =>
        if Qltb (snd x) (snd best) then min_item x items' else min_item best items'
    end.

Definition lru_key (a : PyDict.dict Q) : option string :=
    match a with
    | [] => None
    | x :: a' => Some (fst (min_item x a'))
    end.

Definition _evict_lru (c : t) : res t :=
    match lru_key (access_times c) with
    | None => Ok c
    | Some k =>
        d ← PyDict.del (cache c) k;
        a ← PyDict.del (access_times c) k;
        Ok (with_dicts c d a)
    end.

  (** [ttl or self.ttl] *)
Definition ttl_or (ttl : option Q) (default : Q) : Q :=
    match ttl with
    | Some x => if Qeq_bool x 0 then default else x
    | None => default
    end.

  (** the two assignments that end [set] *)
Definition store (c : t) (key : string) (v : V) (ttl' : option Q) (now : Q) : t :=
    with_dicts c
      (PyDict.set (cache c) key (Entry v (now + ttl_or ttl' (ttl c))%Q))
      (PyDict.set (access_times c) key now).

Definition set (c : t) (key : string) (v : V) (ttl' : option Q) (now : Q) : res t :=
    c1 ← (if (max_size c <=? Z.of_nat (length (cache c)))%Z
          then _evict_lru c else Ok c);
    Ok (store c1 key v ttl' now).

Definition clear (c : t) : t := with_dicts c [] [].

Definition size (c : t) : nat := length (cache c).

(** the entry [_evict_lru] removes, removed *)
Definition evicted (c : t) (k : string) : t :=
  with_dicts c (PyDict.remove (cache c) k) (PyDict.remove (access_times c) k).

(** The two dictionaries hold the same keys in the same order, each once. *)
Definition wf (c : t) : Prop :=
  PyDict.keys (cache c) = PyDict.keys (access_times c)
  /\ NoDup (PyDict.keys (cache c)).

(** the calls a client of the cache can make *)
Inductive op : Type :=
| OpGet (key : string) (now : Q)
| OpSet (key : string) (v : V) (ttl' : option Q) (now : Q)
| OpClear.

Definition step (c : t) (o : op) : res t :=
  match o with
  | OpGet key now => r ← get c key now; Ok (snd r)
  | OpSet key v ttl' now => set c key v ttl' now
  | OpClear => Ok (clear c)
  end.

Fixpoint run (c : t) (ops : list op) : res t :=
  match ops with
  | [] => Ok c
  | o :: ops' => c' ← step c o; run c' ops'
  end.

(** one [set] per item: key, value, optional TTL and clock reading *)
Definition inserts (items : list (string * V * option Q * Q)) : list op :=
  map (fun '(key, v, ttl', now) => OpSet key v ttl' now) items.

Definition item_keys (items : list (string * V * option Q * Q)) : list string :=
  map (fun '(key, _, _, _) => key) items.

(** what every sequence of calls keeps true of a cache of capacity [ms] *)
Definition inv (ms : Z) (c : t) : Prop :=
  wf c /\ max_size c = ms /\ (Z.of_nat (size c) <= ms)%Z.
End Cache.
Arguments entry V : clear implicits.
Arguments t V : clear implicits.
Arguments op V : clear implicits.
End KnowledgeCache.

(** ** The token bucket of [services/llm.py] *)

(** [a / b] raises on a zero divisor *)
Definition pydiv (a b : Q) : res Q :=
  if Qeq_bool b 0 then Raise ZeroDivisionError else Ok (a / b)%Q.

(** [min(a, b)]: the first of the two unless the second is smaller *)
Definition pymin (a b : Q) : Q := if Qltb b a then b else a.

Module RateLimiter.

Record t : Type := Limiter {
  rate : Q;
  per : Q;
  burst : Q;
  tokens : Q;
  last_refill : Q
}.

(** [RateLimiter(rate, per, burst)] built when the clock reads [now] *)
Definition init (rate per burst now : Q) : t :=
  Limiter rate per burst burst now.

Definition with_tokens (l : t) (tokens' : Q) : t :=
  Limiter (rate l) (per l) (burst l) tokens' (last_refill l).

(** the refill that opens [acquire] *)
Definition refill (l : t) (now : Q) : res t :=
  let elapsed := (now - last_refill l)%Q in
  speed ← pydiv (rate l) (per l);
  Ok (Limiter (rate l) (per l) (burst l)
        (pymin (burst l) (tokens l + elapsed * speed)%Q) now).

(** [acquire(tokens)]: the wait to observe and the new state *)
Definition acquire (l : t) (cost : Q) (now : Q) : res (Q * t) :=
  l1 ← refill l now;
  if Qltb (tokens l1) cost then
    pace ← pydiv (per l1) (rate l1);
    Ok (((cost - tokens l1) * pace)%Q, l1)
  else
    Ok (0%Q, with_tokens l1 (tokens l1 - cost)%Q).

(** a sequence of calls, each with its cost and its clock reading *)
Fixpoint run (l : t) (calls : list (Q * Q)) : res t :=
  match calls with
  | [] => Ok l
  | (cost, now) :: calls' =>
      r ← acquire l cost now;
      run (snd r) calls'
  end.

(** the clock never runs backwards over a sequence of calls made after [t] *)
Fixpoint monotone_from (t : Q) (calls : list (Q * Q)) : Prop :=
  match calls with
  | [] => True
  | (_, now) :: calls' => (t <= now)%Q /\ monotone_from now calls'
  end.

(** the token count a call at [now] sees once it has refilled *)
Definition refilled (l : t) (now : Q) : Q :=
  pymin (burst l) (tokens l + (now - last_refill l) * (rate l / per l))%Q.

End RateLimiter.

(** ** Conversation turns *)

Record turn : Type := Turn { role : string; content : string }.

(** [l[-n:]] *)
Definition last_n {A : Type} (n : nat) (l : list A) : list A :=
  skipn (length l - n) l.

(** ** The generation client of [services/llm.py] *)

Module CohereClient.

(** What one call of the upstream chat API does: the time it takes and
    the text of the response, or the exception it raises. *)
Record reply : Type := Reply { latency : Q; outcome : res string }.

(** [ResponseCache] is [KnowledgeCache] line for line, under a lock. *)
Record t : Type := Client {
  rate_limiter : RateLimiter.t;
  cache : KnowledgeCache.t string;
  retry_backoff : list Q;
  clock : Q;
  calls : nat
}.

(** [CohereClient()] once its health check is over, at clock [now] *)
Definition init (now : Q) : t :=
  Client (RateLimiter.init 20 60 30 now)
         (KnowledgeCache.init 500 3600)
         [1; 2; 4; 8]%Q now 0.

Definition sleep (d : Q) (st : t) : t :=
  Client (rate_limiter st) (cache st) (retry_backoff st) (clock st + d)%Q (calls st).

Definition with_limiter (st : t) (l : RateLimiter.t) : t :=
  Client l (cache st) (retry_backoff st) (clock st) (calls st).

Definition with_cache (st : t) (c : KnowledgeCache.t string) : t :=
  Client (rate_limiter st) c (retry_backoff st) (clock st) (calls st).

Definition _get_fallback_responses : list (string * string) :=
  [ ("sport",
     "I know that sports are a popular topic. However, I'm having trouble accessing my knowledge services right now. Sports include activities like football, basketball, cricket, tennis, and many others with different rules, competitions, and famous athletes.");
    ("health",
     "Health is an important topic, but I'm having trouble accessing my knowledge services right now. For health-related questions, it's always best to consult with qualified healthcare professionals for personalized advice.");
    ("technology",
     "Technology is evolving rapidly across areas like AI, software development, hardware, and digital services. While I'm having trouble connecting to my knowledge services right now, I'd be happy to try answering a more specific question about technology.");
    ("history",
     "Historical topics span thousands of years of human civilization, covering people, events, and societal developments. I'm having trouble accessing detailed historical information right now, but I'd be happy to try again in a moment.");
    ("science",
     "Science encompasses fields like physics, chemistry, biology, astronomy, and more. I'm having trouble connecting to my knowledge services right now, but I'd be happy to try a more specific scientific question shortly.");
    ("code",
     "Programming involves creating instructions for computers using languages like Python, JavaScript, Java, and many others. I'm having trouble accessing my coding knowledge right now, but I'd be happy to help with a specific coding problem in a moment.");
    ("music",
     "Music spans countless genres, artists, and traditions from around the world. I'm having trouble accessing my detailed music knowledge right now, but I'd be happy to try again with a more specific question shortly.");
    ("movie",
     "Films and cinema encompass a vast variety of genres, directors, actors, and storytelling techniques. I'm having trouble connecting to my knowledge services right now, but I'd be happy to discuss movies again in a moment.");
    ("game",
     "Games include video games, board games, card games, and many other forms of interactive entertainment. I'm having trouble accessing my gaming knowledge right now, but I'd be happy to try again shortly.") ].

(** the scan of the fallback table that ends a failed [chat] *)
Definition fallback_for (message : string) : option (string * string) :=
  let message_lower := PyStr.lower message in
  find (fun kv => PyStr.contains message_lower (fst kv)) _get_fallback_responses.

(** [self._get_fallback_responses()[key]] *)
Definition fallback_text (key : string) : option string :=
  PyDict.get _get_fallback_responses key.

(** [return fallback] for the first key found, else [raise LLMError(...)] *)
Definition give_fallback (message : string) : res string :=
  match fallback_for message with
  | Some kv => Ok (snd kv)
  | None => Raise LLMError
  end.

Section Chat.
(** [f"{temperature}"] *)
Context (format_float : Q -> string).
(** the upstream API: what its n-th call does *)
Context (upstream : nat -> reply).

Definition history_tokens (chat_history : list turn) : Z :=
  match chat_history with
  | [] => 0
  | _ =>
      let history_chars :=
        fold_right Z.add 0%Z
          (map (fun msg => Z.of_nat (String.length (content msg))) chat_history) in
      (history_chars / 1000)%Z
  end.

Definition request_cost (message : string) (chat_history : list turn) : Z :=
  (1 + Z.of_nat (String.length message) / 500 + history_tokens chat_history)%Z.

Definition history_str (chat_history : list turn) : string :=
  fold_left
    (fun acc msg => acc +:+ role msg +:+ ":" +:+ PyStr.take 20 (content msg) +:+ ";")
    (last_n 3 chat_history) "".

Definition cache_key (message : string) (chat_history : list turn)
    (model : string) (temperature : Q) : string :=
  "chat_" +:+ PyStr.take 50 message +:+ "_" +:+ history_str chat_history
  +:+ "_" +:+ model +:+ "_" +:+ format_float temperature.

(** the body of the [try] of the retry loop: call upstream, and cache a
    non-streamed result *)
Definition attempt (st : t) (key : string) (temperature : Q) (stream : bool)
  : res string * t :=
  let r := upstream (calls st) in
  let st1 := Client (rate_limiter st) (cache st) (retry_backoff st)
                    (clock st + latency r)%Q (S (calls st)) in
  match outcome r with
  | Raise e => (Raise e, st1)
  | Ok result =>
      if stream then (Ok result, st1)
      else
        let ttl := if Qltb temperature (1 # 2) then 86400%Q else 3600%Q in
        match KnowledgeCache.set (cache st1) key result (Some ttl) (clock st1) with
        | Ok c => (Ok result, with_cache st1 c)
        | Raise e => (Raise e, st1)
        end
  end.

(** [while True: try: ... except Exception: ...], at most [fuel] rounds *)
Fixpoint retry_loop (fuel : nat) (retries max_retries : nat) (st : t)
    (message key : string) (temperature : Q) (stream : bool)
  : option (res string * t) :=
  match fuel with
  | O => None
  | S fuel' =>
      match attempt st key temperature stream with
      | (Ok result, st1) => Some (Ok result, st1)
      | (Raise e, st1) =>
          if (retries <? max_retries)%nat then
            let backoff := nth retries (retry_backoff st1) 0%Q in
            retry_loop fuel' (S retries) max_retries (sleep backoff st1)
                       message key temperature stream
          else Some (give_fallback message, st1)
      end
  end.

(** [chat(message, chat_history, model, temperature, stream, retry_on_error)];
    [None] only if the loop were cut short by its fuel *)
Definition chat_with (fuel : nat) (st : t) (message : string)
    (chat_history : list turn) (model : string) (temperature : Q)
    (stream retry_on_error : bool) : option (res string * t) :=
  let tokens := request_cost message chat_history in
  match RateLimiter.acquire (rate_limiter st) (inject_Z tokens) (clock st) with
  | Raise e => Some (Raise e, st)
  | Ok (wait_time, l) =>
      let st1 := with_limiter st l in
      let st2 := if Qltb 0 wait_time then sleep wait_time st1 else st1 in
      let key := cache_key message chat_history model temperature in
      let max_retries := if retry_on_error then length (retry_backoff st2) else O in
      let go st3 := retry_loop fuel 0 max_retries st3 message key temperature stream in
      if stream then go st2
      else
        match KnowledgeCache.get (cache st2) key (clock st2) with
        | Raise e => Some (Raise e, st2)
        | Ok (Some cached_response, c) =>
            if String.eqb cached_response ""
            then go (with_cache st2 c)
            else Some (Ok cached_response, with_cache st2 c)
        | Ok (None, c) => go (with_cache st2 c)
        end
  end.

(** one round more than there are retries is all the loop can take *)
Definition chat (st : t) (message : string) (chat_history : list turn)
    (model : string) (temperature : Q) (stream retry_on_error : bool)
  : option (res string * t) :=
  chat_with (S (length (retry_backoff st))) st message chat_history model
            temperature stream retry_on_error.

End Chat.
End CohereClient.

(** ** The encyclopedic provider of [services/knowledge.py] *)

Module WikipediaService.

(** What the service keeps in its one cache: lists of titles under the
    search keys, texts under the summary keys. *)
Inductive value : Type :=
| VList (titles : list string)
| VStr (text : string).

(** [if cached_result:] *)
Definition truthy (v : value) : bool :=
  match v with
  | VList [] => false
  | VList (_ :: _) => true
  | VStr s => negb (String.eqb s "")
  end.

(** A page of the [wikipedia] package: reading [page.content] or
    [page.summary] may itself raise. *)
Record page : Type := Page { content : res string; summary : res string }.

Record reply (A : Type) : Type := Reply { latency : Q; outcome : res A }.
Arguments Reply {A} latency outcome.
Arguments latency {A} r.
Arguments outcome {A} r.

(** The [wikipedia] package: what its n-th call does, by entry point. *)
Record wikipedia : Type := Wikipedia {
  wiki_search : nat -> string -> Z -> reply (list string);
  wiki_page : nat -> string -> reply page;
  wiki_summary : nat -> string -> Z -> reply string
}.

Record t : Type := Service {
  timeout : Q;
  cache : KnowledgeCache.t value;
  clock : Q;
  calls : nat
}.

(** [WikipediaService(timeout)] at clock [now] *)
Definition init (timeout now : Q) : t :=
  Service timeout (KnowledgeCache.init 500 86400) now 0.

(** the service [d] seconds later, nothing else having happened *)
Definition later (d : Q) (st : t) : t :=
  Service (timeout st) (cache st) (clock st + d)%Q (calls st).

Definition cache_get (key : string) : M t (option value) := fun st =>
  match KnowledgeCache.get (cache st) key (clock st) with
  | Ok (v, c) => (Ok v, Service (timeout st) c (clock st) (calls st))
  | Raise e => (Raise e, st)
  end.

Definition cache_set (key : string) (v : value) (ttl : option Q) : M t unit := fun st =>
  match KnowledgeCache.set (cache st) key v ttl (clock st) with
  | Ok c => (Ok tt, Service (timeout st) c (clock st) (calls st))
  | Raise e => (Raise e, st)
  end.

(** the computation makes at least [n] calls of the package *)
Definition calls_upstream {A : Type} (n : nat) (m : M t A) : Prop :=
  forall st, (calls st + n <= calls (snd (m st)))%nat.

(** the lookup of the key finds nothing, or a value that tests false *)
Definition misses (key : string) (st : t) : Prop :=
  match fst (cache_get key st) with
  | Ok (Some v) => truthy v = false
  | Ok None => True
  | Raise _ => False
  end.

(** [await asyncio.wait_for(loop.run_in_executor(None, call), timeout)] *)
Definition wait_for {A : Type} (call : nat -> reply A) : M t A := fun st =>
  let r := call (calls st) in
  if Qle_bool (timeout st) (latency r)
  then (Raise TimeoutError,
        Service (timeout st) (cache st) (clock st + timeout st)%Q (S (calls st)))
  else (outcome r,
        Service (timeout st) (cache st) (clock st + latency r)%Q (S (calls st))).

Definition question_prefixes : list string :=
  [ "what is"; "who is"; "tell me about"; "how does"; "where is"; "when did";
    "why does"; "can you explain" ].

(** [^(what is|who is|...)\s+], tried at the start of the text only *)
Definition question_prefix : PyStr.matcher := fun s =>
  match find (fun p => String.prefix p s
                       && negb (PyStr.span PyStr.is_space
                                  (PyStr.drop (String.length p) s) =? 0)%nat)
             question_prefixes with
  | Some p => Some (String.length p
                    + PyStr.span PyStr.is_space (PyStr.drop (String.length p) s))%nat
  | None => None
  end.

Definition _clean_query (query : string) : string :=
  let query := PyStr.lower query in
  let query := match question_prefix query with
               | Some n => PyStr.drop n query
               | None => query
               end in
  let query :=
    PyStr.re_sub
      (PyStr.one_of (fun c => negb (PyStr.is_word c || PyStr.is_space c))) "" query in
  PyStr.join " " (PyStr.split_ws query).

Definition _clean_content (content : string) : string :=
  let content := PyStr.re_sub PyStr.ref_marker "" content in
  let content := PyStr.re_sub PyStr.spaces " " content in
  let content := PyStr.re_sub PyStr.heading "" content in
  PyStr.strip content.

(** the loop that keeps the first three titles that are not
    disambiguation pages *)
Fixpoint filter_results (filtered : list string) (search_results : list string)
  : list string :=
  match search_results with
  | [] => filtered
  | title :: rest =>
      if (3 <=? length filtered)%nat then filtered
      else if PyStr.contains (PyStr.lower title) "(disambiguation)"
           then filter_results filtered rest
           else filter_results (filtered ++ [title]) rest
  end.

Section Service.
Context (wiki : wikipedia).

(** the [try] of [search], entered on a cache miss *)
Definition fetch_results (cleaned_query : string) (limit : Z) (cache_key : string)
  : M t value :=
  catch
    (search_results ← wait_for (fun n => wiki_search wiki n cleaned_query limit);
     let filtered_results := filter_results [] search_results in
     _ ← cache_set cache_key (VList filtered_results) None;
     mret (VList filtered_results))
    (fun _ => mret (VList [])).

Definition search_key (query : string) (limit : Z) : string :=
  "search_" +:+ _clean_query query +:+ "_" +:+ PyStr.of_int limit.

Definition search (query : string) (limit : Z) : M t value :=
  if PyStr.is_blank query then mret (VList [])
  else
    let cleaned_query := _clean_query query in
    let cache_key := search_key query limit in
    cached_result ← cache_get cache_key;
    match cached_result with
    | Some v => if truthy v then mret v else fetch_results cleaned_query limit cache_key
    | None => fetch_results cleaned_query limit cache_key
    end.

(** the extract made from the full content of a page *)
Definition extract (content : string) : option string :=
  let paragraphs :=
    List.filter (fun p => (50 <? String.length p)%nat)
                (PyStr.split content PyStr.blank_line) in
  match paragraphs with
  | [] => None
  | _ =>
      let summary :=
        PyStr.join PyStr.blank_line (firstn (Nat.min 3 (length paragraphs)) paragraphs) in
      if (1000 <? String.length summary)%nat
      then Some (PyStr.take 1000 summary +:+ "...")
      else Some summary
  end.

(** the inner [try]: the full page first *)
Definition from_page (title : string) : M t string :=
  page ← wait_for (fun n => wiki_page wiki n title);
  content ← lift (content page);
  match extract content with
  | Some summary => mret summary
  | None => lift (summary page)
  end.

Definition disambiguation_text (title : string) (options : list string) : string :=
  "The term '" +:+ title +:+ "' could refer to multiple topics including "
  +:+ PyStr.join ", " options
  +:+ ". Please specify which one you're interested in.".

(** the part of [get_page_summary] that follows a cache miss *)
Definition fetch_summary (title : string) (sentences : Z) (cache_key : string)
  : M t (option value) :=
  catch
    (summary ← catch (from_page title)
                 (fun _ => wait_for (fun n => wiki_summary wiki n title sentences));
     let summary := _clean_content summary in
     _ ← cache_set cache_key (VStr summary) (Some (7 * 86400)%Q);
     mret (Some (VStr summary)))
    (fun e =>
       match e with
       | DisambiguationError options =>
           let result := disambiguation_text title (firstn 3 options) in
           _ ← cache_set cache_key (VStr result) (Some 86400%Q);
           mret (Some (VStr result))
       | _ => mret None
       end).

Definition summary_key (title : string) (sentences : Z) : string :=
  "summary_" +:+ title +:+ "_" +:+ PyStr.of_int sentences.

Definition get_page_summary (title : string) (sentences : Z) : M t (option value) :=
  if PyStr.is_blank title then mret None
  else
    let cache_key := summary_key title sentences in
    cached_summary ← cache_get cache_key;
    match cached_summary with
    | Some v => if truthy v then mret (Some v) else fetch_summary title sentences cache_key
    | None => fetch_summary title sentences cache_key
    end.

End Service.
End WikipediaService.

(** ** The session cache of [services/conversation.py] *)

Module TTLCache.

Record entry : Type := Entry { value : string; expires : Q }.

Record t : Type := Cache { cache : gmap string entry; ttl : Q }.

Definition init (ttl_seconds : Q) : t := Cache ∅ ttl_seconds.

Definition get (c : t) (key : string) (now : Q) : option string * t :=
  match cache c !! key with
  | Some e =>
      if Qltb now (expires e) then (Some (value e), c)
      else (None, Cache (delete key (cache c)) (ttl c))
  | None => (None, c)
  end.

Definition set (c : t) (key : string) (v : string) (ttl' : option Q) (now : Q) : t :=
  Cache (<[key := Entry v (now + KnowledgeCache.ttl_or ttl' (ttl c))%Q]> (cache c)) (ttl c).

Definition clear (c : t) : t := Cache ∅ (ttl c).

End TTLCache.

(** ** The chat manager of [services/conversation.py] *)

Module ChatManager.

(** *** Knowledge retrieval *)

(** A provider task when [asyncio.wait] returns: still pending, or done
    with the pair it returned or the exception it raised. *)
Inductive task : Type :=
| Pending
| Done (result : res (string * string)).

Inductive source : Type := Wiki | Kb.

Record found : Type := Found {
  wiki_title : string; wiki_info : string;
  kb_title : string; kb_info : string
}.

(** one round of [for task in done]: the inner [try] *)
Definition absorb (acc : found) (item : source * res (string * string)) : found :=
  match item with
  | (Wiki, Ok (title, info)) => Found title info (kb_title acc) (kb_info acc)
  | (Kb, Ok (title, info)) => Found (wiki_title acc) (wiki_info acc) title info
  | (_, Raise _) => acc
  end.

(** the set [done], in the order the loop visits it *)
Definition done_of (wiki_first : bool) (wiki_task kb_task : task)
  : list (source * res (string * string)) :=
  let of_task who tk := match tk with Done r => [(who, r)] | Pending => [] end in
  if wiki_first then of_task Wiki wiki_task ++ of_task Kb kb_task
  else of_task Kb kb_task ++ of_task Wiki wiki_task.

Definition _retrieve_knowledge (wiki_first : bool) (wiki_task kb_task : task)
  : res (string * string) :=
  try_except
    (let done := done_of wiki_first wiki_task kb_task in
     let acc := fold_left absorb done (Found "" "" "" "") in
     if negb (String.eqb (kb_info acc) "") then Ok (kb_title acc, kb_info acc)
     else if negb (String.eqb (wiki_info acc) "") then Ok (wiki_title acc, wiki_info acc)
     else Ok ("", ""))
    (fun _ => Ok ("", "")).

(** *** Message analysis and prompt *)

Definition _normalize_message (message : string) : string :=
  if String.eqb message "" then ""
  else
    let normalized := PyStr.join " " (PyStr.split_ws (PyStr.lower message)) in
    PyStr.re_sub
      (PyStr.one_of (fun c => negb (PyStr.is_word c || PyStr.is_space c
                                    || (PyStr.code c =? 63)%N)))
      "" normalized.

Inductive question_type : Type :=
| factual | opinion | procedural | comparison | knowledge.

Definition factual_patterns : list string :=
  ["what is"; "who is"; "when did"; "where is"; "how many"; "define"].
Definition opinion_patterns : list string :=
  ["what do you think"; "opinion"; "believe"; "feel about"].
Definition procedural_patterns : list string :=
  ["how to"; "how do i"; "steps"; "process"; "procedure"].
Definition comparison_patterns : list string :=
  ["difference between"; "compare"; "better"; "versus"; "vs"].

Definition _analyze_question_type (message : string) : question_type :=
  let message := PyStr.lower message in
  let any := existsb (PyStr.contains message) in
  if any factual_patterns then factual
  else if any opinion_patterns then opinion
  else if any procedural_patterns then procedural
  else if any comparison_patterns then comparison
  else knowledge.

Definition type_instructions (q : question_type) : string :=
  match q with
  | factual => "Provide accurate factual information. Be precise and cite sources when possible."
  | opinion => "Provide a balanced perspective. Consider different viewpoints and explain your reasoning."
  | procedural => "Provide clear step-by-step instructions. Be thorough but concise."
  | comparison => "Compare the items carefully, highlighting similarities and differences. Consider multiple aspects."
  | knowledge => "Provide comprehensive information on the topic. Cover key points and be educational."
  end.

Definition _build_system_prompt (message title retrieved_info : string)
    (q : question_type) (knowledge_source : string) : string :=
  let prompt := "You are an intelligent and helpful AI assistant. "
                +:+ type_instructions q +:+ " " in
  if negb (String.eqb retrieved_info "") then
    prompt +:+ PyStr.blank_line +:+ "Retrieved information about " +:+ title
    +:+ " from " +:+ knowledge_source +:+ ": " +:+ retrieved_info +:+ PyStr.blank_line
    +:+ "Use this information to help answer the question, but also draw on your general knowledge "
    +:+ "to provide a complete response. If the information doesn't fully address the question, "
    +:+ "be honest about what you know and don't know."
  else
    prompt +:+ PyStr.blank_line
    +:+ "Answer based on your general knowledge. If you don't know the specific answer, "
    +:+ "be honest about it and provide related information that might be helpful.".

Definition no_response : string :=
  "I apologize, but I couldn't generate a response. Please try asking again.".

Definition _post_process_response (response message title : string) : string :=
  if String.eqb response "" then no_response
  else if negb (String.eqb title "")
          && negb (PyStr.contains (PyStr.lower response) "wikipedia")
          && (100 <? String.length response)%nat
  then response +:+ PyStr.blank_line +:+ "Information about " +:+ title
       +:+ " was retrieved from Wikipedia and other knowledge sources."
  else response.

Definition unexpected_error : string :=
  "I'm sorry, but I encountered an unexpected error. Please try asking a different question.".

(** *** The manager *)

(** What one call of the generation client does, as the manager sees it:
    the time it takes and the text it returns or the exception it raises. *)
Record reply : Type := Reply { latency : Q; outcome : res string }.

(** What the knowledge fan-out of one message does: how long it runs and
    the state of the two provider tasks when the wait inside it ends. *)
Record retrieval : Type := Retrieval {
  duration : Q;
  wiki_first : bool;
  wiki_task : task;
  kb_task : task
}.

Record t : Type := Manager {
  history : list turn;
  _query_cache : TTLCache.t;
  clock : Q;
  generations : nat
}.

(** [ChatManager()] at clock [now] *)
Definition init (now : Q) : t := Manager [] (TTLCache.init 3600) now 0.

Definition sleep (d : Q) : M t unit := fun st =>
  (Ok tt, Manager (history st) (_query_cache st) (clock st + d)%Q (generations st)).

Definition append_turn (r c : string) : M t unit := fun st =>
  (Ok tt, Manager (history st ++ [Turn r c]) (_query_cache st) (clock st) (generations st)).

Definition cache_get (key : string) : M t (option string) := fun st =>
  let (v, c) := TTLCache.get (_query_cache st) key (clock st) in
  (Ok v, Manager (history st) c (clock st) (generations st)).

Definition cache_set (key v : string) (ttl : Q) : M t unit := fun st =>
  (Ok tt, Manager (history st)
            (TTLCache.set (_query_cache st) key v (Some ttl) (clock st))
            (clock st) (generations st)).

Section Manager.
(** the static table of the knowledge base: topic and overview *)
Context (fallback_knowledge : list (string * string)).
(** the generation client: what its n-th call does, given the message,
    the history and the preamble it is passed *)
Context (cohere_client : nat -> string -> list turn -> string -> reply).

Definition _create_fallback_response (message title retrieved_info : string) : string :=
  if negb (String.eqb retrieved_info "") then
    "Based on what I found about " +:+ title +:+ ": " +:+ retrieved_info
    +:+ PyStr.blank_line +:+ "This should help answer your question about "
    +:+ PyStr.strip message +:+ "."
  else
    let normalized_message := PyStr.lower message in
    match find (fun kv => PyStr.contains normalized_message (fst kv)) fallback_knowledge with
    | Some kv => snd kv
    | None =>
        "I'm sorry, but I'm having trouble generating a complete response right now. "
        +:+ "Here's what I know about your question: "
        +:+ "The topic appears to be about "
        +:+ (if String.eqb title "" then "something I don't have specific information on"
             else title)
        +:+ ". "
        +:+ "Could you try rephrasing your question or asking about something else?"
    end.

(** [await asyncio.wait_for(self.cohere_client.chat(...), timeout=15.0)] *)
Definition call_client (message : string) (chat_history : list turn)
    (preamble : string) : M t string := fun st =>
  let r := cohere_client (generations st) message chat_history preamble in
  if Qle_bool 15 (latency r)
  then (Raise TimeoutError,
        Manager (history st) (_query_cache st) (clock st + 15)%Q (S (generations st)))
  else (outcome r,
        Manager (history st) (_query_cache st) (clock st + latency r)%Q
                (S (generations st))).

(** [await asyncio.wait_for(knowledge_task, timeout=10.0)] and the
    [except asyncio.TimeoutError] around it: title, text and source *)
Definition await_knowledge (k : retrieval) : M t (string * string * string) := fun st =>
  if Qle_bool 10 (duration k)
  then (Ok ("", "", "timeout"),
        Manager (history st) (_query_cache st) (clock st + 10)%Q (generations st))
  else
    let st' := Manager (history st) (_query_cache st) (clock st + duration k)%Q
                       (generations st) in
    match _retrieve_knowledge (wiki_first k) (wiki_task k) (kb_task k) with
    | Ok (title, retrieved_info) =>
        (Ok (title, retrieved_info,
             if negb (String.eqb title "") then "wikipedia" else ""), st')
    | Raise e => (Raise e, st')
    end.

(** [while current_retry <= max_retries: ...] with [max_retries = 2];
    [response] is unbound until an attempt or the fallback binds it *)
Fixpoint generate (fuel : nat) (current_retry : nat) (response : option string)
    (message : string) (chat_history : list turn)
    (system_prompt title retrieved_info : string) : M t (option (option string)) :=
  match fuel with
  | O => mret None
  | S fuel' =>
      if (current_retry <=? 2)%nat then
        catch
          (r ← call_client message chat_history system_prompt; mret (Some (Some r)))
          (fun _ =>
             let current_retry := S current_retry in
             if (current_retry <=? 2)%nat then
               _ ← sleep (2 ^ Z.of_nat current_retry)%Q;
               generate fuel' current_retry response message chat_history
                        system_prompt title retrieved_info
             else
               generate fuel' current_retry
                 (Some (_create_fallback_response message title retrieved_info))
                 message chat_history system_prompt title retrieved_info)
      else mret (Some response)
  end.

(** the part of [process_message] that follows a cache miss *)
Definition answer (message cache_key : string) (k : retrieval) : M t string :=
  chat_history ← read (fun st => last_n 6 (history st));
  knowledge ← await_knowledge k;
  let '(title, retrieved_info, knowledge_source) := knowledge in
  let q := _analyze_question_type cache_key in
  let system_prompt :=
    _build_system_prompt message title retrieved_info q knowledge_source in
  generated ← generate 4 0 None message chat_history system_prompt title retrieved_info;
  match generated with
  | Some (Some response) =>
      let final_response := _post_process_response response message title in
      _ ← append_turn "user" message;
      _ ← append_turn "assistant" final_response;
      let ttl := match q with factual | knowledge => 86400%Q | _ => 3600%Q end in
      _ ← cache_set cache_key final_response ttl;
      mret final_response
  | _ => raise NameError
  end.

Definition process_message (message : string) (k : retrieval) : M t string :=
  catch
    (let normalized_message := _normalize_message message in
     let cache_key := normalized_message in
     cached_response ← cache_get cache_key;
     match cached_response with
     | Some text =>
         if negb (String.eqb text "") then
           _ ← append_turn "user" message;
           _ ← append_turn "assistant" text;
           mret text
         else answer message cache_key k
     | None => answer message cache_key k
     end)
    (fun _ => mret unexpected_error).

End Manager.
End ChatManager.

(** ** Text generation and embeddings of [services/llm.py] *)

Module CohereText.

(** What one call of the upstream embedding API does. *)
Record embed_reply : Type :=
  EmbedReply { embed_latency : Q; embed_outcome : res (list (list Q)) }.

(** what a call of the upstream API leaves of the client: the time it
    took has passed and it has been counted *)
Definition called (st : CohereClient.t) (latency : Q) : CohereClient.t :=
  CohereClient.Client (CohereClient.rate_limiter st) (CohereClient.cache st)
    (CohereClient.retry_backoff st) (CohereClient.clock st + latency)%Q
    (S (CohereClient.calls st)).

(** the rate limiting that opens [generate_text], [embed_text] and [chat]:
    [acquire], and a sleep of the wait returned when it is positive *)
Definition throttle (st : CohereClient.t) (tokens : Z) : res CohereClient.t :=
  match RateLimiter.acquire (CohereClient.rate_limiter st) (inject_Z tokens)
          (CohereClient.clock st) with
  | Raise e => Raise e
  | Ok (wait_time, l) =>
      let st1 := CohereClient.with_limiter st l in
      Ok (if Qltb 0 wait_time then CohereClient.sleep wait_time st1 else st1)
  end.

Section Generate.
(** [f"{temperature}"] *)
Context (format_float : Q -> string).
(** the upstream generation API: what its n-th call does *)
Context (upstream : nat -> CohereClient.reply).

Definition generate_key (prompt model : string) (max_tokens : Z) (temperature : Q)
  : string :=
  "gen_" +:+ PyStr.take 100 prompt +:+ "_" +:+ model +:+ "_" +:+ PyStr.of_int max_tokens
  +:+ "_" +:+ format_float temperature.

(** the body of the [try] of the retry loop of [generate_text] *)
Definition attempt (st : CohereClient.t) (key : string) (temperature : Q)
  : res string * CohereClient.t :=
  let r := upstream (CohereClient.calls st) in
  let st1 := called st (CohereClient.latency r) in
  match CohereClient.outcome r with
  | Raise e => (Raise e, st1)
  | Ok generated_text =>
      let ttl := if Qltb temperature (2 # 5) then 86400%Q else 3600%Q in
      match KnowledgeCache.set (CohereClient.cache st1) key generated_text (Some ttl)
              (CohereClient.clock st1) with
      | Ok c => (Ok generated_text, CohereClient.with_cache st1 c)
      | Raise e => (Raise e, st1)
      end
  end.

(** [while True: try: ... except Exception: ...], at most [fuel] rounds *)
Fixpoint retry_loop (fuel : nat) (retries max_retries : nat) (st : CohereClient.t)
    (key : string) (temperature : Q) : option (res string * CohereClient.t) :=
  match fuel with
  | O => None
  | S fuel' =>
      match attempt st key temperature with
      | (Ok generated_text, st1) => Some (Ok generated_text, st1)
      | (Raise e, st1) =>
          if (retries <? max_retries)%nat then
            let backoff := nth retries (CohereClient.retry_backoff st1) 0%Q in
            retry_loop fuel' (S retries) max_retries (CohereClient.sleep backoff st1)
                       key temperature
          else Some (Raise LLMError, st1)
      end
  end.

(** [generate_text(prompt, model, max_tokens, temperature, retry_on_error)] *)
Definition generate_text (st : CohereClient.t) (prompt model : string) (max_tokens : Z)
    (temperature : Q) (retry_on_error : bool) : option (res string * CohereClient.t) :=
  let tokens := (1 + Z.of_nat (String.length prompt) / 1000)%Z in
  match throttle st tokens with
  | Raise e => Some (Raise e, st)
  | Ok st2 =>
      let cache_key := generate_key prompt model max_tokens temperature in
      let max_retries :=
        if retry_on_error then length (CohereClient.retry_backoff st2) else O in
      let go st3 :=
        retry_loop (S (length (CohereClient.retry_backoff st))) 0 max_retries st3
                   cache_key temperature in
      match KnowledgeCache.get (CohereClient.cache st2) cache_key
              (CohereClient.clock st2) with
      | Raise e => Some (Raise e, st2)
      | Ok (Some cached_response, c) =>
          if String.eqb cached_response ""
          then go (CohereClient.with_cache st2 c)
          else Some (Ok cached_response, CohereClient.with_cache st2 c)
      | Ok (None, c) => go (CohereClient.with_cache st2 c)
      end
  end.

End Generate.

(** [embed_text(texts)]: one retry, two seconds after a failure *)
Definition embed_text (upstream : nat -> embed_reply) (st : CohereClient.t)
    (texts : list string) : res (list (list Q)) * CohereClient.t :=
  let tokens := Z.max 1 (Z.of_nat (length texts) / 5) in
  match throttle st tokens with
  | Raise e => (Raise e, st)
  | Ok st2 =>
      let r := upstream (CohereClient.calls st2) in
      let st3 := called st2 (embed_latency r) in
      match embed_outcome r with
      | Ok embeddings => (Ok embeddings, st3)
      | Raise _ =>
          let st4 := CohereClient.sleep 2 st3 in
          let r' := upstream (CohereClient.calls st4) in
          let st5 := called st4 (embed_latency r') in
          match embed_outcome r' with
          | Ok embeddings => (Ok embeddings, st5)
          | Raise _ => (Raise LLMError, st5)
          end
      end
  end.

(** what a cache key of [chat] keeps of a turn of the history *)
Definition turn_signature (msg : turn) : string * string :=
  (role msg, PyStr.take 20 (content msg)).

End CohereText.

(** ** The static knowledge base of [services/knowledge.py] *)

Module KnowledgeBase.

(** [self.fallback_knowledge] and [self.cache]: the cache holds the pairs
    of title and text that [search] has returned *)
Record t : Type := Base {
  fallback_knowledge : PyDict.dict string;
  cache : KnowledgeCache.t (string * string)
}.

(** [KnowledgeBase()] over the table it is given *)
Definition init (table : PyDict.dict string) : t :=
  Base table (KnowledgeCache.init 200 86400).

Definition with_cache (kb : t) (c : KnowledgeCache.t (string * string)) : t :=
  Base (fallback_knowledge kb) c.

(** [set(s.split())] *)
Definition words (s : string) : gset string := list_to_set (PyStr.split_ws s).

(** [_calculate_relevance(query, key)]. The scores are compared with each
    other and with 0.3 only; the rationals below are ordered as the floats
    of the source are. *)
Definition _calculate_relevance (query key : string) : Q :=
  if String.eqb query key then 1
  else if PyStr.contains (" " +:+ query +:+ " ") (" " +:+ key +:+ " ") then 9 # 10
  else if String.prefix key query then 8 # 10
  else if PyStr.contains query key then 7 # 10
  else if PyStr.contains key query then 5 # 10
  else
    let query_words := words query in
    let key_words := words key in
    let overlap := query_words ∩ key_words in
    if (size overlap =? 0)%nat then 0
    else (3 # 10) * (inject_Z (Z.of_nat (size overlap))
                     / inject_Z (Z.of_nat (Nat.max (size query_words) (size key_words)))).

Section Search.
(** [key.title()] *)
Context (str_title : string -> string).

(** one round of the loop over the table *)
Definition better (normalized_query : string) (best : string * string * Q)
    (item : string * string) : string * string * Q :=
  let score := _calculate_relevance normalized_query (fst item) in
  if Qltb (snd best) score then (str_title (fst item), snd item, score) else best.

Definition best_of (normalized_query : string) (items : PyDict.dict string)
  : string * string * Q :=
  fold_left (better normalized_query) items ("", "", 0%Q).

Definition search_key (query : string) : string :=
  "kb_search_" +:+ PyStr.take 50 (PyStr.lower query).

(** [search(query)] at clock [now]; a cached pair always tests true *)
Definition search (kb : t) (query : string) (now : Q) : res ((string * string) * t) :=
  let normalized_query := PyStr.lower query in
  let cache_key := search_key query in
  r ← KnowledgeCache.get (cache kb) cache_key now;
  match fst r with
  | Some cached_result => Ok (cached_result, with_cache kb (snd r))
  | None =>
      let best := best_of normalized_query (fallback_knowledge kb) in
      let result := fst best in
      if Qle_bool (3 # 10) (snd best) then
        c ← KnowledgeCache.set (snd r) cache_key result None now;
        Ok (result, with_cache kb c)
      else Ok (("", ""), with_cache kb (snd r))
  end.

End Search.
End KnowledgeBase.

(** ** The connection manager of [main.py] *)

Module ConnectionManager.
Section Manager.
(** the web sockets of the framework *)
Context {WebSocket : Type}.

Record t : Type := Connections {
  active_connections : gmap string WebSocket;
  chat_managers : gmap string ChatManager.t;
  last_activity : gmap string Q
}.

(** [ConnectionManager()] *)
Definition init : t := Connections ∅ ∅ ∅.

(** [connect(websocket, client_id)] at clock [now]; [accept] is what
    [websocket.accept()] does *)
Definition connect (m : t) (websocket : WebSocket) (accept : res unit)
    (client_id : string) (now : Q) : res t :=
  _ ← accept;
  Ok (Connections
        (<[client_id := websocket]> (active_connections m))
        (match chat_managers m !! client_id with
         | None => <[client_id := ChatManager.init now]> (chat_managers m)
         | Some _ => chat_managers m
         end)
        (<[client_id := now]> (last_activity m))).

(** [disconnect(client_id)] *)
Definition disconnect (m : t) (client_id : string) : t :=
  Connections (delete client_id (active_connections m))
              (delete client_id (chat_managers m))
              (delete client_id (last_activity m)).

(** [send_personal_message(message, client_id)] at clock [now];
    [send_text] is what the [send_text] of the socket does *)
Definition send_personal_message (m : t) (send_text : res unit) (client_id : string)
    (now : Q) : t :=
  match active_connections m !! client_id with
  | Some _ =>
      match send_text with
      | Ok _ => Connections (active_connections m) (chat_managers m)
                            (<[client_id := now]> (last_activity m))
      | Raise _ => disconnect m client_id
      end
  | None => m
  end.

Definition idle_threshold : Q := 7200.

(** the clients the sweep finds idle when the clock reads [current_time] *)
Definition idle_clients (m : t) (current_time : Q) : list string :=
  map fst
    (List.filter (fun item => Qltb idle_threshold (current_time - snd item))
                 (map_to_list (last_activity m))).

(** one round of the loop of [_cleanup_idle_connections], after its sleep *)
Definition cleanup_round (m : t) (current_time : Q) : t :=
  fold_left disconnect (idle_clients m current_time) m.

(** the calls made on a connection manager *)
Inductive op : Type :=
| OpConnect (websocket : WebSocket) (accept : res unit) (client_id : string) (now : Q)
| OpDisconnect (client_id : string)
| OpSend (send_text : res unit) (client_id : string) (now : Q)
| OpCleanup (current_time : Q).

(** a call of [connect] that raises leaves the manager as it was *)
Definition step (m : t) (o : op) : t :=
  match o with
  | OpConnect websocket accept client_id now =>
      match connect m websocket accept client_id now with
      | Ok m' => m'
      | Raise _ => m
      end
  | OpDisconnect client_id => disconnect m client_id
  | OpSend send_text client_id now => send_personal_message m send_text client_id now
  | OpCleanup current_time => cleanup_round m current_time
  end.

Definition run (m : t) (ops : list op) : t := fold_left step ops m.


End Manager.
Arguments t WebSocket : clear implicits.
Arguments op WebSocket : clear implicits.
End ConnectionManager.

(** ** The history of a chat manager *)

Module ChatSession.

(** [get_history()] *)
Definition get_history (st : ChatManager.t) : list turn := ChatManager.history st.

(** [clear_history()]: the session cache is left as it is *)
Definition clear_history (st : ChatManager.t) : ChatManager.t :=
  ChatManager.Manager [] (ChatManager._query_cache st) (ChatManager.clock st)
                      (ChatManager.generations st).

(** a call of the generation client that the manager counts as failed:
    it takes 15 seconds or more, or it raises *)
Definition fails (r : ChatManager.reply) : Prop :=
  (15 <= ChatManager.latency r)%Q \/ exists e, ChatManager.outcome r = Raise e.

(** the same manager with another history *)
Definition with_history (h : list turn) (st : ChatManager.t) : ChatManager.t :=
  ChatManager.Manager h (ChatManager._query_cache st) (ChatManager.clock st)
                      (ChatManager.generations st).

(** a computation that neither reads nor writes the history *)
Definition ignores_history {A : Type} (m : M ChatManager.t A) : Prop :=
  forall h st, m (with_history h st) = (fst (m st), with_history h (snd (m st))).

End ChatSession.

(** ** Predicates on texts *)



(** ** Sample states and inputs *)

(** a cache of capacity two, full, [a] accessed before [b] *)
Definition two_entries : KnowledgeCache.t string :=
  KnowledgeCache.Cache
    [("a", KnowledgeCache.Entry "x" 100%Q); ("b", KnowledgeCache.Entry "y" 100%Q)]
    2 3600%Q
    [("a", 1%Q); ("b", 2%Q)].

(** the upstream API down: every call raises at once *)
Definition upstream_down : nat -> CohereClient.reply :=
  fun _ => CohereClient.Reply 0 (Raise OtherError).

(** a generation client that answers every call in one second *)
Definition client_up : nat -> string -> list turn -> string -> ChatManager.reply :=
  fun _ _ _ _ => ChatManager.Reply 1 (Ok "Rust is a systems programming language.").

(** a fan-out in which both providers find nothing within a second *)
Definition nothing_found : ChatManager.retrieval :=
  ChatManager.Retrieval 1 true (ChatManager.Done (Ok ("", "")))
                        (ChatManager.Done (Ok ("", ""))).

(** a paragraph of 1001 letters *)
Definition long_paragraph : string := string_of_list_ascii (repeat "a"%char 1001).

(** a package that answers every call in a second: a search finds only a
    disambiguation page, the page of every title is one long paragraph *)
Definition wiki_sample : WikipediaService.wikipedia :=
  WikipediaService.Wikipedia
    (fun _ _ _ => WikipediaService.Reply 1 (Ok ["Mercury (disambiguation)"]))
    (fun _ _ => WikipediaService.Reply 1
                  (Ok (WikipediaService.Page (Ok long_paragraph) (Ok "Mercury is a planet."))))
    (fun _ _ _ => WikipediaService.Reply 1 (Ok "Mercury is a planet.")).

(** a generation client that is down: every call raises after a second *)
Definition client_down : nat -> string -> list turn -> string -> ChatManager.reply :=
  fun _ _ _ _ => ChatManager.Reply 1 (Raise OtherError).

(** the upstream API up: every call returns the same text in a second *)
Definition upstream_up : nat -> CohereClient.reply :=
  fun _ => CohereClient.Reply 1 (Ok "Hello there.").

(** an embedding API whose first call fails and whose later calls work *)
Definition embed_flaky : nat -> CohereText.embed_reply :=
  fun n => match n with
           | O => CohereText.EmbedReply 1 (Raise OtherError)
           | S _ => CohereText.EmbedReply 1 (Ok [[1 # 2; 1 # 4]%Q])
           end.

(** a history of seven turns *)
Definition seven_turns : list turn :=
  [ Turn "user" "one"; Turn "assistant" "two"; Turn "user" "three";
    Turn "assistant" "four"; Turn "user" "five"; Turn "assistant" "six";
    Turn "user" "seven" ].

(** fifty and a hundred letters *)
Definition fifty_letters : string := string_of_list_ascii (repeat "a"%char 50).
Definition hundred_letters : string := string_of_list_ascii (repeat "a"%char 100).

(** a client at clock 0 whose response cache holds one text under the key,
    until clock 100 *)
Definition client_with (key : string) : CohereClient.t :=
  CohereClient.Client (RateLimiter.init 20 60 30 0)
    (KnowledgeCache.Cache [(key, KnowledgeCache.Entry "Cached text." 100%Q)]
                          500 3600%Q [(key, 0%Q)])
    [1; 2; 4; 8]%Q 0 0.

(** a package that is down: every call raises after a second *)
Definition wiki_down : WikipediaService.wikipedia :=
  WikipediaService.Wikipedia
    (fun _ _ _ => WikipediaService.Reply 1 (Raise OtherError))
    (fun _ _ => WikipediaService.Reply 1 (Raise OtherError))
    (fun _ _ _ => WikipediaService.Reply 1 (Raise OtherError)).

(** a package that finds two titles for every query, and for which every
    title is ambiguous between four pages *)
Definition wiki_ambiguous : WikipediaService.wikipedia :=
  let options := ["Mercury (planet)"; "Mercury (element)"; "Mercury (mythology)";
                  "Mercury Records"] in
  WikipediaService.Wikipedia
    (fun _ _ _ => WikipediaService.Reply 1 (Ok ["Mercury (planet)"; "Mercury (element)"]))
    (fun _ _ => WikipediaService.Reply 1 (Raise (DisambiguationError options)))
    (fun _ _ _ => WikipediaService.Reply 1 (Raise (DisambiguationError options))).

(** [s.title()] for a text of ASCII characters: a letter that follows a
    letter is lowercased, any other letter is uppercased *)
Fixpoint ascii_title_from (in_word : bool) (s : string) : string :=
  match s with
  | EmptyString => EmptyString
  | String c s' =>
      let n := nat_of_ascii c in
      let is_lower := (97 <=? n)%nat && (n <=? 122)%nat in
      let is_upper := (65 <=? n)%nat && (n <=? 90)%nat in
      let c' := if in_word
                then (if is_upper then ascii_of_nat (n + 32) else c)
                else (if is_lower then ascii_of_nat (n - 32) else c) in
      String c' (ascii_title_from (is_lower || is_upper) s')
  end.

Definition ascii_title (s : string) : string := ascii_title_from false s.

(** a table of two topics *)
Definition two_topics : PyDict.dict string :=
  [ ("ai", "Artificial Intelligence (AI) refers to systems that can perform tasks requiring human intelligence.");
    ("machine learning", "Machine Learning is a subset of AI that gives computers the ability to learn from data without being explicitly programmed.") ].


(** * Properties *)

(** ** The models on sample inputs *)

Example lower_sample : PyStr.lower "Hello, World [X]" = "hello, world [x]".
Proof. reflexivity. Qed.

Example split_ws_sample : PyStr.split_ws "  What   IS  it? " = ["What"; "IS"; "it?"].
Proof. reflexivity. Qed.

Example split_sample :
  PyStr.split ("a" +:+ PyStr.blank_line +:+ PyStr.newline +:+ "b" +:+ PyStr.blank_line)
              PyStr.blank_line
  = ["a"; PyStr.newline +:+ "b"; ""].
Proof. reflexivity. Qed.

Example ref_marker_sample :
  PyStr.re_sub PyStr.ref_marker "" "x[12]y[]z[1a][3][[45]]" = "xy[]z[1a][]".
Proof. reflexivity. Qed.

Example heading_sample : PyStr.re_sub PyStr.heading "" "a==b==c===d====e" = "ac==e".
Proof. reflexivity. Qed.

Example normalize_sample :
  ChatManager._normalize_message "  What's   IS  rust? A_b-c! " = "whats is rust? a_bc".
Proof. reflexivity. Qed.

Example clean_query_sample :
  WikipediaService._clean_query "What is   the C++ Language?" = "the c language".
Proof. reflexivity. Qed.

Example clean_content_sample :
  WikipediaService._clean_content
    (" a [1] b" +:+ PyStr.blank_line +:+ "== H == c [x] ") = "a b  c [x]".
Proof. reflexivity. Qed.

Example filter_results_sample :
  WikipediaService.filter_results [] ["A"; "B (Disambiguation)"; "C"; "D"; "E"]
  = ["A"; "C"; "D"].
Proof. reflexivity. Qed.

Example question_types_sample :
  ChatManager._analyze_question_type
    (ChatManager._normalize_message "What is photosynthesis?") = ChatManager.factual
  /\ ChatManager._analyze_question_type
       (ChatManager._normalize_message "How do I bake bread") = ChatManager.procedural
  /\ ChatManager._analyze_question_type
       (ChatManager._normalize_message "difference between TCP and UDP")
     = ChatManager.comparison
  /\ ChatManager._analyze_question_type
       (ChatManager._normalize_message "random unrelated text") = ChatManager.knowledge.
Proof. repeat split; reflexivity. Qed.

Example lru_key_first_of_ties :
  KnowledgeCache.lru_key [("a", 2%Q); ("b", 1%Q); ("c", 1%Q)] = Some "b".
Proof. reflexivity. Qed.

(** ** Clock comparisons *)

Lemma Qltb_lt (x y : Q) : Qltb x y = true <-> (x < y)%Q.
Proof.
  unfold Qltb. rewrite negb_true_iff.
  split; intros H.
  - apply Qnot_le_lt. intros Hle. apply Qle_bool_iff in Hle. congruence.
  - destruct (Qle_bool y x) eqn:E; [|reflexivity].
    apply Qle_bool_iff in E. apply Qle_not_lt in E. contradiction.
Qed.

Lemma Qltb_ge (x y : Q) : Qltb x y = false <-> (y <= x)%Q.
Proof.
  unfold Qltb. rewrite negb_false_iff. apply Qle_bool_iff.
Qed.


(** ** Ordered dictionaries *)

Section DictFacts.
Context {V : Type}.
Implicit Types (d : PyDict.dict V) (k : string) (v : V).

Lemma dict_contains_keys d k : PyDict.contains d k = true <-> k ∈ PyDict.keys d.
Proof.
  unfold PyDict.contains. induction d as [|[k' v'] d IH]; simpl.
  - split; [discriminate | intros H; inversion H].
  - destruct (String.eqb_spec k k') as [->|Hne].
    + split; [intros _; left | reflexivity].
    + rewrite IH. split; [intros H; now right|].
      intros H. inversion H; subst; [contradiction | assumption].
Qed.

Lemma dict_get_None d k : PyDict.get d k = None <-> k ∉ PyDict.keys d.
Proof.
  rewrite <- dict_contains_keys. unfold PyDict.contains.
  destruct (PyDict.get d k); split; intros H; congruence.
Qed.

Lemma dict_get_set_eq d k v : PyDict.get (PyDict.set d k v) k = Some v.
Proof.
  induction d as [|[k' v'] d IH]; simpl.
  - now rewrite String.eqb_refl.
  - destruct (String.eqb_spec k k') as [->|Hne]; simpl.
    + now rewrite String.eqb_refl.
    + destruct (String.eqb_spec k k'); [contradiction | exact IH].
Qed.

Lemma dict_get_set_ne d k k' v :
  k <> k' -> PyDict.get (PyDict.set d k v) k' = PyDict.get d k'.
Proof.
  intros Hne. induction d as [|[k0 v0] d IH]; simpl.
  - destruct (String.eqb_spec k' k); [congruence | reflexivity].
  - destruct (String.eqb_spec k k0) as [->|Hk]; simpl.
    + destruct (String.eqb_spec k' k0); [congruence | reflexivity].
    + now rewrite IH.
Qed.

Lemma dict_keys_set d k v :
  PyDict.keys (PyDict.set d k v)
  = if PyDict.contains d k then PyDict.keys d else PyDict.keys d ++ [k].
Proof.
  unfold PyDict.contains. induction d as [|[k' v'] d IH]; simpl; [reflexivity|].
  destruct (String.eqb_spec k k') as [->|Hne]; simpl; [reflexivity|].
  rewrite IH. now destruct (PyDict.get d k).
Qed.

Lemma dict_length_keys d : length (PyDict.keys d) = length d.
Proof. apply length_map. Qed.

Lemma dict_keys_remove d k :
  PyDict.keys (PyDict.remove d k)
  = List.filter (fun k' => negb (String.eqb k k')) (PyDict.keys d).
Proof.
  induction d as [|[k' v'] d IH]; simpl; [reflexivity|].
  destruct (String.eqb k k'); simpl; now rewrite IH.
Qed.

Lemma dict_get_remove_eq d k : PyDict.get (PyDict.remove d k) k = None.
Proof.
  induction d as [|[k' v'] d IH]; simpl; [reflexivity|].
  destruct (String.eqb k k') eqn:E; simpl; [exact IH|].
  now rewrite E.
Qed.

Lemma dict_get_remove_ne d k k' :
  k <> k' -> PyDict.get (PyDict.remove d k) k' = PyDict.get d k'.
Proof.
  intros Hne. induction d as [|[k0 v0] d IH]; simpl; [reflexivity|].
  destruct (String.eqb_spec k k0) as [->|Hk]; simpl.
  - destruct (String.eqb_spec k' k0); [congruence | exact IH].
  - now rewrite IH.
Qed.

End DictFacts.

(** filtering one key out of a list of distinct keys *)
Lemma keys_filter_out (ks : list string) (k : string) :
  k ∉ ks -> List.filter (fun k' => negb (String.eqb k k')) ks = ks.
Proof.
  induction ks as [|k0 ks IH]; simpl; intros Hnot; [reflexivity|].
  destruct (String.eqb_spec k k0) as [->|Hne]; simpl.
  - exfalso. apply Hnot. left.
  - f_equal. apply IH. intros H. apply Hnot. now right.
Qed.

Lemma keys_filter_length (ks : list string) (k : string) :
  NoDup ks -> k ∈ ks ->
  S (length (List.filter (fun k' => negb (String.eqb k k')) ks)) = length ks.
Proof.
  induction ks as [|k0 ks IH]; simpl; intros Hnd Hin; [inversion Hin|].
  apply NoDup_cons in Hnd as [Hk0 Hnd].
  destruct (String.eqb_spec k k0) as [->|Hne]; simpl.
  - now rewrite keys_filter_out.
  - f_equal. apply IH; [assumption|].
    inversion Hin; subst; [contradiction | assumption].
Qed.

Lemma keys_filter_NoDup (ks : list string) (k : string) :
  NoDup ks -> NoDup (List.filter (fun k' => negb (String.eqb k k')) ks).
Proof.
  induction 1 as [|k0 ks Hk0 Hnd IH]; simpl; [constructor|].
  destruct (String.eqb k k0); simpl; [assumption|].
  constructor; [|assumption].
  intros Hin. apply Hk0. apply list_elem_of_In in Hin.
  apply filter_In in Hin as [Hin _]. now apply list_elem_of_In.
Qed.

Lemma keys_filter_elem (ks : list string) (k k' : string) :
  k' ∈ List.filter (fun x => negb (String.eqb k x)) ks <-> k' ∈ ks /\ k <> k'.
Proof.
  rewrite !list_elem_of_In, filter_In, negb_true_iff.
  destruct (String.eqb_spec k k'); split; intros [? ?]; split; congruence.
Qed.

Section DictMembership.
Context {V : Type}.
Implicit Types (d : PyDict.dict V) (k : string) (v : V).

Lemma dict_get_In d k v : PyDict.get d k = Some v -> In (k, v) d.
Proof.
  induction d as [|[k' v'] d IH]; simpl; [discriminate|].
  destruct (String.eqb_spec k k') as [->|Hne]; intros H.
  - left. congruence.
  - right. now apply IH.
Qed.

Lemma dict_In_get d k v : NoDup (PyDict.keys d) -> In (k, v) d -> PyDict.get d k = Some v.
Proof.
  induction d as [|[k' v'] d IH]; simpl; intros Hnd Hin; [contradiction|].
  apply NoDup_cons in Hnd as [Hk' Hnd].
  destruct Hin as [Heq|Hin].
  - inversion Heq; subst. now rewrite String.eqb_refl.
  - destruct (String.eqb_spec k k') as [->|Hne]; [|now apply IH].
    exfalso. apply Hk'. apply list_elem_of_In.
    change k' with (fst (k', v)). now apply in_map.
Qed.

Lemma dict_remove_length d k :
  NoDup (PyDict.keys d) -> PyDict.contains d k = true ->
  S (length (PyDict.remove d k)) = length d.
Proof.
  intros Hnd Hin. rewrite <- !dict_length_keys, dict_keys_remove.
  apply keys_filter_length; [assumption | now apply dict_contains_keys].
Qed.

Lemma dict_contains_same {W : Type} d (a : PyDict.dict W) k :
  PyDict.keys d = PyDict.keys a -> PyDict.contains a k = PyDict.contains d k.
Proof.
  intros Hk. apply eq_true_iff_eq. rewrite !dict_contains_keys. now rewrite Hk.
Qed.

End DictMembership.

(** ** The bounded cache *)

Lemma min_item_spec (best : string * Q) (items : list (string * Q)) :
  let m := KnowledgeCache.min_item best items in
  (m = best \/ In m items)
  /\ (snd m <= snd best)%Q
  /\ (forall x, In x items -> (snd m <= snd x)%Q).
Proof.
  revert best. induction items as [|x items IH]; intros best; simpl.
  - repeat split; [now left | apply Qle_refl | contradiction].
  - destruct (Qltb (snd x) (snd best)) eqn:E.
    + apply Qltb_lt in E. destruct (IH x) as (Hm & Hle & Hall).
      repeat split.
      * right. destruct Hm as [->|Hm]; [now left | now right].
      * apply Qle_trans with (snd x); [assumption | now apply Qlt_le_weak].
      * intros y [<-|Hy]; [assumption | now apply Hall].
    + apply Qltb_ge in E. destruct (IH best) as (Hm & Hle & Hall).
      repeat split.
      * destruct Hm as [->|Hm]; [now left | right; now right].
      * assumption.
      * intros y [<-|Hy]; [|now apply Hall].
        now apply Qle_trans with (snd best).
Qed.

Lemma lru_key_spec (a : PyDict.dict Q) (j : string) :
  KnowledgeCache.lru_key a = Some j ->
  exists t, In (j, t) a /\ forall x, In x a -> (t <= snd x)%Q.
Proof.
  destruct a as [|x a]; simpl; [discriminate|].
  intros [= <-]. destruct (min_item_spec x a) as (Hm & Hle & Hall).
  exists (snd (KnowledgeCache.min_item x a)). split.
  - rewrite <- surjective_pairing. destruct Hm as [->|Hm]; [now left | now right].
  - intros y [<-|Hy]; [assumption | now apply Hall].
Qed.

Lemma lru_key_None (a : PyDict.dict Q) : KnowledgeCache.lru_key a = None <-> a = [].
Proof. destruct a; simpl; split; congruence. Qed.

Section CacheFacts.
Context {V : Type}.
Implicit Types (c : KnowledgeCache.t V) (k key : string) (v : V).

Lemma lru_key_least c j :
  KnowledgeCache.wf c ->
  KnowledgeCache.lru_key (KnowledgeCache.access_times c) = Some j ->
  PyDict.contains (KnowledgeCache.cache c) j = true
  /\ exists t, PyDict.get (KnowledgeCache.access_times c) j = Some t
       /\ forall k' t', PyDict.get (KnowledgeCache.access_times c) k' = Some t' ->
                        (t <= t')%Q.
Proof.
  intros [Hkeys Hnd] Hj. apply lru_key_spec in Hj as (t & Hin & Hall).
  split.
  - apply dict_contains_keys. rewrite Hkeys. apply list_elem_of_In.
    change j with (fst (j, t)). now apply in_map.
  - exists t. split.
    + apply dict_In_get; [now rewrite <- Hkeys | assumption].
    + intros k' t' Hget. apply dict_get_In in Hget. exact (Hall _ Hget).
Qed.

Lemma evicted_wf c j : KnowledgeCache.wf c -> KnowledgeCache.wf (KnowledgeCache.evicted c j).
Proof.
  intros [Hkeys Hnd]. split; simpl.
  - rewrite !dict_keys_remove. now rewrite Hkeys.
  - rewrite dict_keys_remove. now apply keys_filter_NoDup.
Qed.

Lemma evict_lru_Some c j :
  KnowledgeCache.wf c ->
  KnowledgeCache.lru_key (KnowledgeCache.access_times c) = Some j ->
  KnowledgeCache._evict_lru c = Ok (KnowledgeCache.evicted c j).
Proof.
  intros Hwf Hj. destruct (lru_key_least c j Hwf Hj) as [Hin _].
  unfold KnowledgeCache._evict_lru. rewrite Hj. unfold PyDict.del.
  rewrite Hin. simpl.
  rewrite (dict_contains_same (KnowledgeCache.cache c)) by apply Hwf.
  now rewrite Hin.
Qed.

Lemma store_wf c key v ttl' now :
  KnowledgeCache.wf c -> KnowledgeCache.wf (KnowledgeCache.store c key v ttl' now).
Proof.
  intros [Hkeys Hnd]. unfold KnowledgeCache.wf; simpl.
  rewrite !dict_keys_set.
  rewrite (dict_contains_same (KnowledgeCache.cache c) (KnowledgeCache.access_times c))
    by assumption.
  destruct (PyDict.contains (KnowledgeCache.cache c) key) eqn:E.
  - now split.
  - split; [now rewrite Hkeys|].
    apply NoDup_app. repeat split; [assumption | | apply NoDup_singleton].
    intros x Hx Hx'. apply list_elem_of_singleton in Hx'. subst x.
    apply dict_contains_keys in Hx. congruence.
Qed.

Lemma store_size c key v ttl' now :
  KnowledgeCache.size (KnowledgeCache.store c key v ttl' now)
  = if PyDict.contains (KnowledgeCache.cache c) key
    then KnowledgeCache.size c else S (KnowledgeCache.size c).
Proof.
  unfold KnowledgeCache.size; simpl.
  rewrite <- !dict_length_keys, dict_keys_set.
  destruct (PyDict.contains _ key); [reflexivity|].
  rewrite length_app. simpl. lia.
Qed.

Lemma evicted_size c j :
  KnowledgeCache.wf c -> PyDict.contains (KnowledgeCache.cache c) j = true ->
  S (KnowledgeCache.size (KnowledgeCache.evicted c j)) = KnowledgeCache.size c.
Proof.
  intros [_ Hnd] Hin. unfold KnowledgeCache.size; simpl.
  now apply dict_remove_length.
Qed.

End CacheFacts.

Section CacheSteps.
Context {V : Type}.
Implicit Types (c : KnowledgeCache.t V) (k key : string) (v : V).

(** what [set] does, by cases on the capacity test *)
Lemma set_below c key v ttl' now :
  (Z.of_nat (KnowledgeCache.size c) < KnowledgeCache.max_size c)%Z ->
  KnowledgeCache.set c key v ttl' now = Ok (KnowledgeCache.store c key v ttl' now).
Proof.
  intros Hlt. unfold KnowledgeCache.set, KnowledgeCache.size in *.
  destruct (Z.leb_spec (KnowledgeCache.max_size c)
              (Z.of_nat (length (KnowledgeCache.cache c)))); [lia | reflexivity].
Qed.

Lemma set_full c key v ttl' now j :
  KnowledgeCache.wf c ->
  (KnowledgeCache.max_size c <= Z.of_nat (KnowledgeCache.size c))%Z ->
  KnowledgeCache.lru_key (KnowledgeCache.access_times c) = Some j ->
  KnowledgeCache.set c key v ttl' now
  = Ok (KnowledgeCache.store (KnowledgeCache.evicted c j) key v ttl' now).
Proof.
  intros Hwf Hge Hj. unfold KnowledgeCache.set, KnowledgeCache.size in *.
  destruct (Z.leb_spec (KnowledgeCache.max_size c)
              (Z.of_nat (length (KnowledgeCache.cache c)))); [|lia].
  now rewrite (evict_lru_Some c j).
Qed.

Lemma lru_key_nonempty c :
  KnowledgeCache.wf c -> (0 < KnowledgeCache.size c)%nat ->
  exists j, KnowledgeCache.lru_key (KnowledgeCache.access_times c) = Some j.
Proof.
  intros [Hkeys _] Hpos.
  destruct (KnowledgeCache.lru_key (KnowledgeCache.access_times c)) as [j|] eqn:E;
    [now exists j|].
  apply lru_key_None in E. unfold KnowledgeCache.size in Hpos.
  rewrite <- dict_length_keys, Hkeys, E in Hpos. simpl in Hpos. lia.
Qed.

Lemma get_keeps c key now :
  KnowledgeCache.wf c ->
  exists r c', KnowledgeCache.get c key now = Ok (r, c')
    /\ KnowledgeCache.wf c'
    /\ KnowledgeCache.max_size c' = KnowledgeCache.max_size c
    /\ (KnowledgeCache.size c' <= KnowledgeCache.size c)%nat.
Proof.
  intros Hwf. unfold KnowledgeCache.get.
  destruct (PyDict.get (KnowledgeCache.cache c) key) as [e|] eqn:E.
  - assert (Hin : PyDict.contains (KnowledgeCache.cache c) key = true)
      by (unfold PyDict.contains; now rewrite E).
    assert (Hin' : PyDict.contains (KnowledgeCache.access_times c) key = true)
      by (rewrite (dict_contains_same (KnowledgeCache.cache c)); [assumption | apply Hwf]).
    destruct (Qltb now (KnowledgeCache.expires e)).
    + eexists _, _. split; [reflexivity|].
      split; [|split; [reflexivity | unfold KnowledgeCache.size; simpl; lia]].
      split; simpl; [|apply Hwf].
      rewrite dict_keys_set, Hin'. apply Hwf.
    + unfold PyDict.del. rewrite Hin, Hin'. simpl.
      eexists _, _. split; [reflexivity|].
      split; [exact (evicted_wf c key Hwf)|]. split; [reflexivity|].
      pose proof (evicted_size c key Hwf Hin) as Hs.
      unfold KnowledgeCache.size, KnowledgeCache.evicted in *. simpl in *. lia.
  - eexists _, _. split; [reflexivity|].
    split; [assumption|]. split; [reflexivity | lia].
Qed.

Lemma set_keeps c key v ttl' now :
  KnowledgeCache.wf c ->
  exists c', KnowledgeCache.set c key v ttl' now = Ok c'
    /\ KnowledgeCache.wf c'
    /\ KnowledgeCache.max_size c' = KnowledgeCache.max_size c
    /\ ((1 <= KnowledgeCache.max_size c)%Z ->
        (Z.of_nat (KnowledgeCache.size c) <= KnowledgeCache.max_size c)%Z ->
        (Z.of_nat (KnowledgeCache.size c') <= KnowledgeCache.max_size c)%Z).
Proof.
  intros Hwf.
  destruct (Z.lt_ge_cases (Z.of_nat (KnowledgeCache.size c)) (KnowledgeCache.max_size c))
    as [Hlt|Hge].
  - rewrite set_below by assumption. eexists. split; [reflexivity|].
    split; [now apply store_wf|]. split; [reflexivity|].
    intros _ _. rewrite store_size. destruct (PyDict.contains _ key); lia.
  - destruct (KnowledgeCache.lru_key (KnowledgeCache.access_times c)) as [j|] eqn:Ej.
    + rewrite (set_full c key v ttl' now j) by assumption.
      eexists. split; [reflexivity|].
      split; [apply store_wf; now apply evicted_wf|]. split; [reflexivity|].
      intros _ Hle. rewrite store_size.
      destruct (lru_key_least c j Hwf Ej) as [Hin _].
      pose proof (evicted_size c j Hwf Hin).
      destruct (PyDict.contains _ key); lia.
    + unfold KnowledgeCache.set, KnowledgeCache.size in *.
      destruct (Z.leb_spec (KnowledgeCache.max_size c)
                  (Z.of_nat (length (KnowledgeCache.cache c)))); [|lia].
      unfold KnowledgeCache._evict_lru. rewrite Ej. simpl.
      eexists. split; [reflexivity|].
      split; [now apply store_wf|]. split; [reflexivity|].
      intros Hone Hle. exfalso.
      destruct (lru_key_nonempty c Hwf) as [j Hj]; [|congruence].
      unfold KnowledgeCache.size. lia.
Qed.

Lemma step_inv ms c (o : KnowledgeCache.op V) :
  (1 <= ms)%Z -> KnowledgeCache.inv ms c ->
  exists c', KnowledgeCache.step c o = Ok c' /\ KnowledgeCache.inv ms c'.
Proof.
  intros Hms (Hwf & Hmax & Hsize). destruct o as [key now|key v ttl' now|]; simpl.
  - destruct (get_keeps c key now Hwf) as (r & c' & -> & Hwf' & Hmax' & Hle).
    exists c'. split; [reflexivity|]. repeat split; try apply Hwf'; [congruence | lia].
  - destruct (set_keeps c key v ttl' now Hwf) as (c' & -> & Hwf' & Hmax' & Hle).
    exists c'. split; [reflexivity|]. repeat split; try apply Hwf'; [congruence|].
    rewrite Hmax in Hle. now apply Hle.
  - eexists. split; [reflexivity|].
    split; [split; [reflexivity | apply NoDup_nil_2]|].
    split; [assumption | unfold KnowledgeCache.size; simpl; lia].
Qed.

Lemma run_inv ms c (ops : list (KnowledgeCache.op V)) :
  (1 <= ms)%Z -> KnowledgeCache.inv ms c ->
  exists c', KnowledgeCache.run c ops = Ok c' /\ KnowledgeCache.inv ms c'.
Proof.
  intros Hms. revert c. induction ops as [|o ops IH]; intros c Hinv; simpl.
  - now exists c.
  - destruct (step_inv ms c o Hms Hinv) as (c1 & -> & Hinv1). simpl.
    now apply IH.
Qed.

Lemma init_inv ms (ttl : Q) : (0 <= ms)%Z -> KnowledgeCache.inv ms (KnowledgeCache.init (V:=V) ms ttl).
Proof.
  intros Hms. split; [split; [reflexivity | apply NoDup_nil_2]|].
  split; [reflexivity | unfold KnowledgeCache.size; simpl; lia].
Qed.

End CacheSteps.

Section CacheFill.
Context {V : Type}.
Implicit Types (c : KnowledgeCache.t V) (k key : string) (v : V).

Lemma set_fresh ms c key v ttl' now :
  (1 <= ms)%Z -> KnowledgeCache.inv ms c ->
  key ∉ PyDict.keys (KnowledgeCache.cache c) ->
  exists c', KnowledgeCache.set c key v ttl' now = Ok c'
    /\ KnowledgeCache.inv ms c'
    /\ Z.of_nat (KnowledgeCache.size c')
       = Z.min (Z.of_nat (KnowledgeCache.size c) + 1) ms
    /\ (forall x, x ∈ PyDict.keys (KnowledgeCache.cache c') ->
                  x = key \/ x ∈ PyDict.keys (KnowledgeCache.cache c)).
Proof.
  intros Hms (Hwf & Hmax & Hsize) Hfresh.
  assert (Hnot : PyDict.contains (KnowledgeCache.cache c) key = false).
  { destruct (PyDict.contains (KnowledgeCache.cache c) key) eqn:E; [|reflexivity].
    apply dict_contains_keys in E. contradiction. }
  destruct (Z.lt_ge_cases (Z.of_nat (KnowledgeCache.size c)) (KnowledgeCache.max_size c))
    as [Hlt|Hge].
  - rewrite set_below by assumption. eexists. split; [reflexivity|].
    assert (Hs : KnowledgeCache.size (KnowledgeCache.store c key v ttl' now)
                 = S (KnowledgeCache.size c)) by (now rewrite store_size, Hnot).
    split; [|split].
    + split; [now apply store_wf|]. split; [assumption | lia].
    + lia.
    + intros x Hx. simpl in Hx. rewrite dict_keys_set, Hnot in Hx.
      apply elem_of_app in Hx as [Hx|Hx]; [now right|].
      apply list_elem_of_singleton in Hx. now left.
  - destruct (lru_key_nonempty c Hwf) as [j Hj]; [lia|].
    rewrite (set_full c key v ttl' now j) by assumption.
    destruct (lru_key_least c j Hwf Hj) as [Hin _].
    pose proof (evicted_size c j Hwf Hin) as Hev.
    assert (Hnot' : PyDict.contains (KnowledgeCache.cache (KnowledgeCache.evicted c j)) key
                    = false).
    { destruct (PyDict.contains (KnowledgeCache.cache (KnowledgeCache.evicted c j)) key)
        eqn:E; [|reflexivity].
      apply dict_contains_keys in E. simpl in E. rewrite dict_keys_remove in E.
      apply keys_filter_elem in E as [E _]. contradiction. }
    assert (Hs : KnowledgeCache.size
                   (KnowledgeCache.store (KnowledgeCache.evicted c j) key v ttl' now)
                 = KnowledgeCache.size c) by (rewrite store_size, Hnot'; exact Hev).
    eexists. split; [reflexivity|]. split; [|split].
    + split; [apply store_wf; now apply evicted_wf|]. split; [assumption | lia].
    + lia.
    + intros x Hx. simpl in Hx. rewrite dict_keys_set in Hx.
      change (PyDict.contains (PyDict.remove (KnowledgeCache.cache c) j) key)
        with (PyDict.contains (KnowledgeCache.cache (KnowledgeCache.evicted c j)) key) in Hx.
      rewrite Hnot' in Hx.
      apply elem_of_app in Hx as [Hx|Hx].
      * right. rewrite dict_keys_remove in Hx. now apply keys_filter_elem in Hx as [Hx _].
      * apply list_elem_of_singleton in Hx. now left.
Qed.

Lemma run_fresh ms (items : list (string * V * option Q * Q)) c :
  (1 <= ms)%Z -> KnowledgeCache.inv ms c ->
  NoDup (KnowledgeCache.item_keys items) ->
  (forall k, k ∈ KnowledgeCache.item_keys items ->
             k ∉ PyDict.keys (KnowledgeCache.cache c)) ->
  exists c', KnowledgeCache.run c (KnowledgeCache.inserts items) = Ok c'
    /\ KnowledgeCache.inv ms c'
    /\ Z.of_nat (KnowledgeCache.size c')
       = Z.min (Z.of_nat (KnowledgeCache.size c) + Z.of_nat (length items)) ms.
Proof.
  intros Hms. revert c.
  induction items as [|[[[key v] ttl'] now] items IH]; intros c Hinv Hnd Hnew; simpl.
  - exists c. split; [reflexivity|]. split; [assumption|].
    destruct Hinv as (_ & _ & Hsize). lia.
  - simpl in Hnd. apply NoDup_cons in Hnd as [Hkey Hnd].
    destruct (set_fresh ms c key v ttl' now Hms Hinv) as (c1 & -> & Hinv1 & Hs1 & Hk1).
    { apply Hnew. simpl. left. }
    simpl. destruct (IH c1 Hinv1 Hnd) as (c' & Hrun & Hinv' & Hs').
    { intros k Hk Hk'. apply Hk1 in Hk' as [->|Hk']; [contradiction|].
      apply (Hnew k); [simpl; now right | assumption]. }
    exists c'. split; [assumption|]. split; [assumption|].
    rewrite Hs', Hs1. lia.
Qed.

End CacheFill.

(** [set] stores the value under the key with its expiry *)
Lemma set_stores {V : Type} (c c1 : KnowledgeCache.t V) (key : string) (v : V)
    (ttl' : option Q) (now : Q) :
  KnowledgeCache.set c key v ttl' now = Ok c1 ->
  PyDict.get (KnowledgeCache.cache c1) key
  = Some (KnowledgeCache.Entry v (now + KnowledgeCache.ttl_or ttl' (KnowledgeCache.ttl c))%Q).
Proof.
  unfold KnowledgeCache.set. intros Hset.
  destruct (if (KnowledgeCache.max_size c <=? _)%Z then _ else _) as [c0|e] eqn:E;
    simpl in Hset; [|discriminate].
  injection Hset as <-. simpl.
  assert (Httl : KnowledgeCache.ttl c0 = KnowledgeCache.ttl c).
  { destruct (KnowledgeCache.max_size c <=? _)%Z; [|now injection E as <-].
    unfold KnowledgeCache._evict_lru in E.
    destruct (KnowledgeCache.lru_key _) as [j|]; [|now injection E as <-].
    destruct (PyDict.del (KnowledgeCache.cache c) j); simpl in E; [|discriminate].
    destruct (PyDict.del (KnowledgeCache.access_times c) j); simpl in E; [|discriminate].
    now injection E as <-. }
  rewrite Httl. apply dict_get_set_eq.
Qed.

Section CacheClaims.
Context {V : Type}.
Implicit Types (c : KnowledgeCache.t V) (k key : string) (v : V).

(** no call on a well-formed cache raises, and the cache stays well formed *)
Lemma run_wf c (ops : list (KnowledgeCache.op V)) :
  KnowledgeCache.wf c ->
  exists c', KnowledgeCache.run c ops = Ok c' /\ KnowledgeCache.wf c'.
Proof.
  revert c. induction ops as [|o ops IH]; intros c Hwf; simpl; [now exists c|].
  assert (Hstep : exists c1, KnowledgeCache.step c o = Ok c1 /\ KnowledgeCache.wf c1).
  { destruct o as [key now|key v ttl' now|]; simpl.
    - destruct (get_keeps c key now Hwf) as (r & c1 & -> & Hwf1 & _). now exists c1.
    - destruct (set_keeps c key v ttl' now Hwf) as (c1 & -> & Hwf1 & _). now exists c1.
    - eexists. split; [reflexivity|]. split; [reflexivity | apply NoDup_nil_2]. }
  destruct Hstep as (c1 & -> & Hwf1). simpl. now apply IH.
Qed.

(** an entry is returned while the clock is before its expiry, and is
    removed by the first [get] at or after it *)
Lemma get_entry c key (e : KnowledgeCache.entry V) now :
  PyDict.get (KnowledgeCache.cache c) key = Some e ->
  ((now < KnowledgeCache.expires e)%Q ->
     exists c', KnowledgeCache.get c key now = Ok (Some (KnowledgeCache.value e), c')
       /\ KnowledgeCache.cache c' = KnowledgeCache.cache c)
  /\ ((KnowledgeCache.expires e <= now)%Q ->
     exists c', KnowledgeCache.get c key now = Ok (None, c')
       /\ PyDict.get (KnowledgeCache.cache c') key = None
       /\ PyDict.get (KnowledgeCache.access_times c') key = None).
Proof.
  intros He. unfold KnowledgeCache.get. rewrite He. split; intros Hnow.
  - apply Qltb_lt in Hnow. rewrite Hnow. eexists. split; reflexivity.
  - apply Qltb_ge in Hnow. rewrite Hnow. unfold PyDict.del.
    assert (Hc : PyDict.contains (KnowledgeCache.cache c) key = true)
      by (unfold PyDict.contains; now rewrite He).
    rewrite Hc. simpl.
    destruct (PyDict.contains (KnowledgeCache.access_times c) key) eqn:Ea; simpl.
    + eexists. split; [reflexivity|]. simpl. split; apply dict_get_remove_eq.
    + eexists. split; [reflexivity|]. simpl. split; [apply dict_get_remove_eq|].
      unfold PyDict.contains in Ea.
      now destruct (PyDict.get (KnowledgeCache.access_times c) key).
Qed.

(** C4: for a bounded cache of capacity at least one, every sequence of
    calls on a fresh cache runs without raising and leaves at most
    [max_size] entries; a [set] on a cache at capacity first removes an
    entry whose last-access time is least among all entries, then stores;
    and one [set] for each of [max_size + 1] distinct keys on a fresh
    cache leaves exactly [max_size] entries. *)
Theorem C4_bounded_cache_size (max_size : Z) (ttl : Q) :
  (1 <= max_size)%Z ->
  (forall ops : list (KnowledgeCache.op V),
     exists c, KnowledgeCache.run (KnowledgeCache.init max_size ttl) ops = Ok c
       /\ (Z.of_nat (KnowledgeCache.size c) <= max_size)%Z)
  /\ (forall (ops : list (KnowledgeCache.op V)) c key v ttl' now,
        KnowledgeCache.run (KnowledgeCache.init max_size ttl) ops = Ok c ->
        (max_size <= Z.of_nat (KnowledgeCache.size c))%Z ->
        exists j t,
          PyDict.contains (KnowledgeCache.cache c) j = true
          /\ PyDict.get (KnowledgeCache.access_times c) j = Some t
          /\ (forall k' t', PyDict.get (KnowledgeCache.access_times c) k' = Some t' ->
                            (t <= t')%Q)
          /\ KnowledgeCache.set c key v ttl' now
             = Ok (KnowledgeCache.store (KnowledgeCache.evicted c j) key v ttl' now)
          /\ PyDict.get (KnowledgeCache.cache (KnowledgeCache.evicted c j)) j = None)
  /\ (forall items : list (string * V * option Q * Q),
        NoDup (KnowledgeCache.item_keys items) ->
        length items = S (Z.to_nat max_size) ->
        exists c,
          KnowledgeCache.run (KnowledgeCache.init max_size ttl)
                             (KnowledgeCache.inserts items) = Ok c
          /\ Z.of_nat (KnowledgeCache.size c) = max_size).
Proof.
  intros Hms.
  assert (Hinit : KnowledgeCache.inv max_size (KnowledgeCache.init (V:=V) max_size ttl))
    by (apply init_inv; lia).
  split; [|split].
  - intros ops. destruct (run_inv max_size _ ops Hms Hinit) as (c & Hrun & _ & _ & Hsize).
    now exists c.
  - intros ops c key v ttl' now Hrun Hfull.
    destruct (run_inv max_size _ ops Hms Hinit) as (c' & Hrun' & Hwf & Hmax & Hsize).
    rewrite Hrun in Hrun'. injection Hrun' as <-.
    destruct (lru_key_nonempty c Hwf) as [j Hj]; [lia|].
    destruct (lru_key_least c j Hwf Hj) as (Hin & t & Ht & Hleast).
    exists j, t. repeat split; try assumption.
    + apply set_full; [assumption | lia | assumption].
    + simpl. apply dict_get_remove_eq.
  - intros items Hnd Hlen.
    destruct (run_fresh max_size items _ Hms Hinit Hnd) as (c & Hrun & _ & Hsize).
    { intros k _ Hk. simpl in Hk. inversion Hk. }
    exists c. split; [assumption|].
    rewrite Hsize, Hlen. unfold KnowledgeCache.size. simpl. lia.
Qed.

(** C5: on a well-formed cache [set(k, v, ttl)] stores [v] under [k] with
    expiry [now + (ttl or self.ttl)]; a [get(k)] at a clock reading before
    the expiry returns [v], one at or after the expiry returns nothing and
    removes [k] from both dictionaries; so a [get(k)] at the clock reading
    of the [set] returns [v] when the time to live in force is positive.
    The same holds of any entry a cache holds. *)
Theorem C5_get_after_set_and_lazy_expiry c key v ttl' now :
  KnowledgeCache.wf c ->
  (exists c1, KnowledgeCache.set c key v ttl' now = Ok c1
     /\ let expiry := (now + KnowledgeCache.ttl_or ttl' (KnowledgeCache.ttl c))%Q in
        PyDict.get (KnowledgeCache.cache c1) key = Some (KnowledgeCache.Entry v expiry)
        /\ (forall now', (now' < expiry)%Q ->
              exists c2, KnowledgeCache.get c1 key now' = Ok (Some v, c2))
        /\ (forall now', (expiry <= now')%Q ->
              exists c2, KnowledgeCache.get c1 key now' = Ok (None, c2)
                /\ PyDict.get (KnowledgeCache.cache c2) key = None
                /\ PyDict.get (KnowledgeCache.access_times c2) key = None)
        /\ ((0 < KnowledgeCache.ttl_or ttl' (KnowledgeCache.ttl c))%Q ->
              exists c2, KnowledgeCache.get c1 key now = Ok (Some v, c2)))
  /\ (forall k (e : KnowledgeCache.entry V) t,
        PyDict.get (KnowledgeCache.cache c) k = Some e ->
        ((t < KnowledgeCache.expires e)%Q ->
           exists c', KnowledgeCache.get c k t = Ok (Some (KnowledgeCache.value e), c'))
        /\ ((KnowledgeCache.expires e <= t)%Q ->
           exists c', KnowledgeCache.get c k t = Ok (None, c')
             /\ PyDict.get (KnowledgeCache.cache c') k = None
             /\ PyDict.get (KnowledgeCache.access_times c') k = None)).
Proof.
  intros Hwf. split.
  - destruct (set_keeps c key v ttl' now Hwf) as (c1 & Hset & _ & _ & _).
    exists c1. split; [assumption|]. intros expiry.
    assert (Hget : PyDict.get (KnowledgeCache.cache c1) key
                   = Some (KnowledgeCache.Entry v expiry))
      by exact (set_stores c c1 key v ttl' now Hset).
    split; [exact Hget|].
    destruct (get_entry c1 key _ now Hget) as [Hnow _].
    split; [|split].
    + intros now' Hlt. destruct (get_entry c1 key _ now' Hget) as [Hv _].
      destruct (Hv Hlt) as (c2 & Hc2 & _). now exists c2.
    + intros now' Hge. destruct (get_entry c1 key _ now' Hget) as [_ Hx].
      exact (Hx Hge).
    + intros Hpos. destruct Hnow as (c2 & Hc2 & _); [|now exists c2].
      simpl. unfold expiry. lra.
  - intros k e t He. destruct (get_entry c k e t He) as [Hv Hx]. split.
    + intros Hlt. destruct (Hv Hlt) as (c' & Hc' & _). now exists c'.
    + exact Hx.
Qed.

(** C9: on a well-formed cache at capacity, a [set] of a key [k] that the
    cache already holds still removes the least-recently-accessed key [j]
    before it stores; when [j] is not [k], [j] is gone afterwards, [k]
    holds the new value, no key was added and the cache has
    [max_size - 1] entries. *)
Theorem C9_update_at_capacity_drops_lru c key v ttl' now j :
  KnowledgeCache.wf c ->
  Z.of_nat (KnowledgeCache.size c) = KnowledgeCache.max_size c ->
  PyDict.contains (KnowledgeCache.cache c) key = true ->
  KnowledgeCache.lru_key (KnowledgeCache.access_times c) = Some j ->
  let c' := KnowledgeCache.store (KnowledgeCache.evicted c j) key v ttl' now in
  KnowledgeCache.set c key v ttl' now = Ok c'
  /\ (j <> key ->
      PyDict.get (KnowledgeCache.cache c') j = None
      /\ PyDict.get (KnowledgeCache.cache c') key
         = Some (KnowledgeCache.Entry v
                   (now + KnowledgeCache.ttl_or ttl' (KnowledgeCache.ttl c))%Q)
      /\ (forall x, x ∈ PyDict.keys (KnowledgeCache.cache c') ->
                    x ∈ PyDict.keys (KnowledgeCache.cache c))
      /\ Z.of_nat (KnowledgeCache.size c') = (KnowledgeCache.max_size c - 1)%Z).
Proof.
  intros Hwf Hfull Hkey Hj c'. split.
  - apply set_full; [assumption | lia | assumption].
  - intros Hne.
    destruct (lru_key_least c j Hwf Hj) as [Hin _].
    assert (Hkey' : PyDict.contains (KnowledgeCache.cache (KnowledgeCache.evicted c j)) key
                    = true).
    { apply dict_contains_keys. simpl. rewrite dict_keys_remove.
      apply keys_filter_elem. split; [now apply dict_contains_keys | assumption]. }
    split; [|split; [|split]].
    + unfold c'. simpl. rewrite dict_get_set_ne by congruence. apply dict_get_remove_eq.
    + unfold c'. simpl. apply dict_get_set_eq.
    + intros x Hx. unfold c' in Hx. simpl in Hx. rewrite dict_keys_set in Hx.
      change (PyDict.contains (PyDict.remove (KnowledgeCache.cache c) j) key)
        with (PyDict.contains (KnowledgeCache.cache (KnowledgeCache.evicted c j)) key) in Hx.
      rewrite Hkey' in Hx. rewrite dict_keys_remove in Hx.
      now apply keys_filter_elem in Hx as [Hx _].
    + unfold c'. rewrite store_size, Hkey'.
      pose proof (evicted_size c j Hwf Hin). lia.
Qed.

End CacheClaims.

(** ** Concrete runs of the bounded cache *)

Lemma three_keys_distinct : NoDup ["a"; "b"; "c"].
Proof. refine (bool_decide_unpack _ _). vm_compute. exact I. Qed.

Lemma C4_bounded_cache_size_witness :
  (1 <= 2)%Z
  /\ exists c : KnowledgeCache.t string,
       KnowledgeCache.run (KnowledgeCache.init 2 3600)
         (KnowledgeCache.inserts
            [("a", "x", None, 1%Q); ("b", "y", None, 2%Q); ("c", "z", None, 3%Q)])
       = Ok c
       /\ Z.of_nat (KnowledgeCache.size c) = 2%Z.
Proof.
  split; [lia|].
  destruct (C4_bounded_cache_size (V:=string) 2 3600 ltac:(lia)) as (_ & _ & Hfill).
  apply Hfill; [exact three_keys_distinct | reflexivity].
Defined.

Lemma C5_get_after_set_and_lazy_expiry_witness :
  KnowledgeCache.wf (KnowledgeCache.init (V:=string) 2 3600)
  /\ exists c1 c2,
       KnowledgeCache.set (KnowledgeCache.init 2 3600) "k" "v" (Some 5%Q) 0%Q = Ok c1
       /\ KnowledgeCache.get c1 "k" 0%Q = Ok (Some "v", c2).
Proof.
  assert (Hwf : KnowledgeCache.wf (KnowledgeCache.init (V:=string) 2 3600))
    by (split; [reflexivity | apply NoDup_nil_2]).
  split; [exact Hwf|].
  destruct (C5_get_after_set_and_lazy_expiry
              (KnowledgeCache.init 2 3600) "k" "v" (Some 5%Q) 0%Q Hwf)
    as [(c1 & Hset & _ & _ & _ & Hnow) _].
  destruct Hnow as [c2 Hc2]; [vm_compute; reflexivity|].
  now exists c1, c2.
Defined.

Lemma C9_update_at_capacity_drops_lru_witness :
  KnowledgeCache.set two_entries "b" "new" None 3%Q
  = Ok (KnowledgeCache.store (KnowledgeCache.evicted two_entries "a") "b" "new" None 3%Q)
  /\ Z.of_nat (KnowledgeCache.size
                 (KnowledgeCache.store (KnowledgeCache.evicted two_entries "a")
                                       "b" "new" None 3%Q)) = 1%Z.
Proof.
  assert (Hwf : KnowledgeCache.wf two_entries).
  { split; [reflexivity|]. refine (bool_decide_unpack _ _). vm_compute. exact I. }
  destruct (C9_update_at_capacity_drops_lru two_entries "b" "new" None 3%Q "a" Hwf)
    as [Hset Hrest]; [reflexivity | reflexivity | reflexivity |].
  split; [exact Hset|].
  destruct Hrest as (_ & _ & _ & Hsize); [discriminate | exact Hsize].
Defined.

(** ** The token bucket *)

Lemma pydiv_pos (a b : Q) : (0 < b)%Q -> pydiv a b = Ok (a / b)%Q.
Proof.
  intros Hb. unfold pydiv.
  destruct (Qeq_bool b 0) eqn:E; [|reflexivity].
  apply Qeq_bool_iff in E. rewrite E in Hb. now apply Qlt_irrefl in Hb.
Qed.

Lemma Qdiv_pos (a b : Q) : (0 < a)%Q -> (0 < b)%Q -> (0 < a / b)%Q.
Proof.
  intros Ha Hb. unfold Qdiv. apply Qmult_lt_0_compat; [assumption|].
  now apply Qinv_lt_0_compat.
Qed.

Lemma pymin_le_l (a b : Q) : (pymin a b <= a)%Q.
Proof.
  unfold pymin. destruct (Qltb b a) eqn:E.
  - apply Qltb_lt in E. now apply Qlt_le_weak.
  - apply Qle_refl.
Qed.

Lemma pymin_le_r (a b : Q) : (pymin a b <= b)%Q.
Proof.
  unfold pymin. destruct (Qltb b a) eqn:E.
  - apply Qle_refl.
  - now apply Qltb_ge in E.
Qed.

Lemma pymin_glb (a b c : Q) : (c <= a)%Q -> (c <= b)%Q -> (c <= pymin a b)%Q.
Proof. intros Ha Hb. unfold pymin. now destruct (Qltb b a). Qed.

Lemma pymin_l (a b : Q) : (a <= b)%Q -> pymin a b = a.
Proof. intros H. unfold pymin. apply Qltb_ge in H. now rewrite H. Qed.

(** what [acquire] does, in terms of the refilled token count *)
Lemma acquire_spec (l : RateLimiter.t) (cost now : Q) :
  (0 < RateLimiter.rate l)%Q -> (0 < RateLimiter.per l)%Q ->
  let r := RateLimiter.refilled l now in
  let l1 := RateLimiter.Limiter (RateLimiter.rate l) (RateLimiter.per l)
              (RateLimiter.burst l) r now in
  RateLimiter.acquire l cost now
  = if Qltb r cost
    then Ok (((cost - r) * (RateLimiter.per l / RateLimiter.rate l))%Q, l1)
    else Ok (0%Q, RateLimiter.with_tokens l1 (r - cost)%Q).
Proof.
  intros Hrate Hper r l1. unfold RateLimiter.acquire, RateLimiter.refill.
  rewrite (pydiv_pos _ _ Hper). simpl.
  fold (RateLimiter.refilled l now). fold r.
  destruct (Qltb r cost); [|reflexivity].
  now rewrite (pydiv_pos _ _ Hrate).
Qed.

(** C6: a limiter built with burst [B] answers [acquire(B)] with a zero
    wait and takes the [B] tokens; an [acquire(1)] at the same clock
    reading then returns the wait [(1 - tokens) * (per / rate)], which is
    positive, and takes nothing. In general [acquire] refills to
    [min(burst, tokens + elapsed * (rate / per))], then takes the cost and
    returns 0 when that many tokens are there, else returns
    [(cost - tokens) * (per / rate)] and takes nothing. *)
Theorem C6_acquire_refill_then_deduct_or_wait (rate per burst t0 now : Q) :
  (0 < rate)%Q -> (0 < per)%Q -> (t0 <= now)%Q ->
  (exists l1,
     RateLimiter.acquire (RateLimiter.init rate per burst t0) burst now = Ok (0%Q, l1)
     /\ (RateLimiter.tokens l1 == 0)%Q
     /\ exists w l2,
          RateLimiter.acquire l1 1 now = Ok (w, l2)
          /\ w = ((1 - RateLimiter.tokens l2) * (per / rate))%Q
          /\ (0 < w)%Q
          /\ RateLimiter.tokens l2 = RateLimiter.refilled l1 now
          /\ ((0 <= burst)%Q -> (RateLimiter.tokens l2 == 0)%Q /\ (w == per / rate)%Q))
  /\ (forall (l : RateLimiter.t) (cost t : Q),
        (0 < RateLimiter.rate l)%Q -> (0 < RateLimiter.per l)%Q ->
        let r := RateLimiter.refilled l t in
        (r <= RateLimiter.burst l)%Q
        /\ ((RateLimiter.tokens l
             + (t - RateLimiter.last_refill l) * (RateLimiter.rate l / RateLimiter.per l)
             <= RateLimiter.burst l)%Q ->
            (r == RateLimiter.tokens l
                  + (t - RateLimiter.last_refill l)
                    * (RateLimiter.rate l / RateLimiter.per l))%Q)
        /\ ((cost <= r)%Q ->
            exists l', RateLimiter.acquire l cost t = Ok (0%Q, l')
              /\ RateLimiter.tokens l' = (r - cost)%Q
              /\ RateLimiter.last_refill l' = t)
        /\ ((r < cost)%Q ->
            exists l', RateLimiter.acquire l cost t
                       = Ok (((cost - r) * (RateLimiter.per l / RateLimiter.rate l))%Q, l')
              /\ RateLimiter.tokens l' = r
              /\ RateLimiter.last_refill l' = t)).
Proof.
  intros Hrate Hper Hclock. split.
  - pose proof (Qdiv_pos rate per Hrate Hper) as Hspeed.
    pose proof (Qdiv_pos per rate Hper Hrate) as Hpace.
    set (l0 := RateLimiter.init rate per burst t0).
    assert (Hr0 : RateLimiter.refilled l0 now = burst).
    { unfold RateLimiter.refilled, l0. simpl. apply pymin_l.
      assert (0 <= (now - t0) * (rate / per))%Q
        by (apply Qmult_le_0_compat; [lra | now apply Qlt_le_weak]).
      lra. }
    rewrite (acquire_spec l0 burst now Hrate Hper). rewrite Hr0.
    assert (Hnot : Qltb burst burst = false) by (apply Qltb_ge; apply Qle_refl).
    rewrite Hnot. eexists. split; [reflexivity|]. simpl.
    split; [lra|].
    set (l1 := RateLimiter.with_tokens _ _).
    assert (Hr1 : (RateLimiter.refilled l1 now <= 0)%Q).
    { unfold RateLimiter.refilled, l1. simpl.
      eapply Qle_trans; [apply pymin_le_r|]. lra. }
    rewrite (acquire_spec l1 1 now Hrate Hper).
    assert (Hlt : Qltb (RateLimiter.refilled l1 now) 1 = true) by (apply Qltb_lt; lra).
    rewrite Hlt. eexists _, _. split; [reflexivity|]. simpl.
    split; [reflexivity|]. split; [|split; [reflexivity|]].
    + apply Qmult_lt_0_compat; [lra | assumption].
    + intros Hburst.
      assert (Hz : (RateLimiter.refilled l1 now == 0)%Q).
      { apply Qle_antisym; [assumption|].
        unfold RateLimiter.refilled, l1. simpl. apply pymin_glb; lra. }
      split; [exact Hz|]. rewrite Hz. lra.
  - intros l cost t Hr Hp r. split; [apply pymin_le_l|]. split; [|split].
    + intros Hcap. unfold r, RateLimiter.refilled.
      apply Qle_antisym; [apply pymin_le_r|]. apply pymin_glb; [assumption | apply Qle_refl].
    + intros Hle. rewrite (acquire_spec l cost t Hr Hp). fold r.
      apply Qltb_ge in Hle. rewrite Hle. eexists. split; [reflexivity|]. now split.
    + intros Hlt. rewrite (acquire_spec l cost t Hr Hp). fold r.
      apply Qltb_lt in Hlt. rewrite Hlt. eexists. split; [reflexivity|]. now split.
Qed.

(** one [acquire] keeps the token count between zero and the burst *)
Lemma acquire_bounds (l : RateLimiter.t) (cost now : Q) :
  (0 < RateLimiter.rate l)%Q -> (0 < RateLimiter.per l)%Q ->
  (0 <= RateLimiter.tokens l <= RateLimiter.burst l)%Q ->
  (0 <= cost)%Q -> (RateLimiter.last_refill l <= now)%Q ->
  exists w l',
    RateLimiter.acquire l cost now = Ok (w, l')
    /\ RateLimiter.rate l' = RateLimiter.rate l
    /\ RateLimiter.per l' = RateLimiter.per l
    /\ RateLimiter.burst l' = RateLimiter.burst l
    /\ RateLimiter.last_refill l' = now
    /\ (0 <= w)%Q
    /\ (0 <= RateLimiter.tokens l' <= RateLimiter.burst l)%Q.
Proof.
  intros Hrate Hper [Hlo Hhi] Hcost Hclock.
  pose proof (Qdiv_pos _ _ Hrate Hper) as Hspeed.
  pose proof (Qdiv_pos _ _ Hper Hrate) as Hpace.
  assert (Hgain : (0 <= (now - RateLimiter.last_refill l)
                        * (RateLimiter.rate l / RateLimiter.per l))%Q)
    by (apply Qmult_le_0_compat; [lra | now apply Qlt_le_weak]).
  assert (Hr : (0 <= RateLimiter.refilled l now <= RateLimiter.burst l)%Q).
  { split; [|apply pymin_le_l]. unfold RateLimiter.refilled. apply pymin_glb; lra. }
  rewrite (acquire_spec l cost now Hrate Hper).
  destruct (Qltb (RateLimiter.refilled l now) cost) eqn:E.
  - apply Qltb_lt in E. eexists _, _. split; [reflexivity|]. simpl.
    repeat split; try tauto.
    apply Qmult_le_0_compat; [lra | now apply Qlt_le_weak].
  - apply Qltb_ge in E. eexists _, _. split; [reflexivity|]. simpl.
    repeat split; lra.
Qed.

Lemma run_bounds (calls : list (Q * Q)) (l : RateLimiter.t) :
  (0 < RateLimiter.rate l)%Q -> (0 < RateLimiter.per l)%Q ->
  (0 <= RateLimiter.tokens l <= RateLimiter.burst l)%Q ->
  Forall (fun call => (0 <= fst call)%Q) calls ->
  RateLimiter.monotone_from (RateLimiter.last_refill l) calls ->
  exists l', RateLimiter.run l calls = Ok l'
    /\ RateLimiter.burst l' = RateLimiter.burst l
    /\ (0 <= RateLimiter.tokens l' <= RateLimiter.burst l)%Q.
Proof.
  revert l. induction calls as [|[cost now] calls IH];
    intros l Hrate Hper Htok Hcost Hmono; simpl.
  - exists l. now split.
  - apply Forall_cons in Hcost as [Hc Hcost]. destruct Hmono as [Hnow Hmono]. simpl in Hc.
    destruct (acquire_bounds l cost now Hrate Hper Htok Hc Hnow)
      as (w & l1 & -> & Hr1 & Hp1 & Hb1 & Ht1 & _ & Htok1).
    simpl. destruct (IH l1) as (l' & Hrun & Hb' & Htok').
    + now rewrite Hr1.
    + now rewrite Hp1.
    + now rewrite Hb1.
    + assumption.
    + now rewrite Ht1.
    + exists l'. split; [assumption|]. split; [congruence|]. now rewrite <- Hb1.
Qed.

(** C7: for a limiter with positive rate and period and a non-negative
    burst, every sequence of [acquire] calls with non-negative costs and a
    clock that never runs backwards runs without raising and leaves
    [0 <= tokens <= burst]; the empty sequence is the limiter as built. *)
Theorem C7_tokens_between_zero_and_burst (rate per burst t0 : Q) (calls : list (Q * Q)) :
  (0 < rate)%Q -> (0 < per)%Q -> (0 <= burst)%Q ->
  Forall (fun call => (0 <= fst call)%Q) calls ->
  RateLimiter.monotone_from t0 calls ->
  exists l, RateLimiter.run (RateLimiter.init rate per burst t0) calls = Ok l
    /\ RateLimiter.burst l = burst
    /\ (0 <= RateLimiter.tokens l <= burst)%Q.
Proof.
  intros Hrate Hper Hburst Hcost Hmono.
  destruct (run_bounds calls (RateLimiter.init rate per burst t0)) as (l & Hrun & Hb & Htok);
    try assumption.
  - simpl. split; [assumption | apply Qle_refl].
  - exists l. now repeat split.
Qed.

(** ** Concrete runs of the token bucket *)

Lemma C6_acquire_refill_then_deduct_or_wait_witness :
  exists l1 w l2,
    RateLimiter.acquire (RateLimiter.init 20 60 30 0) 30 0 = Ok (0%Q, l1)
    /\ RateLimiter.acquire l1 1 0 = Ok (w, l2)
    /\ (w == 3)%Q
    /\ (RateLimiter.tokens l2 == 0)%Q.
Proof.
  destruct (C6_acquire_refill_then_deduct_or_wait 20 60 30 0 0)
    as [(l1 & H1 & _ & w & l2 & H2 & _ & _ & _ & Hzero) _];
    [reflexivity | reflexivity | discriminate |].
  destruct Hzero as [Ht Hw]; [discriminate|].
  exists l1, w, l2. repeat split; try assumption.
  rewrite Hw. reflexivity.
Defined.

Lemma C7_tokens_between_zero_and_burst_witness :
  exists l,
    RateLimiter.run (RateLimiter.init 20 60 30 0) [(30, 0); (1, 0); (2, 9)]%Q = Ok l
    /\ RateLimiter.burst l = 30%Q
    /\ (0 <= RateLimiter.tokens l <= 30)%Q.
Proof.
  apply (C7_tokens_between_zero_and_burst 20 60 30 0 [(30, 0); (1, 0); (2, 9)]%Q).
  - reflexivity.
  - reflexivity.
  - discriminate.
  - repeat constructor; discriminate.
  - simpl. repeat split; discriminate.
Defined.

(** ** Knowledge retrieval *)

(** the loop over [done] fills the two slots whatever order it runs in *)
Lemma absorb_done (wiki_first : bool) (wiki kb : res (string * string)) :
  fold_left ChatManager.absorb
    (ChatManager.done_of wiki_first (ChatManager.Done wiki) (ChatManager.Done kb))
    (ChatManager.Found "" "" "" "")
  = ChatManager.Found
      (match wiki with Ok (title, _) => title | Raise _ => "" end)
      (match wiki with Ok (_, info) => info | Raise _ => "" end)
      (match kb with Ok (title, _) => title | Raise _ => "" end)
      (match kb with Ok (_, info) => info | Raise _ => "" end).
Proof.
  destruct wiki_first, wiki as [[wt wi]|we], kb as [[kt ki]|ke]; reflexivity.
Qed.

Lemma retrieve_knowledge_total (wiki_first : bool) (wiki_task kb_task : ChatManager.task) :
  exists r, ChatManager._retrieve_knowledge wiki_first wiki_task kb_task = Ok r.
Proof.
  unfold ChatManager._retrieve_knowledge.
  destruct (fold_left _ _ _) as [wt wi kt ki]. simpl.
  destruct (String.eqb ki ""); simpl; [|eexists; reflexivity].
  destruct (String.eqb wi ""); simpl; eexists; reflexivity.
Qed.

(** C1: when both provider tasks are done, the aggregator returns the
    static provider's pair if its text is not empty, whatever the
    encyclopedic provider returned; else the encyclopedic provider's pair
    if its text is not empty; else two empty strings. A provider that
    raised counts as one that returned an empty text, and the aggregator
    returns normally for every state of the two tasks. *)
Theorem C1_aggregator_prefers_static_and_never_raises :
  (forall (wiki_first : bool) (wiki kb : res (string * string)),
     let pair r := match r with Ok p => p | Raise _ => ("", "") end in
     ChatManager._retrieve_knowledge wiki_first (ChatManager.Done wiki) (ChatManager.Done kb)
     = Ok (if negb (String.eqb (snd (pair kb)) "") then pair kb
           else if negb (String.eqb (snd (pair wiki)) "") then pair wiki
           else ("", "")))
  /\ (forall (wiki_first : bool) (e : exc) (title : string) (other : res (string * string)),
        ChatManager._retrieve_knowledge wiki_first
          (ChatManager.Done (Raise e)) (ChatManager.Done other)
        = ChatManager._retrieve_knowledge wiki_first
            (ChatManager.Done (Ok (title, ""))) (ChatManager.Done other)
        /\ ChatManager._retrieve_knowledge wiki_first
             (ChatManager.Done other) (ChatManager.Done (Raise e))
           = ChatManager._retrieve_knowledge wiki_first
               (ChatManager.Done other) (ChatManager.Done (Ok (title, ""))))
  /\ (forall (wiki_first : bool) (wiki_task kb_task : ChatManager.task),
        exists r, ChatManager._retrieve_knowledge wiki_first wiki_task kb_task = Ok r).
Proof.
  split; [|split].
  - intros wiki_first wiki kb pair. unfold ChatManager._retrieve_knowledge.
    rewrite absorb_done. simpl.
    destruct kb as [[kt ki]|ke], wiki as [[wt wi]|we]; simpl;
      repeat match goal with |- context [String.eqb ?s ""] => destruct (String.eqb s "") end;
      reflexivity.
  - intros wiki_first e title other. unfold ChatManager._retrieve_knowledge.
    rewrite !absorb_done. simpl.
    destruct other as [[ot oi]|oe]; simpl;
      repeat match goal with |- context [String.eqb ?s ""] => destruct (String.eqb s "") end;
      split; reflexivity.
  - apply retrieve_knowledge_total.
Qed.

(** ** The generation client *)

(** [find] returns the first element that passes the test *)
Lemma find_first {A : Type} (p : A -> bool) (l : list A) :
  match find p l with
  | Some x => exists pre post, l = pre ++ x :: post /\ p x = true
                               /\ (forall y, In y pre -> p y = false)
  | None => forall y, In y l -> p y = false
  end.
Proof.
  induction l as [|a l IH]; simpl; [intros y []|].
  destruct (p a) eqn:E.
  - exists [], l. repeat split; [assumption | intros y []].
  - destruct (find p l) as [x|].
    + destruct IH as (pre & post & -> & Hx & Hpre).
      exists (a :: pre), post. repeat split; [assumption|].
      intros y [<-|Hy]; [assumption | now apply Hpre].
    + intros y [<-|Hy]; [assumption | now apply IH].
Qed.

Section ChatFacts.
Context (format_float : Q -> string) (upstream : nat -> CohereClient.reply).
Hypothesis all_fail :
  forall n, exists e, CohereClient.outcome (upstream n) = Raise e.

Lemma attempt_fails (st : CohereClient.t) (key : string) (temperature : Q) (stream : bool) :
  exists e st1,
    CohereClient.attempt upstream st key temperature stream = (Raise e, st1)
    /\ CohereClient.calls st1 = S (CohereClient.calls st)
    /\ CohereClient.retry_backoff st1 = CohereClient.retry_backoff st.
Proof.
  unfold CohereClient.attempt.
  destruct (all_fail (CohereClient.calls st)) as [e ->].
  eexists _, _. split; [reflexivity|]. now split.
Qed.

(** with upstream down the loop makes one attempt more than it has
    retries left and ends in the scan of the fallback table *)
Lemma retry_loop_exhausts (max_retries : nat) (message key : string) (temperature : Q)
    (stream : bool) (fuel retries : nat) (st : CohereClient.t) :
  (max_retries - retries < fuel)%nat ->
  exists st',
    CohereClient.retry_loop upstream fuel retries max_retries st message key
                            temperature stream
    = Some (CohereClient.give_fallback message, st')
    /\ CohereClient.calls st' = (CohereClient.calls st + S (max_retries - retries))%nat.
Proof.
  revert retries st. induction fuel as [|fuel IH]; intros retries st Hfuel; [lia|].
  simpl. destruct (attempt_fails st key temperature stream) as (e & st1 & -> & Hcalls & _).
  destruct (Nat.ltb_spec retries max_retries) as [Hlt|Hge].
  - destruct (IH (S retries)
                (CohereClient.sleep (nth retries (CohereClient.retry_backoff st1) 0%Q) st1))
      as (st' & -> & Hcalls'); [lia|].
    exists st'. split; [reflexivity|]. simpl in Hcalls'. lia.
  - exists st1. split; [reflexivity|]. lia.
Qed.

Lemma cache_get_total {V : Type} (c : KnowledgeCache.t V) (key : string) (now : Q) :
  exists r c', KnowledgeCache.get c key now = Ok (r, c').
Proof.
  unfold KnowledgeCache.get.
  destruct (PyDict.get (KnowledgeCache.cache c) key) as [e|] eqn:E;
    [|eexists _, _; reflexivity].
  destruct (Qltb now (KnowledgeCache.expires e)); [eexists _, _; reflexivity|].
  unfold PyDict.del.
  assert (Hc : PyDict.contains (KnowledgeCache.cache c) key = true)
    by (unfold PyDict.contains; now rewrite E).
  rewrite Hc. simpl.
  destruct (PyDict.contains (KnowledgeCache.access_times c) key);
    simpl; eexists _, _; reflexivity.
Qed.

(** with upstream down, [chat] serves a non-streamed call from the
    response cache or runs out of retries and scans the fallback table *)
Lemma chat_exhausts (st : CohereClient.t) (message : string)
    (chat_history : list turn) (model : string) (temperature : Q)
    (stream retry_on_error : bool) :
  (0 < RateLimiter.rate (CohereClient.rate_limiter st))%Q ->
  (0 < RateLimiter.per (CohereClient.rate_limiter st))%Q ->
  exists r st',
    CohereClient.chat format_float upstream st message chat_history model temperature
                      stream retry_on_error = Some (r, st')
    /\ ((stream = false /\ CohereClient.calls st' = CohereClient.calls st
         /\ exists text, r = Ok text /\ text <> "")
        \/ (r = CohereClient.give_fallback message
            /\ CohereClient.calls st'
               = (CohereClient.calls st
                  + S (if retry_on_error
                       then length (CohereClient.retry_backoff st) else 0))%nat)).
Proof.
  intros Hrate Hper.
  unfold CohereClient.chat, CohereClient.chat_with.
  rewrite (acquire_spec _ _ _ Hrate Hper).
  set (key := CohereClient.cache_key format_float message chat_history model temperature).
  set (fuel := S (length (CohereClient.retry_backoff st))).
  set (retries := if retry_on_error then length (CohereClient.retry_backoff st) else 0%nat).
  assert (Hloop : forall st2,
            CohereClient.calls st2 = CohereClient.calls st ->
            CohereClient.retry_backoff st2 = CohereClient.retry_backoff st ->
            exists st',
              CohereClient.retry_loop upstream fuel 0
                (if retry_on_error then length (CohereClient.retry_backoff st2) else 0%nat)
                st2 message key temperature stream
              = Some (CohereClient.give_fallback message, st')
              /\ CohereClient.calls st' = (CohereClient.calls st + S retries)%nat).
  { intros st2 Hc Hb. rewrite Hb. fold retries.
    destruct (retry_loop_exhausts retries message key temperature stream fuel 0 st2)
      as (st' & Hrun & Hcalls); [unfold retries, fuel; destruct retry_on_error; lia|].
    exists st'. split; [exact Hrun|]. rewrite Hcalls, Hc. f_equal. f_equal. lia. }
  assert (Hstart : forall st2,
            CohereClient.calls st2 = CohereClient.calls st ->
            CohereClient.retry_backoff st2 = CohereClient.retry_backoff st ->
            exists r st',
              (if stream
               then CohereClient.retry_loop upstream fuel 0
                      (if retry_on_error
                       then length (CohereClient.retry_backoff st2) else 0%nat)
                      st2 message key temperature stream
               else
                 match KnowledgeCache.get (CohereClient.cache st2) key
                         (CohereClient.clock st2) with
                 | Raise e => Some (Raise e, st2)
                 | Ok (Some cached_response, c) =>
                     if String.eqb cached_response ""
                     then CohereClient.retry_loop upstream fuel 0
                            (if retry_on_error
                             then length (CohereClient.retry_backoff st2) else 0%nat)
                            (CohereClient.with_cache st2 c) message key temperature stream
                     else Some (Ok cached_response, CohereClient.with_cache st2 c)
                 | Ok (None, c) =>
                     CohereClient.retry_loop upstream fuel 0
                       (if retry_on_error
                        then length (CohereClient.retry_backoff st2) else 0%nat)
                       (CohereClient.with_cache st2 c) message key temperature stream
                 end) = Some (r, st')
              /\ ((stream = false /\ CohereClient.calls st' = CohereClient.calls st
                   /\ exists text, r = Ok text /\ text <> "")
                  \/ (r = CohereClient.give_fallback message
                      /\ CohereClient.calls st' = (CohereClient.calls st + S retries)%nat))).
  { intros st2 Hc Hb. destruct stream.
    - destruct (Hloop st2 Hc Hb) as (st' & Hrun & Hcalls).
      eexists _, st'. split; [exact Hrun|]. right. now split.
    - destruct (cache_get_total (CohereClient.cache st2) key (CohereClient.clock st2))
        as (v & c & ->).
      destruct v as [cached|].
      + destruct (String.eqb_spec cached "") as [->|Hne].
        * destruct (Hloop (CohereClient.with_cache st2 c) Hc Hb) as (st' & Hrun & Hcalls).
          eexists _, st'. split; [exact Hrun|]. right. now split.
        * eexists _, _. split; [reflexivity|]. left.
          split; [reflexivity|]. split; [exact Hc|]. now exists cached.
      + destruct (Hloop (CohereClient.with_cache st2 c) Hc Hb) as (st' & Hrun & Hcalls).
        eexists _, st'. split; [exact Hrun|]. right. now split. }
  destruct (Qltb (RateLimiter.refilled (CohereClient.rate_limiter st) (CohereClient.clock st))
              (inject_Z (CohereClient.request_cost message chat_history)));
    cbv zeta;
    match goal with
    | |- context [if Qltb 0 ?w then CohereClient.sleep ?w ?s1 else ?s1] =>
        apply (Hstart (if Qltb 0 w then CohereClient.sleep w s1 else s1));
          destruct (Qltb 0 w); reflexivity
    end.
Qed.

End ChatFacts.

(** the scan of the fallback table stops at the first key the lowercased
    message contains *)
Lemma give_fallback_first (message : string) :
  match CohereClient.fallback_for message with
  | Some (key, text) =>
      CohereClient.give_fallback message = Ok text
      /\ PyStr.contains (PyStr.lower message) key = true
      /\ exists pre post,
           CohereClient._get_fallback_responses = pre ++ (key, text) :: post
           /\ forall kv, In kv pre ->
                         PyStr.contains (PyStr.lower message) (fst kv) = false
  | None =>
      CohereClient.give_fallback message = Raise LLMError
      /\ forall kv, In kv CohereClient._get_fallback_responses ->
                    PyStr.contains (PyStr.lower message) (fst kv) = false
  end.
Proof.
  unfold CohereClient.give_fallback, CohereClient.fallback_for.
  pose proof (find_first
                (fun kv : string * string => PyStr.contains (PyStr.lower message) (fst kv))
                CohereClient._get_fallback_responses) as Hfind.
  destruct (find _ CohereClient._get_fallback_responses) as [[key text]|].
  - destruct Hfind as (pre & post & Heq & Hkey & Hpre).
    split; [reflexivity|]. split; [exact Hkey|]. now exists pre, post.
  - now split.
Qed.

(** "sport" is the first key of the table *)
Lemma give_fallback_sport (message : string) :
  PyStr.contains (PyStr.lower message) "sport" = true ->
  Some (CohereClient.give_fallback message)
  = option_map Ok (CohereClient.fallback_text "sport").
Proof.
  intros Hsport. unfold CohereClient.give_fallback, CohereClient.fallback_for.
  unfold CohereClient._get_fallback_responses at 1. simpl find.
  rewrite Hsport. reflexivity.
Qed.

(** C2: with every upstream call failing and a limiter of positive rate
    and period, [chat] returns; unless a non-streamed call is served from
    the response cache (no upstream call is made then), it makes one
    attempt more than it has retries and then returns the text of the
    first key of the fallback table, in the order of the table, that the
    lowercased message contains, and raises [LLMError] exactly when the
    message contains no key of the table. A message that contains "sport",
    the first key, gets the text of "sport". *)
Theorem C2_chat_falls_back_to_first_keyword (format_float : Q -> string)
    (upstream : nat -> CohereClient.reply) (st : CohereClient.t) (message : string)
    (chat_history : list turn) (model : string) (temperature : Q)
    (stream retry_on_error : bool) :
  (forall n, exists e, CohereClient.outcome (upstream n) = Raise e) ->
  (0 < RateLimiter.rate (CohereClient.rate_limiter st))%Q ->
  (0 < RateLimiter.per (CohereClient.rate_limiter st))%Q ->
  exists r st',
    CohereClient.chat format_float upstream st message chat_history model temperature
                      stream retry_on_error = Some (r, st')
    /\ ((stream = false /\ CohereClient.calls st' = CohereClient.calls st
         /\ exists text, r = Ok text /\ text <> "")
        \/ (CohereClient.calls st'
            = (CohereClient.calls st
               + S (if retry_on_error then length (CohereClient.retry_backoff st) else 0))%nat
            /\ match CohereClient.fallback_for message with
               | Some (key, text) =>
                   r = Ok text
                   /\ PyStr.contains (PyStr.lower message) key = true
                   /\ exists pre post,
                        CohereClient._get_fallback_responses = pre ++ (key, text) :: post
                        /\ forall kv, In kv pre ->
                                      PyStr.contains (PyStr.lower message) (fst kv) = false
               | None =>
                   r = Raise LLMError
                   /\ forall kv, In kv CohereClient._get_fallback_responses ->
                                 PyStr.contains (PyStr.lower message) (fst kv) = false
               end
            /\ (PyStr.contains (PyStr.lower message) "sport" = true ->
                Some r = option_map Ok (CohereClient.fallback_text "sport")))).
Proof.
  intros Hdown Hrate Hper.
  destruct (chat_exhausts format_float upstream Hdown st message chat_history model
              temperature stream retry_on_error Hrate Hper)
    as (r & st' & Hrun & [Hhit|[Hr Hcalls]]);
    exists r, st'; (split; [exact Hrun|]); [now left|].
  right. split; [exact Hcalls|]. subst r. split; [|apply give_fallback_sport].
  pose proof (give_fallback_first message) as Hfirst.
  destruct (CohereClient.fallback_for message) as [[key text]|]; exact Hfirst.
Qed.


(** ** Concrete runs of the generation client *)

Lemma C2_chat_falls_back_to_first_keyword_witness :
  exists r st',
    CohereClient.chat (fun _ => "0.7") upstream_down (CohereClient.init 0)
      "Any SPORTS news?" [] "command" (7 # 10) false true = Some (r, st')
    /\ CohereClient.calls st' = 5%nat
    /\ Some r = option_map Ok (CohereClient.fallback_text "sport").
Proof.
  destruct (C2_chat_falls_back_to_first_keyword (fun _ => "0.7") upstream_down
              (CohereClient.init 0) "Any SPORTS news?" [] "command" (7 # 10) false true)
    as (r & st' & Hchat & Hcases);
    [intros n; now exists OtherError | reflexivity | reflexivity |].
  exists r, st'. split; [exact Hchat|].
  destruct Hcases as [(_ & Hcalls & _)|(Hcalls & _ & Hsport)].
  - exfalso. vm_compute in Hchat. injection Hchat as _ <-. discriminate Hcalls.
  - split; [exact Hcalls | apply Hsport; reflexivity].
Defined.

(** A message that contains two keys gets the text of the one that comes
    first in the table: "health" is in the message, the text returned is
    that of "sport". *)
Lemma C2_text_of_another_keyword :
  exists text st',
    CohereClient.chat (fun _ => "0.7") upstream_down (CohereClient.init 0)
      "health and sport" [] "command" (7 # 10) false true = Some (Ok text, st')
    /\ PyStr.contains (PyStr.lower "health and sport") "health" = true
    /\ CohereClient.fallback_text "sport" = Some text
    /\ CohereClient.fallback_text "health" <> Some text.
Proof.
  eexists _, _. split; [vm_compute; reflexivity|].
  split; [reflexivity|]. split; [reflexivity | discriminate].
Qed.

(** ** The chat manager *)

Lemma string_app_nonempty (a b : string) : a <> "" -> a +:+ b <> "".
Proof. destruct a; [congruence | discriminate]. Qed.

Lemma post_process_nonempty (response message title : string) :
  ChatManager._post_process_response response message title <> "".
Proof.
  unfold ChatManager._post_process_response.
  destruct (String.eqb_spec response "") as [->|Hne]; [discriminate|].
  destruct (_ && _); [now apply string_app_nonempty | assumption].
Qed.

Section ManagerFacts.
Context (fallback_knowledge : list (string * string)).
Context (cohere_client : nat -> string -> list turn -> string -> ChatManager.reply).

Abbreviation generate := (ChatManager.generate fallback_knowledge cohere_client).
Abbreviation answer := (ChatManager.answer fallback_knowledge cohere_client).
Abbreviation process_message := (ChatManager.process_message fallback_knowledge cohere_client).

Lemma call_client_keeps (message : string) (chat_history : list turn) (preamble : string)
    (st : ChatManager.t) :
  let st1 := snd (ChatManager.call_client cohere_client message chat_history preamble st) in
  ChatManager.history st1 = ChatManager.history st
  /\ ChatManager._query_cache st1 = ChatManager._query_cache st
  /\ ChatManager.generations st1 = S (ChatManager.generations st).
Proof.
  unfold ChatManager.call_client. destruct (Qle_bool 15 _); simpl; now repeat split.
Qed.

(** one round of the loop of attempts *)
Lemma generate_round (message : string) (chat_history : list turn)
    (system_prompt title retrieved_info : string)
    (fuel current_retry : nat) (response : option string) (st : ChatManager.t) :
  generate (S fuel) current_retry response message chat_history system_prompt
           title retrieved_info st
  = if (current_retry <=? 2)%nat then
      match ChatManager.call_client cohere_client message chat_history system_prompt st with
      | (Ok r, st1) => (Ok (Some (Some r)), st1)
      | (Raise _, st1) =>
          if (S current_retry <=? 2)%nat then
            generate fuel (S current_retry) response message chat_history system_prompt
                     title retrieved_info
                     (snd (ChatManager.sleep (2 ^ Z.of_nat (S current_retry))%Q st1))
          else
            generate fuel (S current_retry)
                     (Some (ChatManager._create_fallback_response fallback_knowledge
                              message title retrieved_info))
                     message chat_history system_prompt title retrieved_info st1
      end
    else (Ok (Some response), st).
Proof.
  cbn [ChatManager.generate]. destruct (current_retry <=? 2)%nat; [|reflexivity].
  unfold catch, mbind, M_bind.
  destruct (ChatManager.call_client _ _ _ _ st) as [[r|e] st1]; [reflexivity|].
  destruct (S current_retry <=? 2)%nat; reflexivity.
Qed.

(** the loop of attempts ends with [response] bound, and touches neither
    the history nor the session cache *)
Lemma generate_binds (message : string) (chat_history : list turn)
    (system_prompt title retrieved_info : string)
    (fuel current_retry : nat) (response : option string) (st : ChatManager.t) :
  (3 - current_retry < fuel)%nat ->
  (current_retry <= 2)%nat \/ response <> None ->
  exists r st',
    generate fuel current_retry response message chat_history system_prompt
             title retrieved_info st = (Ok (Some (Some r)), st')
    /\ ChatManager.history st' = ChatManager.history st
    /\ ChatManager._query_cache st' = ChatManager._query_cache st.
Proof.
  revert current_retry response st.
  induction fuel as [|fuel IH]; intros current_retry response st Hfuel Hbound; [lia|].
  rewrite generate_round. destruct (Nat.leb_spec current_retry 2) as [Hle|Hgt].
  - destruct (call_client_keeps message chat_history system_prompt st) as (Hh & Hc & _).
    destruct (ChatManager.call_client _ _ _ _ st) as [[r|e] st1]; simpl in Hh, Hc.
    + now exists r, st1.
    + destruct (Nat.leb_spec (S current_retry) 2) as [Hle'|Hgt'].
      * destruct (IH (S current_retry) response
                    (snd (ChatManager.sleep (2 ^ Z.of_nat (S current_retry))%Q st1)))
          as (r & st' & Hrun & Hh' & Hc'); [lia | left; lia |].
        exists r, st'. split; [exact Hrun|]. simpl in Hh', Hc'. split; congruence.
      * destruct (IH (S current_retry)
                    (Some (ChatManager._create_fallback_response fallback_knowledge
                             message title retrieved_info)) st1)
          as (r & st' & Hrun & Hh' & Hc'); [lia | right; discriminate |].
        exists r, st'. split; [exact Hrun|]. split; congruence.
  - destruct Hbound as [Hle|Hsome]; [lia|].
    destruct response as [r|]; [|congruence].
    exists r, st. now split.
Qed.

Lemma await_knowledge_ok (k : ChatManager.retrieval) (st : ChatManager.t) :
  exists found st1,
    ChatManager.await_knowledge k st = (Ok found, st1)
    /\ ChatManager.history st1 = ChatManager.history st
    /\ ChatManager._query_cache st1 = ChatManager._query_cache st.
Proof.
  unfold ChatManager.await_knowledge. destruct (Qle_bool 10 _).
  - eexists _, _. split; [reflexivity|]. now split.
  - destruct (retrieve_knowledge_total (ChatManager.wiki_first k)
                (ChatManager.wiki_task k) (ChatManager.kb_task k)) as [[title info] ->].
    eexists _, _. split; [reflexivity|]. now split.
Qed.

(** after a cache miss the answer is not empty, is appended to the history
    after the message and is cached for an hour or a day from then on *)
Lemma answer_caches (message cache_key : string) (k : ChatManager.retrieval)
    (st : ChatManager.t) :
  exists text st' ttl,
    answer message cache_key k st = (Ok text, st')
    /\ text <> ""
    /\ (ttl = 86400%Q \/ ttl = 3600%Q)
    /\ ChatManager._query_cache st'
       = TTLCache.set (ChatManager._query_cache st) cache_key text (Some ttl)
                      (ChatManager.clock st')
    /\ ChatManager.history st'
       = ChatManager.history st ++ [Turn "user" message; Turn "assistant" text].
Proof.
  unfold ChatManager.answer, mbind, M_bind, read.
  destruct (await_knowledge_ok k st) as ([[title info] source] & st1 & -> & Hh1 & Hc1).
  match goal with
  | |- context [ChatManager.generate _ _ 4 0 None ?m ?h ?p ?t ?i st1] =>
      destruct (generate_binds m h p t i 4 0 None st1)
        as (response & st2 & -> & Hh2 & Hc2); [lia | left; lia |]
  end.
  unfold ChatManager.append_turn, ChatManager.cache_set, mret, M_ret. simpl.
  eexists _, _, (match ChatManager._analyze_question_type cache_key with
                 | ChatManager.factual | ChatManager.knowledge => 86400%Q
                 | _ => 3600%Q
                 end).
  split; [reflexivity|].
  split; [apply post_process_nonempty|]. simpl.
  split; [destruct (ChatManager._analyze_question_type cache_key); auto|].
  split.
  - rewrite Hc2, Hc1. reflexivity.
  - rewrite Hh2, Hh1, <- app_assoc. reflexivity.
Qed.

(** the path of [process_message] through a cache hit *)
Lemma process_hit (message : string) (k : ChatManager.retrieval) (st : ChatManager.t)
    (e : TTLCache.entry) :
  TTLCache.cache (ChatManager._query_cache st) !! ChatManager._normalize_message message
  = Some e ->
  (ChatManager.clock st < TTLCache.expires e)%Q ->
  TTLCache.value e <> "" ->
  process_message message k st
  = (Ok (TTLCache.value e),
     ChatManager.Manager
       (ChatManager.history st
        ++ [Turn "user" message; Turn "assistant" (TTLCache.value e)])
       (ChatManager._query_cache st) (ChatManager.clock st)
       (ChatManager.generations st)).
Proof.
  intros He Hfresh Hne.
  unfold ChatManager.process_message, catch, mbind, M_bind, ChatManager.cache_get,
    TTLCache.get.
  rewrite He. apply Qltb_lt in Hfresh. rewrite Hfresh.
  destruct (String.eqb_spec (TTLCache.value e) "") as [Heq|_]; [contradiction|].
  simpl. now rewrite <- app_assoc.
Qed.

(** whatever path it takes, [process_message] returns a text that is not
    empty and that the session cache then holds, unexpired, under the
    normalized message *)
Lemma process_caches (message : string) (k : ChatManager.retrieval) (st : ChatManager.t) :
  exists text st1 e,
    process_message message k st = (Ok text, st1)
    /\ TTLCache.cache (ChatManager._query_cache st1)
         !! ChatManager._normalize_message message = Some e
    /\ TTLCache.value e = text
    /\ text <> ""
    /\ (ChatManager.clock st1 < TTLCache.expires e)%Q.
Proof.
  assert (Hmiss : forall st0,
            exists text st1 e,
              answer message (ChatManager._normalize_message message) k st0 = (Ok text, st1)
              /\ TTLCache.cache (ChatManager._query_cache st1)
                   !! ChatManager._normalize_message message = Some e
              /\ TTLCache.value e = text /\ text <> ""
              /\ (ChatManager.clock st1 < TTLCache.expires e)%Q).
  { intros st0.
    destruct (answer_caches message (ChatManager._normalize_message message) k st0)
      as (text & st1 & ttl & Hrun & Hne & Httl & Hcache & _).
    exists text, st1. eexists. split; [exact Hrun|]. rewrite Hcache. simpl.
    split; [apply lookup_insert_eq|]. simpl. split; [reflexivity|]. split; [assumption|].
    destruct Httl as [-> | ->]; simpl; lra. }
  unfold ChatManager.process_message, catch, mbind, M_bind.
  unfold ChatManager.cache_get at 1, TTLCache.get.
  destruct (TTLCache.cache (ChatManager._query_cache st)
              !! ChatManager._normalize_message message) as [e|] eqn:He.
  - destruct (Qltb (ChatManager.clock st) (TTLCache.expires e)) eqn:Hfresh.
    + destruct (String.eqb_spec (TTLCache.value e) "") as [Heq|Hne]; simpl.
      * match goal with
        | |- context [answer _ _ _ ?s] =>
            destruct (Hmiss s) as (text & st1 & e1 & -> & Hrest)
        end.
        now exists text, st1, e1.
      * eexists _, _, e. split; [reflexivity|]. simpl.
        split; [exact He|]. split; [reflexivity|]. split; [assumption|].
        now apply Qltb_lt.
    + match goal with
      | |- context [answer _ _ _ ?s] =>
          destruct (Hmiss s) as (text & st1 & e1 & -> & Hrest)
      end.
      now exists text, st1, e1.
  - match goal with
    | |- context [answer _ _ _ ?s] =>
        destruct (Hmiss s) as (text & st1 & e1 & -> & Hrest)
    end.
    now exists text, st1, e1.
Qed.

(** C3: when the session cache holds, under the normalized message, an
    unexpired text that is not empty, [process_message] returns that text
    as it is, appends the user turn and the assistant turn with that text
    to the history, and calls the generation client not once; and a text
    is in that state whenever a message with the same normalized form was
    processed before and the clock has not reached the expiry of its
    entry, so the second answer is the first one. *)
Theorem C3_cache_hit_returns_cached_text :
  (forall (message : string) (k : ChatManager.retrieval) (st : ChatManager.t)
          (e : TTLCache.entry),
     TTLCache.cache (ChatManager._query_cache st) !! ChatManager._normalize_message message
     = Some e ->
     (ChatManager.clock st < TTLCache.expires e)%Q ->
     TTLCache.value e <> "" ->
     exists st',
       process_message message k st = (Ok (TTLCache.value e), st')
       /\ ChatManager.history st'
          = ChatManager.history st
            ++ [Turn "user" message; Turn "assistant" (TTLCache.value e)]
       /\ ChatManager.generations st' = ChatManager.generations st
       /\ ChatManager._query_cache st' = ChatManager._query_cache st)
  /\ (forall (m1 m2 : string) (k1 k2 : ChatManager.retrieval) (st : ChatManager.t) (d : Q),
        ChatManager._normalize_message m2 = ChatManager._normalize_message m1 ->
        exists text st1 e,
          process_message m1 k1 st = (Ok text, st1)
          /\ TTLCache.cache (ChatManager._query_cache st1)
               !! ChatManager._normalize_message m1 = Some e
          /\ ((ChatManager.clock st1 + d < TTLCache.expires e)%Q ->
              exists st2,
                process_message m2 k2 (snd (ChatManager.sleep d st1)) = (Ok text, st2)
                /\ ChatManager.history st2
                   = ChatManager.history st1
                     ++ [Turn "user" m2; Turn "assistant" text]
                /\ ChatManager.generations st2 = ChatManager.generations st1)).
Proof.
  split.
  - intros message k st e He Hfresh Hne.
    rewrite (process_hit message k st e He Hfresh Hne).
    eexists. split; [reflexivity|]. now repeat split.
  - intros m1 m2 k1 k2 st d Hsame.
    destruct (process_caches m1 k1 st) as (text & st1 & e & Hrun & He & Hval & Hne & _).
    exists text, st1, e. split; [exact Hrun|]. split; [exact He|].
    intros Hfresh. subst text.
    rewrite (process_hit m2 k2 (snd (ChatManager.sleep d st1)) e).
    + eexists. split; [reflexivity|]. now split.
    + simpl. now rewrite Hsame.
    + exact Hfresh.
    + exact Hne.
Qed.

End ManagerFacts.

(** ** Concrete runs of the chat manager *)

Lemma C3_cache_hit_returns_cached_text_witness :
  exists text st1 st2,
    ChatManager.process_message [] client_up "What is Rust?" nothing_found
      (ChatManager.init 0) = (Ok text, st1)
    /\ ChatManager.process_message [] client_up "  what IS  rust? " nothing_found
         (snd (ChatManager.sleep 60 st1)) = (Ok text, st2)
    /\ ChatManager.history st2
       = ChatManager.history st1 ++ [Turn "user" "  what IS  rust? "; Turn "assistant" text]
    /\ ChatManager.generations st2 = ChatManager.generations st1.
Proof.
  destruct (C3_cache_hit_returns_cached_text [] client_up) as [_ Hagain].
  destruct (Hagain "What is Rust?" "  what IS  rust? " nothing_found nothing_found
              (ChatManager.init 0) 60%Q)
    as (text & st1 & e & Hfirst & He & Hsecond); [reflexivity|].
  assert (Hfresh : (ChatManager.clock st1 + 60 < TTLCache.expires e)%Q).
  { vm_compute in Hfirst. injection Hfirst as _ <-.
    vm_compute in He. injection He as <-. reflexivity. }
  destruct (Hsecond Hfresh) as (st2 & Hrun2 & Hhist & Hgen).
  now exists text, st1, st2.
Defined.

(** ** Lengths of texts *)

Lemma length_app_string (a b : string) :
  String.length (a +:+ b) = (String.length a + String.length b)%nat.
Proof. induction a as [|c a IH]; simpl; [reflexivity | now rewrite IH]. Qed.

Lemma length_rev_app (a b : string) :
  String.length (String.rev_app a b) = (String.length a + String.length b)%nat.
Proof.
  revert b. induction a as [|c a IH]; intros b; simpl; [reflexivity|].
  rewrite IH. simpl. lia.
Qed.

Lemma length_rev_string (a : string) : String.length (String.rev a) = String.length a.
Proof. unfold String.rev. rewrite length_rev_app. simpl. lia. Qed.

Lemma length_lstrip (s : string) : (String.length (PyStr.lstrip s) <= String.length s)%nat.
Proof.
  induction s as [|c s IH]; simpl; [lia|].
  destruct (PyStr.is_space c); simpl; lia.
Qed.

Lemma length_strip (s : string) : (String.length (PyStr.strip s) <= String.length s)%nat.
Proof.
  unfold PyStr.strip, PyStr.rstrip. rewrite length_rev_string.
  eapply Nat.le_trans; [apply length_lstrip|]. rewrite length_rev_string.
  apply length_lstrip.
Qed.

Lemma length_take (n : nat) (s : string) : (String.length (PyStr.take n s) <= n)%nat.
Proof.
  unfold PyStr.take. revert s. induction n as [|n IH]; intros [|c s]; simpl; try lia.
  specialize (IH s). lia.
Qed.

(** a substitution by at most one character does not lengthen a text *)
Lemma length_sub_from (m : PyStr.matcher) (repl : string) (skip : nat) (s : string) :
  (String.length repl <= 1)%nat ->
  (String.length (PyStr.sub_from m repl skip s) <= String.length s)%nat.
Proof.
  intros Hrepl. revert skip. induction s as [|c s IH]; intros skip; simpl; [lia|].
  destruct skip as [|k].
  - destruct (m (String c s)) as [[|n]|]; simpl.
    + specialize (IH 0%nat). lia.
    + rewrite length_app_string. specialize (IH n). lia.
    + specialize (IH 0%nat). lia.
  - specialize (IH k). lia.
Qed.

Lemma length_clean_content (content : string) :
  (String.length (WikipediaService._clean_content content) <= String.length content)%nat.
Proof.
  unfold WikipediaService._clean_content, PyStr.re_sub.
  eapply Nat.le_trans; [apply length_strip|].
  eapply Nat.le_trans; [apply length_sub_from; simpl; lia|].
  eapply Nat.le_trans; [apply length_sub_from; simpl; lia|].
  apply length_sub_from. simpl. lia.
Qed.

(** the extract of a page: up to three paragraphs of more than fifty
    characters, joined, and cut after a thousand characters *)
Lemma extract_spec (content s : string) :
  WikipediaService.extract content = Some s ->
  exists ps joined,
    ps = firstn 3 (List.filter (fun p => (50 <? String.length p)%nat)
                               (PyStr.split content PyStr.blank_line))
    /\ ps <> []
    /\ joined = PyStr.join PyStr.blank_line ps
    /\ s = (if (1000 <? String.length joined)%nat
            then PyStr.take 1000 joined +:+ "..." else joined)
    /\ (String.length s <= 1003)%nat.
Proof.
  unfold WikipediaService.extract.
  set (paragraphs := List.filter _ _).
  destruct paragraphs as [|p paragraphs'] eqn:E; [discriminate|].
  assert (Hfirst : firstn (Nat.min 3 (length (p :: paragraphs'))) (p :: paragraphs')
                   = firstn 3 (p :: paragraphs')).
  { destruct (Nat.min_spec 3 (length (p :: paragraphs'))) as [[_ ->]|[Hle ->]];
      [reflexivity|].
    rewrite firstn_all. symmetry. apply firstn_all2. exact Hle. }
  rewrite Hfirst.
  set (ps := firstn 3 (p :: paragraphs')).
  set (joined := PyStr.join PyStr.blank_line ps).
  intros Hs. exists ps, joined.
  split; [reflexivity|]. split; [unfold ps; discriminate|]. split; [reflexivity|].
  destruct (Nat.ltb_spec 1000 (String.length joined)) as [Hlong|Hshort];
    injection Hs as <-.
  - split; [reflexivity|]. rewrite length_app_string.
    pose proof (length_take 1000 joined) as Hcut.
    change (String.length "...") with 3%nat. lia.
  - split; [reflexivity | lia].
Qed.

(** ** The encyclopedic provider *)

Section ServiceFacts.
Context (wiki : WikipediaService.wikipedia).
Implicit Types (st : WikipediaService.t) (key title query : string).

Lemma service_cache_get key st :
  exists v c,
    KnowledgeCache.get (WikipediaService.cache st) key (WikipediaService.clock st) = Ok (v, c)
    /\ WikipediaService.cache_get key st
       = (Ok v, WikipediaService.Service (WikipediaService.timeout st) c
                  (WikipediaService.clock st) (WikipediaService.calls st))
    /\ (KnowledgeCache.wf (WikipediaService.cache st) -> KnowledgeCache.wf c).
Proof.
  unfold WikipediaService.cache_get.
  destruct (cache_get_total (WikipediaService.cache st) key (WikipediaService.clock st))
    as (v & c & Hget).
  exists v, c. rewrite Hget. split; [reflexivity|]. split; [reflexivity|].
  intros Hwf. destruct (get_keeps _ key (WikipediaService.clock st) Hwf)
    as (v' & c' & Hget' & Hwf' & _).
  rewrite Hget in Hget'. now injection Hget' as _ <-.
Qed.

Lemma service_cache_set key (v : WikipediaService.value) (ttl' : option Q) st :
  KnowledgeCache.wf (WikipediaService.cache st) ->
  exists c,
    WikipediaService.cache_set key v ttl' st
    = (Ok tt, WikipediaService.Service (WikipediaService.timeout st) c
                (WikipediaService.clock st) (WikipediaService.calls st))
    /\ PyDict.get (KnowledgeCache.cache c) key
       = Some (KnowledgeCache.Entry v
                 (WikipediaService.clock st
                  + KnowledgeCache.ttl_or ttl'
                      (KnowledgeCache.ttl (WikipediaService.cache st)))%Q).
Proof.
  intros Hwf. unfold WikipediaService.cache_set.
  destruct (set_keeps _ key v ttl' (WikipediaService.clock st) Hwf) as (c & Hset & _).
  exists c. rewrite Hset. split; [reflexivity|]. exact (set_stores _ _ _ _ _ _ Hset).
Qed.

(** a call answered before the timeout *)
Lemma wait_for_in_time {A : Type} (call : nat -> WikipediaService.reply A) st :
  (WikipediaService.latency (call (WikipediaService.calls st))
   < WikipediaService.timeout st)%Q ->
  WikipediaService.wait_for call st
  = (WikipediaService.outcome (call (WikipediaService.calls st)),
     WikipediaService.Service (WikipediaService.timeout st) (WikipediaService.cache st)
       (WikipediaService.clock st
        + WikipediaService.latency (call (WikipediaService.calls st)))%Q
       (S (WikipediaService.calls st))).
Proof.
  intros Hlt. unfold WikipediaService.wait_for.
  destruct (Qle_bool _ _) eqn:E; [|reflexivity].
  apply Qle_bool_iff in E. lra.
Qed.

Lemma wait_for_calls {A : Type} (call : nat -> WikipediaService.reply A) st :
  WikipediaService.calls (snd (WikipediaService.wait_for call st))
  = S (WikipediaService.calls st).
Proof. unfold WikipediaService.wait_for. now destruct (Qle_bool _ _). Qed.

(** a lookup that misses sends [search] and [get_page_summary] upstream *)
Lemma search_miss query (limit : Z) st :
  PyStr.is_blank query = false ->
  WikipediaService.misses (WikipediaService.search_key query limit) st ->
  WikipediaService.search wiki query limit st
  = WikipediaService.fetch_results wiki (WikipediaService._clean_query query) limit
      (WikipediaService.search_key query limit)
      (snd (WikipediaService.cache_get (WikipediaService.search_key query limit) st)).
Proof.
  intros Hblank Hmiss. unfold WikipediaService.search, WikipediaService.misses in *.
  rewrite Hblank. unfold mbind, M_bind.
  destruct (WikipediaService.cache_get _ st) as [[[v|]|e] st1]; simpl in *;
    [now rewrite Hmiss | reflexivity | contradiction].
Qed.

Lemma summary_miss title (sentences : Z) st :
  PyStr.is_blank title = false ->
  WikipediaService.misses (WikipediaService.summary_key title sentences) st ->
  WikipediaService.get_page_summary wiki title sentences st
  = WikipediaService.fetch_summary wiki title sentences
      (WikipediaService.summary_key title sentences)
      (snd (WikipediaService.cache_get (WikipediaService.summary_key title sentences) st)).
Proof.
  intros Hblank Hmiss. unfold WikipediaService.get_page_summary, WikipediaService.misses in *.
  rewrite Hblank. unfold mbind, M_bind.
  destruct (WikipediaService.cache_get _ st) as [[[v|]|e] st1]; simpl in *;
    [now rewrite Hmiss | reflexivity | contradiction].
Qed.

Lemma upstream_ret {A : Type} (a : A) : WikipediaService.calls_upstream 0 (mret a).
Proof. intros st. simpl. lia. Qed.

Lemma upstream_lift {A : Type} (r : res A) : WikipediaService.calls_upstream 0 (lift r).
Proof. intros st. simpl. lia. Qed.

Lemma upstream_bind {A B : Type} (n k : nat) (m : M WikipediaService.t A)
    (f : A -> M WikipediaService.t B) :
  WikipediaService.calls_upstream n m ->
  (forall a, WikipediaService.calls_upstream k (f a)) ->
  WikipediaService.calls_upstream n (mbind f m).
Proof.
  intros Hm Hf st. unfold mbind, M_bind. specialize (Hm st).
  destruct (m st) as [[a|e] st1]; simpl in *; [|exact Hm].
  specialize (Hf a st1). lia.
Qed.

Lemma upstream_catch {A : Type} (n k : nat) (m : M WikipediaService.t A)
    (h : exc -> M WikipediaService.t A) :
  WikipediaService.calls_upstream n m ->
  (forall e, WikipediaService.calls_upstream k (h e)) ->
  WikipediaService.calls_upstream n (catch m h).
Proof.
  intros Hm Hh st. unfold catch. specialize (Hm st).
  destruct (m st) as [[a|e] st1]; simpl in *; [exact Hm|].
  specialize (Hh e st1). lia.
Qed.

Lemma upstream_wait_for {A : Type} (call : nat -> WikipediaService.reply A) :
  WikipediaService.calls_upstream 1 (WikipediaService.wait_for call).
Proof. intros st. rewrite wait_for_calls. lia. Qed.

Lemma upstream_cache_set key (v : WikipediaService.value) (ttl' : option Q) :
  WikipediaService.calls_upstream 0 (WikipediaService.cache_set key v ttl').
Proof.
  intros st. unfold WikipediaService.cache_set.
  destruct (KnowledgeCache.set _ _ _ _ _); simpl; lia.
Qed.

Lemma cache_get_calls key st :
  WikipediaService.calls (snd (WikipediaService.cache_get key st))
  = WikipediaService.calls st.
Proof. destruct (service_cache_get key st) as (v & c & _ & -> & _). reflexivity. Qed.

Lemma upstream_fetch_results query (limit : Z) key :
  WikipediaService.calls_upstream 1 (WikipediaService.fetch_results wiki query limit key).
Proof.
  unfold WikipediaService.fetch_results.
  apply upstream_catch with (k := 0%nat); [|intros e; apply upstream_ret].
  apply upstream_bind with (k := 0%nat); [apply upstream_wait_for|].
  intros results. apply upstream_bind with (k := 0%nat); [apply upstream_cache_set|].
  intros _. apply upstream_ret.
Qed.

Lemma upstream_fetch_summary title (sentences : Z) key :
  WikipediaService.calls_upstream 1 (WikipediaService.fetch_summary wiki title sentences key).
Proof.
  unfold WikipediaService.fetch_summary.
  apply upstream_catch with (k := 0%nat).
  - apply upstream_bind with (k := 0%nat).
    + apply upstream_catch with (k := 1%nat); [|intros e; apply upstream_wait_for].
      unfold WikipediaService.from_page.
      apply upstream_bind with (k := 0%nat); [apply upstream_wait_for|].
      intros pg. apply upstream_bind with (k := 0%nat); [apply upstream_lift|].
      intros content. destruct (WikipediaService.extract content);
        [apply upstream_ret | apply upstream_lift].
    + intros summary. apply upstream_bind with (k := 0%nat); [apply upstream_cache_set|].
      intros _. apply upstream_ret.
  - intros e. destruct e; try apply upstream_ret.
    apply upstream_bind with (k := 0%nat); [apply upstream_cache_set|].
    intros _. apply upstream_ret.
Qed.

(** the full page answered in time, with a paragraph long enough *)
Lemma from_page_extract title st (pg : WikipediaService.page) (content s : string) :
  (WikipediaService.latency (WikipediaService.wiki_page wiki (WikipediaService.calls st) title)
   < WikipediaService.timeout st)%Q ->
  WikipediaService.outcome (WikipediaService.wiki_page wiki (WikipediaService.calls st) title)
  = Ok pg ->
  WikipediaService.content pg = Ok content ->
  WikipediaService.extract content = Some s ->
  WikipediaService.from_page wiki title st
  = (Ok s,
     WikipediaService.Service (WikipediaService.timeout st) (WikipediaService.cache st)
       (WikipediaService.clock st
        + WikipediaService.latency
            (WikipediaService.wiki_page wiki (WikipediaService.calls st) title))%Q
       (S (WikipediaService.calls st))).
Proof.
  intros Hlt Hpg Hcontent Hextract.
  unfold WikipediaService.from_page, mbind, M_bind.
  rewrite (wait_for_in_time (fun n => WikipediaService.wiki_page wiki n title) st Hlt).
  rewrite Hpg, Hcontent. unfold lift. now rewrite Hextract.
Qed.

(** the summary made from a full page is stored and returned cleaned *)
Lemma summary_from_page title (sentences : Z) st (pg : WikipediaService.page)
    (content s : string) :
  PyStr.is_blank title = false ->
  WikipediaService.misses (WikipediaService.summary_key title sentences) st ->
  KnowledgeCache.wf (WikipediaService.cache st) ->
  (WikipediaService.latency (WikipediaService.wiki_page wiki (WikipediaService.calls st) title)
   < WikipediaService.timeout st)%Q ->
  WikipediaService.outcome (WikipediaService.wiki_page wiki (WikipediaService.calls st) title)
  = Ok pg ->
  WikipediaService.content pg = Ok content ->
  WikipediaService.extract content = Some s ->
  exists st' e,
    WikipediaService.get_page_summary wiki title sentences st
    = (Ok (Some (WikipediaService.VStr (WikipediaService._clean_content s))), st')
    /\ WikipediaService.calls st' = S (WikipediaService.calls st)
    /\ PyDict.get (KnowledgeCache.cache (WikipediaService.cache st'))
         (WikipediaService.summary_key title sentences) = Some e
    /\ KnowledgeCache.value e = WikipediaService.VStr (WikipediaService._clean_content s)
    /\ (WikipediaService.clock st' < KnowledgeCache.expires e)%Q.
Proof.
  intros Hblank Hmiss Hwf Hlt Hpg Hcontent Hextract.
  rewrite (summary_miss title sentences st Hblank Hmiss).
  destruct (service_cache_get (WikipediaService.summary_key title sentences) st)
    as (v & c & _ & -> & Hwfc). specialize (Hwfc Hwf). cbn [snd].
  set (st1 := WikipediaService.Service _ c _ _).
  unfold WikipediaService.fetch_summary, catch, mbind, M_bind.
  rewrite (from_page_extract title st1 pg content s Hlt Hpg Hcontent Hextract).
  match goal with
  | |- context [WikipediaService.cache_set ?k ?x ?t ?s2] =>
      destruct (service_cache_set k x t s2 Hwfc) as (c2 & -> & Hstored)
  end.
  eexists _, _. split; [reflexivity|]. split; [reflexivity|].
  split; [exact Hstored|]. split; [reflexivity|].
  simpl. lra.
Qed.

(** C8: when the page of a title is fetched in time and its content has
    a paragraph of more than 50 characters, [get_page_summary] returns,
    cleaned, the first three such paragraphs (or fewer) joined by blank
    lines, cut to their first 1000 characters followed by "..." when they
    are longer than that; so the summary has at most 1003 characters. *)
Theorem C8_summary_is_cut_extract_with_ellipsis title (sentences : Z) st
    (pg : WikipediaService.page) (content s : string) :
  PyStr.is_blank title = false ->
  WikipediaService.misses (WikipediaService.summary_key title sentences) st ->
  KnowledgeCache.wf (WikipediaService.cache st) ->
  (WikipediaService.latency (WikipediaService.wiki_page wiki (WikipediaService.calls st) title)
   < WikipediaService.timeout st)%Q ->
  WikipediaService.outcome (WikipediaService.wiki_page wiki (WikipediaService.calls st) title)
  = Ok pg ->
  WikipediaService.content pg = Ok content ->
  WikipediaService.extract content = Some s ->
  (exists st',
     WikipediaService.get_page_summary wiki title sentences st
     = (Ok (Some (WikipediaService.VStr (WikipediaService._clean_content s))), st'))
  /\ (exists ps joined,
        ps = firstn 3 (List.filter (fun p => (50 <? String.length p)%nat)
                                   (PyStr.split content PyStr.blank_line))
        /\ ps <> []
        /\ joined = PyStr.join PyStr.blank_line ps
        /\ s = (if (1000 <? String.length joined)%nat
                then PyStr.take 1000 joined +:+ "..." else joined))
  /\ (String.length (WikipediaService._clean_content s) <= 1003)%nat.
Proof.
  intros Hblank Hmiss Hwf Hlt Hpg Hcontent Hextract.
  destruct (summary_from_page title sentences st pg content s
              Hblank Hmiss Hwf Hlt Hpg Hcontent Hextract) as (st' & e & Hrun & _).
  destruct (extract_spec content s Hextract) as (ps & joined & Hps & Hne & Hj & Hs & Hlen).
  split; [now exists st'|]. split; [now exists ps, joined|].
  eapply Nat.le_trans; [apply length_clean_content | exact Hlen].
Qed.

(** an entry whose value tests false is a miss at any clock reading *)
Lemma misses_falsy key st (e : KnowledgeCache.entry WikipediaService.value) :
  PyDict.get (KnowledgeCache.cache (WikipediaService.cache st)) key = Some e ->
  WikipediaService.truthy (KnowledgeCache.value e) = false ->
  WikipediaService.misses key st.
Proof.
  intros He Hfalsy. unfold WikipediaService.misses, WikipediaService.cache_get.
  destruct (get_entry (WikipediaService.cache st) key e (WikipediaService.clock st) He)
    as [Hvisible Hexpired].
  destruct (Qlt_le_dec (WikipediaService.clock st) (KnowledgeCache.expires e)) as [Hlt|Hge].
  - destruct (Hvisible Hlt) as (c' & -> & _). exact Hfalsy.
  - destruct (Hexpired Hge) as (c' & -> & _). exact I.
Qed.

(** a search that keeps no title stores the empty list *)
Lemma search_stores_empty query (limit : Z) st (search_results : list string) :
  PyStr.is_blank query = false ->
  WikipediaService.misses (WikipediaService.search_key query limit) st ->
  KnowledgeCache.wf (WikipediaService.cache st) ->
  (WikipediaService.latency
     (WikipediaService.wiki_search wiki (WikipediaService.calls st)
        (WikipediaService._clean_query query) limit)
   < WikipediaService.timeout st)%Q ->
  WikipediaService.outcome
    (WikipediaService.wiki_search wiki (WikipediaService.calls st)
       (WikipediaService._clean_query query) limit) = Ok search_results ->
  WikipediaService.filter_results [] search_results = [] ->
  exists st' e,
    WikipediaService.search wiki query limit st = (Ok (WikipediaService.VList []), st')
    /\ PyDict.get (KnowledgeCache.cache (WikipediaService.cache st'))
         (WikipediaService.search_key query limit) = Some e
    /\ KnowledgeCache.value e = WikipediaService.VList [].
Proof.
  intros Hblank Hmiss Hwf Hlt Hout Hnone.
  rewrite (search_miss query limit st Hblank Hmiss).
  destruct (service_cache_get (WikipediaService.search_key query limit) st)
    as (v & c & _ & -> & Hwfc). specialize (Hwfc Hwf). cbn [snd].
  set (st1 := WikipediaService.Service _ c _ _).
  unfold WikipediaService.fetch_results, catch, mbind, M_bind.
  rewrite (wait_for_in_time
             (fun n => WikipediaService.wiki_search wiki n
                         (WikipediaService._clean_query query) limit) st1 Hlt).
  change (WikipediaService.calls st1) with (WikipediaService.calls st).
  rewrite Hout, Hnone.
  match goal with
  | |- context [WikipediaService.cache_set ?k ?x ?t ?s2] =>
      destruct (service_cache_set k x t s2 Hwfc) as (c2 & -> & Hstored)
  end.
  eexists _, _. split; [reflexivity|]. split; [exact Hstored | reflexivity].
Qed.

(** C10: a lookup that finds a value that tests false, like one that
    finds nothing, sends [search] and [get_page_summary] to the package
    again; an entry with the empty list or the empty text is such a value
    at every clock reading; and a search that keeps no title, like a
    summary that cleans to the empty text, stores that empty value, after
    which the same call made at any later time goes to the package again. *)
Theorem C10_cached_empty_results_are_fetched_again :
  (forall st query (limit : Z),
     PyStr.is_blank query = false ->
     WikipediaService.misses (WikipediaService.search_key query limit) st ->
     (WikipediaService.calls st
      < WikipediaService.calls (snd (WikipediaService.search wiki query limit st)))%nat)
  /\ (forall st title (sentences : Z),
        PyStr.is_blank title = false ->
        WikipediaService.misses (WikipediaService.summary_key title sentences) st ->
        (WikipediaService.calls st
         < WikipediaService.calls
             (snd (WikipediaService.get_page_summary wiki title sentences st)))%nat)
  /\ (forall st key (e : KnowledgeCache.entry WikipediaService.value),
        PyDict.get (KnowledgeCache.cache (WikipediaService.cache st)) key = Some e ->
        KnowledgeCache.value e = WikipediaService.VList []
        \/ KnowledgeCache.value e = WikipediaService.VStr "" ->
        WikipediaService.misses key st)
  /\ (forall st query (limit : Z) (search_results : list string),
        PyStr.is_blank query = false ->
        WikipediaService.misses (WikipediaService.search_key query limit) st ->
        KnowledgeCache.wf (WikipediaService.cache st) ->
        (WikipediaService.latency
           (WikipediaService.wiki_search wiki (WikipediaService.calls st)
              (WikipediaService._clean_query query) limit)
         < WikipediaService.timeout st)%Q ->
        WikipediaService.outcome
          (WikipediaService.wiki_search wiki (WikipediaService.calls st)
             (WikipediaService._clean_query query) limit) = Ok search_results ->
        WikipediaService.filter_results [] search_results = [] ->
        exists st' e,
          WikipediaService.search wiki query limit st = (Ok (WikipediaService.VList []), st')
          /\ PyDict.get (KnowledgeCache.cache (WikipediaService.cache st'))
               (WikipediaService.search_key query limit) = Some e
          /\ KnowledgeCache.value e = WikipediaService.VList []
          /\ forall d : Q,
               (WikipediaService.calls st'
                < WikipediaService.calls
                    (snd (WikipediaService.search wiki query limit
                            (WikipediaService.later d st'))))%nat)
  /\ (forall st title (sentences : Z) (pg : WikipediaService.page) (content s : string),
        PyStr.is_blank title = false ->
        WikipediaService.misses (WikipediaService.summary_key title sentences) st ->
        KnowledgeCache.wf (WikipediaService.cache st) ->
        (WikipediaService.latency
           (WikipediaService.wiki_page wiki (WikipediaService.calls st) title)
         < WikipediaService.timeout st)%Q ->
        WikipediaService.outcome
          (WikipediaService.wiki_page wiki (WikipediaService.calls st) title) = Ok pg ->
        WikipediaService.content pg = Ok content ->
        WikipediaService.extract content = Some s ->
        WikipediaService._clean_content s = "" ->
        exists st' e,
          WikipediaService.get_page_summary wiki title sentences st
          = (Ok (Some (WikipediaService.VStr "")), st')
          /\ PyDict.get (KnowledgeCache.cache (WikipediaService.cache st'))
               (WikipediaService.summary_key title sentences) = Some e
          /\ KnowledgeCache.value e = WikipediaService.VStr ""
          /\ (WikipediaService.clock st' < KnowledgeCache.expires e)%Q
          /\ forall d : Q,
               (WikipediaService.calls st'
                < WikipediaService.calls
                    (snd (WikipediaService.get_page_summary wiki title sentences
                            (WikipediaService.later d st'))))%nat).
Proof.
  assert (Hsearch : forall st query (limit : Z),
            PyStr.is_blank query = false ->
            WikipediaService.misses (WikipediaService.search_key query limit) st ->
            (WikipediaService.calls st
             < WikipediaService.calls (snd (WikipediaService.search wiki query limit st)))%nat).
  { intros st query limit Hblank Hmiss. rewrite (search_miss query limit st Hblank Hmiss).
    pose proof (upstream_fetch_results (WikipediaService._clean_query query) limit
                  (WikipediaService.search_key query limit)
                  (snd (WikipediaService.cache_get
                          (WikipediaService.search_key query limit) st))) as Hup.
    rewrite cache_get_calls in Hup. lia. }
  assert (Hsummary : forall st title (sentences : Z),
            PyStr.is_blank title = false ->
            WikipediaService.misses (WikipediaService.summary_key title sentences) st ->
            (WikipediaService.calls st
             < WikipediaService.calls
                 (snd (WikipediaService.get_page_summary wiki title sentences st)))%nat).
  { intros st title sentences Hblank Hmiss.
    rewrite (summary_miss title sentences st Hblank Hmiss).
    pose proof (upstream_fetch_summary title sentences
                  (WikipediaService.summary_key title sentences)
                  (snd (WikipediaService.cache_get
                          (WikipediaService.summary_key title sentences) st))) as Hup.
    rewrite cache_get_calls in Hup. lia. }
  assert (Hfalsy : forall st key (e : KnowledgeCache.entry WikipediaService.value),
            PyDict.get (KnowledgeCache.cache (WikipediaService.cache st)) key = Some e ->
            KnowledgeCache.value e = WikipediaService.VList []
            \/ KnowledgeCache.value e = WikipediaService.VStr "" ->
            WikipediaService.misses key st).
  { intros st key e He Hval. apply (misses_falsy key st e He).
    destruct Hval as [-> | ->]; reflexivity. }
  split; [exact Hsearch|]. split; [exact Hsummary|]. split; [exact Hfalsy|]. split.
  - intros st query limit search_results Hblank Hmiss Hwf Hlt Hout Hnone.
    destruct (search_stores_empty query limit st search_results
                Hblank Hmiss Hwf Hlt Hout Hnone) as (st' & e & Hrun & He & Hval).
    exists st', e. split; [exact Hrun|]. split; [exact He|]. split; [exact Hval|].
    intros d.
    apply (Hsearch (WikipediaService.later d st') query limit Hblank).
    apply (Hfalsy (WikipediaService.later d st') _ e); [exact He | now left].
  - intros st title sentences pg content s Hblank Hmiss Hwf Hlt Hpg Hcontent Hextract Hempty.
    destruct (summary_from_page title sentences st pg content s
                Hblank Hmiss Hwf Hlt Hpg Hcontent Hextract)
      as (st' & e & Hrun & _ & He & Hval & Hfresh).
    rewrite Hempty in Hrun, Hval.
    exists st', e. split; [exact Hrun|]. split; [exact He|]. split; [exact Hval|].
    split; [exact Hfresh|]. intros d.
    apply (Hsummary (WikipediaService.later d st') title sentences Hblank).
    apply (Hfalsy (WikipediaService.later d st') _ e); [exact He | now right].
Qed.

End ServiceFacts.

(** ** Concrete runs of the encyclopedic provider *)

Lemma fresh_service_wf : KnowledgeCache.wf (WikipediaService.cache (WikipediaService.init 8 0)).
Proof. split; [reflexivity | apply NoDup_nil_2]. Qed.

Lemma C8_summary_is_cut_extract_with_ellipsis_witness :
  exists st',
    WikipediaService.get_page_summary wiki_sample "Mercury" 5 (WikipediaService.init 8 0)
    = (Ok (Some (WikipediaService.VStr
                   (WikipediaService._clean_content
                      (PyStr.take 1000 long_paragraph +:+ "...")))), st').
Proof.
  destruct (C8_summary_is_cut_extract_with_ellipsis wiki_sample "Mercury" 5
              (WikipediaService.init 8 0)
              (WikipediaService.Page (Ok long_paragraph) (Ok "Mercury is a planet."))
              long_paragraph (PyStr.take 1000 long_paragraph +:+ "..."))
    as (Hrun & _ & _).
  - reflexivity.
  - vm_compute. exact I.
  - exact fresh_service_wf.
  - reflexivity.
  - reflexivity.
  - reflexivity.
  - vm_compute. reflexivity.
  - exact Hrun.
Defined.

(** A page of one paragraph of 1001 letters: the summary returned has
    1003 characters, the first 1000 of the paragraph and "...". *)
Lemma C8_summary_longer_than_1000 :
  exists text st',
    WikipediaService.extract long_paragraph = Some text
    /\ WikipediaService.get_page_summary wiki_sample "Mercury" 5 (WikipediaService.init 8 0)
       = (Ok (Some (WikipediaService.VStr text)), st')
    /\ String.length text = 1003%nat
    /\ (1000 < String.length text)%nat.
Proof.
  eexists _, _. split; [vm_compute; reflexivity|].
  split; [vm_compute; reflexivity|].
  split; [vm_compute; reflexivity|].
  apply Nat.ltb_lt. vm_compute. reflexivity.
Qed.

Lemma C10_cached_empty_results_are_fetched_again_witness :
  exists st',
    WikipediaService.search wiki_sample "What is Mercury?" 5 (WikipediaService.init 8 0)
    = (Ok (WikipediaService.VList []), st')
    /\ (WikipediaService.calls st'
        < WikipediaService.calls
            (snd (WikipediaService.search wiki_sample "What is Mercury?" 5
                    (WikipediaService.later 60 st'))))%nat.
Proof.
  destruct (C10_cached_empty_results_are_fetched_again wiki_sample)
    as (_ & _ & _ & Hsearch & _).
  destruct (Hsearch (WikipediaService.init 8 0) "What is Mercury?" 5%Z
              ["Mercury (disambiguation)"]) as (st' & e & Hrun & _ & _ & Hagain).
  - reflexivity.
  - vm_compute. exact I.
  - exact fresh_service_wf.
  - reflexivity.
  - reflexivity.
  - reflexivity.
  - exists st'. split; [exact Hrun | apply Hagain].
Defined.

(** * Further properties of the code *)

(** ** The session cache *)

(** X1: in the session cache a [set] followed by a [get] of the same key
    returns the value at every clock reading before the expiry and
    changes nothing; a [get] at or after the expiry returns nothing and
    deletes that key and no other; a [set] does not change what a [get]
    of another key returns; and a [get] of a key the cache does not hold
    returns nothing and changes nothing. *)
Theorem X1_session_cache_round_trip (c : TTLCache.t) (key v : string)
    (ttl' : option Q) (now : Q) :
  let c1 := TTLCache.set c key v ttl' now in
  let expiry := (now + KnowledgeCache.ttl_or ttl' (TTLCache.ttl c))%Q in
  (forall t, (t < expiry)%Q -> TTLCache.get c1 key t = (Some v, c1))
  /\ (forall t, (expiry <= t)%Q ->
        exists c2, TTLCache.get c1 key t = (None, c2)
          /\ TTLCache.cache c2 !! key = None
          /\ forall k, k <> key -> TTLCache.cache c2 !! k = TTLCache.cache c !! k)
  /\ (forall k t, k <> key -> fst (TTLCache.get c1 k t) = fst (TTLCache.get c k t))
  /\ (forall k t, TTLCache.cache c !! k = None -> TTLCache.get c k t = (None, c)).
Proof.
  intros c1 expiry. repeat split.
  - intros t Ht. unfold TTLCache.get, c1. simpl. rewrite lookup_insert_eq. simpl.
    apply Qltb_lt in Ht. fold expiry. now rewrite Ht.
  - intros t Ht. unfold TTLCache.get, c1. simpl. rewrite lookup_insert_eq. simpl.
    apply Qltb_ge in Ht. fold expiry. rewrite Ht.
    eexists. split; [reflexivity|]. simpl. split; [apply lookup_delete_eq|].
    intros k Hk. rewrite lookup_delete_ne by congruence.
    now rewrite lookup_insert_ne by congruence.
  - intros k t Hk. unfold TTLCache.get, c1. simpl.
    rewrite lookup_insert_ne by congruence.
    destruct (TTLCache.cache c !! k) as [e|]; [|reflexivity].
    now destruct (Qltb t (TTLCache.expires e)).
  - intros k t Hk. unfold TTLCache.get. now rewrite Hk.
Qed.

(** ** More on the bounded cache *)

Section CacheMore.
Context {V : Type}.
Implicit Types (c : KnowledgeCache.t V) (k key : string) (v : V).

(** X2: in a well-formed cache (the two dictionaries hold the same keys,
    each once) a [get] that finds an entry makes its key the most recently
    used: if some other key was last accessed before this [get], the key
    just read is not the one the next eviction removes. *)
Theorem X2_entry_just_read_is_not_evicted_next c key j v (now tj : Q)
    (c' : KnowledgeCache.t V) :
  KnowledgeCache.wf c ->
  KnowledgeCache.get c key now = Ok (Some v, c') ->
  j <> key ->
  PyDict.get (KnowledgeCache.access_times c) j = Some tj ->
  (tj < now)%Q ->
  PyDict.get (KnowledgeCache.access_times c') key = Some now
  /\ KnowledgeCache.lru_key (KnowledgeCache.access_times c') <> Some key.
Proof.
  intros [Hkeys Hnd] Hget Hne Hj Hlt. unfold KnowledgeCache.get in Hget.
  destruct (PyDict.get (KnowledgeCache.cache c) key) as [e|] eqn:He; [|discriminate].
  destruct (Qltb now (KnowledgeCache.expires e)).
  - injection Hget as _ <-. simpl. split; [apply dict_get_set_eq|].
    intros Hlru. apply lru_key_spec in Hlru as (t & Hin & Hleast).
    assert (Hin' : PyDict.contains (KnowledgeCache.access_times c) key = true).
    { rewrite (dict_contains_same (KnowledgeCache.cache c)) by assumption.
      unfold PyDict.contains. now rewrite He. }
    assert (Hnd' : NoDup (PyDict.keys (PyDict.set (KnowledgeCache.access_times c) key now))).
    { rewrite dict_keys_set, Hin', <- Hkeys. exact Hnd. }
    apply (dict_In_get _ _ _ Hnd') in Hin. rewrite dict_get_set_eq in Hin.
    injection Hin as <-.
    assert (Hj' : In (j, tj) (PyDict.set (KnowledgeCache.access_times c) key now)).
    { apply dict_get_In. rewrite dict_get_set_ne by congruence. exact Hj. }
    specialize (Hleast _ Hj'). simpl in Hleast. lra.
  - unfold PyDict.del in Hget.
    destruct (PyDict.contains (KnowledgeCache.cache c) key); simpl in Hget;
      [|discriminate].
    destruct (PyDict.contains (KnowledgeCache.access_times c) key); simpl in Hget;
      discriminate.
Qed.

(** X3: on a well-formed cache neither [set] nor [get] raises. A [set]
    changes the entry of its key and removes at most one other entry:
    below capacity every other key keeps its entry, and at capacity every
    key other than the least-recently-used one does. A [get] changes the
    entry of no other key. *)
Theorem X3_set_and_get_leave_other_entries c key v (ttl' : option Q) (now : Q) :
  KnowledgeCache.wf c ->
  (exists c', KnowledgeCache.set c key v ttl' now = Ok c'
     /\ forall k, k <> key ->
          KnowledgeCache.lru_key (KnowledgeCache.access_times c) <> Some k
          \/ (Z.of_nat (KnowledgeCache.size c) < KnowledgeCache.max_size c)%Z ->
          PyDict.get (KnowledgeCache.cache c') k = PyDict.get (KnowledgeCache.cache c) k)
  /\ (exists r c', KnowledgeCache.get c key now = Ok (r, c')
        /\ forall k, k <> key ->
             PyDict.get (KnowledgeCache.cache c') k = PyDict.get (KnowledgeCache.cache c) k).
Proof.
  intros Hwf. split.
  - destruct (Z.lt_ge_cases (Z.of_nat (KnowledgeCache.size c)) (KnowledgeCache.max_size c))
      as [Hlt|Hge].
    + rewrite set_below by assumption. eexists. split; [reflexivity|].
      intros k Hk _. simpl. now apply dict_get_set_ne.
    + destruct (KnowledgeCache.lru_key (KnowledgeCache.access_times c)) as [j|] eqn:Ej.
      * rewrite (set_full c key v ttl' now j) by assumption.
        eexists. split; [reflexivity|]. intros k Hk [Hj|Hlt]; [|lia].
        simpl. rewrite dict_get_set_ne by congruence.
        apply dict_get_remove_ne. congruence.
      * unfold KnowledgeCache.set, KnowledgeCache.size in *.
        destruct (Z.leb_spec (KnowledgeCache.max_size c)
                    (Z.of_nat (length (KnowledgeCache.cache c)))); [|lia].
        unfold KnowledgeCache._evict_lru. rewrite Ej. simpl.
        eexists. split; [reflexivity|]. intros k Hk _. simpl.
        now apply dict_get_set_ne.
  - unfold KnowledgeCache.get.
    destruct (PyDict.get (KnowledgeCache.cache c) key) as [e|] eqn:He.
    + destruct (Qltb now (KnowledgeCache.expires e)).
      * eexists _, _. split; [reflexivity|]. reflexivity.
      * unfold PyDict.del.
        assert (Hin : PyDict.contains (KnowledgeCache.cache c) key = true)
          by (unfold PyDict.contains; now rewrite He).
        rewrite Hin. simpl.
        destruct (PyDict.contains (KnowledgeCache.access_times c) key); simpl;
          eexists _, _; (split; [reflexivity|]);
          intros k Hk; simpl; apply dict_get_remove_ne; congruence.
    + eexists _, _. split; [reflexivity|]. reflexivity.
Qed.

End CacheMore.

(** ** More on the token bucket *)


(** X5: a request that costs more than the burst is never admitted: at
    every clock reading and whatever tokens it holds, a limiter of
    positive rate and period answers it with a positive wait and takes no
    token. *)
Theorem X5_cost_above_burst_is_never_admitted (l : RateLimiter.t) (cost now : Q) :
  (0 < RateLimiter.rate l)%Q -> (0 < RateLimiter.per l)%Q ->
  (RateLimiter.burst l < cost)%Q ->
  exists w l1,
    RateLimiter.acquire l cost now = Ok (w, l1)
    /\ (0 < w)%Q
    /\ RateLimiter.tokens l1 = RateLimiter.refilled l now
    /\ (RateLimiter.tokens l1 < cost)%Q.
Proof.
  intros Hrate Hper Hcost.
  assert (Hr : (RateLimiter.refilled l now < cost)%Q).
  { eapply Qle_lt_trans; [apply pymin_le_l | exact Hcost]. }
  rewrite acquire_spec by assumption. cbv zeta.
  pose proof Hr as Hb. apply Qltb_lt in Hb. rewrite Hb.
  eexists _, _. split; [reflexivity|]. simpl.
  split; [|split; [reflexivity | exact Hr]].
  apply Qmult_lt_0_compat; [lra | now apply Qdiv_pos].
Qed.


Lemma X5_cost_above_burst_is_never_admitted_witness :
  exists w l1,
    RateLimiter.acquire (RateLimiter.init 20 60 30 0) 31 1000 = Ok (w, l1)
    /\ (0 < w)%Q.
Proof.
  destruct (X5_cost_above_burst_is_never_admitted (RateLimiter.init 20 60 30 0) 31 1000)
    as (w & l1 & Hacq & Hw & _); [reflexivity | reflexivity | reflexivity |].
  now exists w, l1.
Defined.

(** ** Search results and texts *)

Lemma filter_results_from (filtered search_results : list string) :
  (length filtered <= 3)%nat ->
  WikipediaService.filter_results filtered search_results
  = firstn 3 (filtered
              ++ List.filter
                   (fun title => negb (PyStr.contains (PyStr.lower title) "(disambiguation)"))
                   search_results).
Proof.
  revert filtered. induction search_results as [|title rest IH]; intros filtered Hlen;
    cbn [WikipediaService.filter_results List.filter].
  - rewrite app_nil_r. symmetry. apply firstn_all2. lia.
  - destruct (Nat.leb_spec 3 (length filtered)) as [Hfull|Hroom].
    + rewrite firstn_app, firstn_all2 by lia.
      replace (3 - length filtered)%nat with 0%nat by lia.
      now rewrite firstn_O, app_nil_r.
    + destruct (PyStr.contains (PyStr.lower title) "(disambiguation)");
        cbn [negb].
      * apply IH. lia.
      * rewrite IH by (rewrite length_app; simpl; lia).
        now rewrite <- app_assoc.
Qed.

(** X6: the titles a search keeps are the first three of the results
    whose lowercased title does not contain "(disambiguation)", in the
    order of the results; so there are at most three of them and none is
    a disambiguation page. *)
Theorem X6_search_keeps_first_three_proper_titles (search_results : list string) :
  let proper title := negb (PyStr.contains (PyStr.lower title) "(disambiguation)") in
  WikipediaService.filter_results [] search_results
  = firstn 3 (List.filter proper search_results)
  /\ (length (WikipediaService.filter_results [] search_results) <= 3)%nat
  /\ (forall title, In title (WikipediaService.filter_results [] search_results) ->
        In title search_results /\ proper title = true).
Proof.
  intros proper.
  assert (Heq : WikipediaService.filter_results [] search_results
                = firstn 3 (List.filter proper search_results))
    by (apply (filter_results_from [] search_results); simpl; lia).
  split; [exact Heq|]. rewrite Heq. split; [apply firstn_le_length|].
  intros title Hin. apply filter_In.
  rewrite <- (firstn_skipn 3 (List.filter proper search_results)).
  apply in_or_app. now left.
Qed.

(** ** Characters of texts *)




Lemma lower_app (a b : string) : PyStr.lower (a +:+ b) = PyStr.lower a +:+ PyStr.lower b.
Proof. induction a as [|c a IH]; simpl; [reflexivity | now rewrite IH]. Qed.

Lemma contains_app_r (a b needle : string) :
  PyStr.contains b needle = true -> PyStr.contains (a +:+ b) needle = true.
Proof.
  intros Hb. induction a as [|c a IH]; simpl; [exact Hb|].
  rewrite IH. apply orb_true_r.
Qed.











(** X8: post-processing never returns an empty text and is idempotent:
    the attribution sentence is appended at most once, and the apology
    that replaces an empty response is left as it is. *)
Theorem X8_post_processing_is_idempotent (response message title : string) :
  ChatManager._post_process_response response message title <> ""
  /\ ChatManager._post_process_response
       (ChatManager._post_process_response response message title) message title
     = ChatManager._post_process_response response message title.
Proof.
  split; [apply post_process_nonempty|].
  destruct (String.eqb_spec response "") as [->|Hne].
  - change (ChatManager._post_process_response "" message title)
      with ChatManager.no_response.
    unfold ChatManager._post_process_response.
    replace (String.eqb ChatManager.no_response "") with false by reflexivity.
    replace (100 <? String.length ChatManager.no_response)%nat with false by reflexivity.
    now rewrite andb_false_r.
  - destruct (negb (String.eqb title "")
              && negb (PyStr.contains (PyStr.lower response) "wikipedia")
              && (100 <? String.length response)%nat) eqn:Hcond.
    + set (attributed := response +:+ PyStr.blank_line +:+ "Information about " +:+ title
                         +:+ " was retrieved from Wikipedia and other knowledge sources.").
      assert (Hfirst : ChatManager._post_process_response response message title
                       = attributed).
      { unfold ChatManager._post_process_response.
        destruct (String.eqb_spec response ""); [contradiction|]. now rewrite Hcond. }
      rewrite Hfirst. unfold ChatManager._post_process_response.
      destruct (String.eqb_spec attributed "") as [Heq|_].
      * exfalso. revert Heq. now apply string_app_nonempty.
      * assert (Hwiki : PyStr.contains (PyStr.lower attributed) "wikipedia" = true).
        { unfold attributed. rewrite !lower_app. do 4 apply contains_app_r. reflexivity. }
        rewrite Hwiki. cbn [negb]. now rewrite andb_false_r.
    + assert (Hfirst : ChatManager._post_process_response response message title
                       = response).
      { unfold ChatManager._post_process_response.
        destruct (String.eqb_spec response ""); [contradiction|]. now rewrite Hcond. }
      rewrite Hfirst. exact Hfirst.
Qed.

(** ** More on the chat manager *)

Section ManagerMore.
Context (fallback_knowledge : list (string * string)).
Context (cohere_client : nat -> string -> list turn -> string -> ChatManager.reply).

Abbreviation generate' := (ChatManager.generate fallback_knowledge cohere_client).
Abbreviation answer' := (ChatManager.answer fallback_knowledge cohere_client).
Abbreviation process_message' :=
  (ChatManager.process_message fallback_knowledge cohere_client).

Lemma call_client_fails (message : string) (chat_history : list turn) (preamble : string)
    (st : ChatManager.t) :
  ChatSession.fails (cohere_client (ChatManager.generations st) message chat_history preamble) ->
  exists e st1,
    ChatManager.call_client cohere_client message chat_history preamble st = (Raise e, st1).
Proof.
  intros [Hslow|[e He]]; unfold ChatManager.call_client.
  - apply Qle_bool_iff in Hslow. rewrite Hslow. now eexists _, _.
  - destruct (Qle_bool 15 _); [now eexists _, _|]. rewrite He. now eexists _, _.
Qed.

Lemma call_client_succeeds (message : string) (chat_history : list turn) (preamble : string)
    (st : ChatManager.t) (text : string) :
  (ChatManager.latency
     (cohere_client (ChatManager.generations st) message chat_history preamble) < 15)%Q ->
  ChatManager.outcome
    (cohere_client (ChatManager.generations st) message chat_history preamble) = Ok text ->
  exists st1,
    ChatManager.call_client cohere_client message chat_history preamble st = (Ok text, st1).
Proof.
  intros Hfast Hok. unfold ChatManager.call_client.
  destruct (Qle_bool 15 _) eqn:E.
  - apply Qle_bool_iff in E. lra.
  - rewrite Hok. now eexists.
Qed.

(** the loop of attempts calls the generation client once at least and
    three times at most *)
Lemma generate_counts (message : string) (chat_history : list turn)
    (system_prompt title retrieved_info : string)
    (fuel current_retry : nat) (response : option string) (st : ChatManager.t) :
  (3 - current_retry < fuel)%nat ->
  (current_retry <= 2)%nat ->
  exists r st',
    generate' fuel current_retry response message chat_history system_prompt
              title retrieved_info st = (Ok (Some (Some r)), st')
    /\ ChatManager.history st' = ChatManager.history st
    /\ ChatManager._query_cache st' = ChatManager._query_cache st
    /\ (ChatManager.generations st < ChatManager.generations st'
        <= ChatManager.generations st + (3 - current_retry))%nat.
Proof.
  revert current_retry response st.
  induction fuel as [|fuel IH]; intros current_retry response st Hfuel Hle; [lia|].
  rewrite generate_round. destruct (Nat.leb_spec current_retry 2) as [_|Hgt]; [|lia].
  destruct (call_client_keeps cohere_client message chat_history system_prompt st)
    as (Hh & Hc & Hg).
  destruct (ChatManager.call_client _ _ _ _ st) as [[r|e] st1]; simpl in Hh, Hc, Hg.
  - exists r, st1. repeat split; try assumption; lia.
  - destruct (Nat.leb_spec (S current_retry) 2) as [Hle'|Hgt'].
    + destruct (IH (S current_retry) response
                  (snd (ChatManager.sleep (2 ^ Z.of_nat (S current_retry))%Q st1)))
        as (r & st' & Hrun & Hh' & Hc' & Hg'); [lia | lia |].
      exists r, st'. split; [exact Hrun|]. simpl in Hh', Hc', Hg'.
      repeat split; try congruence; lia.
    + destruct fuel as [|fuel']; [lia|].
      rewrite generate_round.
      destruct (Nat.leb_spec (S current_retry) 2) as [Hle''|_]; [lia|].
      eexists _, st1. split; [reflexivity|]. repeat split; try assumption; lia.
Qed.

(** with every attempt failing: three calls, then the fallback text *)
Lemma generate_all_fail (message : string) (chat_history : list turn)
    (system_prompt title retrieved_info : string) (st : ChatManager.t) :
  (forall n, ChatSession.fails (cohere_client n message chat_history system_prompt)) ->
  exists st',
    generate' 4 0 None message chat_history system_prompt title retrieved_info st
    = (Ok (Some (Some (ChatManager._create_fallback_response fallback_knowledge
                         message title retrieved_info))), st')
    /\ ChatManager.generations st' = (ChatManager.generations st + 3)%nat.
Proof.
  intros Hdown.
  assert (Hstep : forall st0, exists e st1,
            ChatManager.call_client cohere_client message chat_history system_prompt st0
            = (Raise e, st1)
            /\ ChatManager.generations st1 = S (ChatManager.generations st0)).
  { intros st0.
    destruct (call_client_fails message chat_history system_prompt st0 (Hdown _))
      as (e & st1 & Hcall).
    destruct (call_client_keeps cohere_client message chat_history system_prompt st0)
      as (_ & _ & Hg).
    rewrite Hcall in Hg. now exists e, st1. }
  rewrite generate_round. cbn [Nat.leb].
  destruct (Hstep st) as (e1 & st1 & -> & Hg1).
  rewrite generate_round. cbn [Nat.leb].
  destruct (Hstep (snd (ChatManager.sleep (2 ^ Z.of_nat 1)%Q st1)))
    as (e2 & st2 & -> & Hg2).
  rewrite generate_round. cbn [Nat.leb].
  destruct (Hstep (snd (ChatManager.sleep (2 ^ Z.of_nat 2)%Q st2)))
    as (e3 & st3 & -> & Hg3).
  rewrite generate_round. cbn [Nat.leb].
  exists st3. split; [reflexivity|]. simpl in Hg2, Hg3. lia.
Qed.

(** the path of [process_message] through a cache miss *)
Lemma process_miss (message : string) (k : ChatManager.retrieval) (st : ChatManager.t) :
  TTLCache.cache (ChatManager._query_cache st) !! ChatManager._normalize_message message
  = None ->
  process_message' message k st
  = answer' message (ChatManager._normalize_message message) k st.
Proof.
  intros Hmiss.
  unfold ChatManager.process_message, catch, mbind, M_bind,
    ChatManager.cache_get, TTLCache.get.
  rewrite Hmiss.
  replace (ChatManager.Manager (ChatManager.history st) (ChatManager._query_cache st)
             (ChatManager.clock st) (ChatManager.generations st)) with st
    by now destruct st.
  destruct (answer_caches fallback_knowledge cohere_client message
              (ChatManager._normalize_message message) k st)
    as (text & st' & ttl & -> & _). reflexivity.
Qed.

(** what a cache miss does once the knowledge is there *)
Lemma answer_runs (message cache_key : string) (k : ChatManager.retrieval)
    (st : ChatManager.t) :
  exists title retrieved_info knowledge_source st1 generated st2,
    ChatManager.await_knowledge k st = (Ok (title, retrieved_info, knowledge_source), st1)
    /\ generate' 4 0 None message (last_n 6 (ChatManager.history st))
         (ChatManager._build_system_prompt message title retrieved_info
            (ChatManager._analyze_question_type cache_key) knowledge_source)
         title retrieved_info st1 = (Ok (Some (Some generated)), st2)
    /\ ChatManager.history st1 = ChatManager.history st
    /\ ChatManager.generations st1 = ChatManager.generations st
    /\ ChatManager.history st2 = ChatManager.history st
    /\ (ChatManager.generations st < ChatManager.generations st2
        <= ChatManager.generations st + 3)%nat
    /\ exists st',
         answer' message cache_key k st
         = (Ok (ChatManager._post_process_response generated message title), st')
         /\ ChatManager.history st'
            = ChatManager.history st
              ++ [Turn "user" message;
                  Turn "assistant"
                       (ChatManager._post_process_response generated message title)]
         /\ ChatManager.generations st' = ChatManager.generations st2.
Proof.
  assert (Hk : exists found st1,
            ChatManager.await_knowledge k st = (Ok found, st1)
            /\ ChatManager.history st1 = ChatManager.history st
            /\ ChatManager.generations st1 = ChatManager.generations st).
  { unfold ChatManager.await_knowledge. destruct (Qle_bool 10 _).
    - eexists _, _. split; [reflexivity|]. now split.
    - destruct (retrieve_knowledge_total (ChatManager.wiki_first k)
                  (ChatManager.wiki_task k) (ChatManager.kb_task k)) as [[title info] ->].
      eexists _, _. split; [reflexivity|]. now split. }
  destruct Hk as ([[title info] source] & st1 & Hk & Hh1 & Hg1).
  destruct (generate_counts message (last_n 6 (ChatManager.history st))
              (ChatManager._build_system_prompt message title info
                 (ChatManager._analyze_question_type cache_key) source)
              title info 4 0 None st1) as (generated & st2 & Hgen & Hh2 & _ & Hg2);
    [lia | lia |].
  exists title, info, source, st1, generated, st2.
  split; [exact Hk|]. split; [exact Hgen|]. split; [exact Hh1|]. split; [exact Hg1|].
  split; [congruence|]. split; [lia|].
  unfold ChatManager.answer, mbind, M_bind, read. rewrite Hk. cbv beta iota zeta.
  rewrite Hgen.
  unfold ChatManager.append_turn, ChatManager.cache_set, mret, M_ret. cbn.
  eexists. split; [reflexivity|]. cbn.
  split; [|reflexivity]. rewrite Hh2, Hh1, <- app_assoc. reflexivity.
Qed.

(** X9: [process_message] never raises: for every message, every state
    of the session and whatever the knowledge sources and the generation
    client do, it returns a text that is not empty, appends to the history
    exactly the user turn with the message and the assistant turn with
    that text, and calls the generation client three times at most. *)
Theorem X9_process_message_always_answers (message : string) (k : ChatManager.retrieval)
    (st : ChatManager.t) :
  exists text st',
    process_message' message k st = (Ok text, st')
    /\ text <> ""
    /\ ChatManager.history st'
       = ChatManager.history st ++ [Turn "user" message; Turn "assistant" text]
    /\ (ChatManager.generations st <= ChatManager.generations st'
        <= ChatManager.generations st + 3)%nat.
Proof.
  assert (Hmiss : forall st0,
            exists text st',
              answer' message (ChatManager._normalize_message message) k st0 = (Ok text, st')
              /\ text <> ""
              /\ ChatManager.history st'
                 = ChatManager.history st0 ++ [Turn "user" message; Turn "assistant" text]
              /\ (ChatManager.generations st0 <= ChatManager.generations st'
                  <= ChatManager.generations st0 + 3)%nat).
  { intros st0.
    destruct (answer_runs message (ChatManager._normalize_message message) k st0)
      as (title & info & source & st1 & generated & st2 & _ & _ & _ & _ & _ & Hg
          & st' & Hrun & Hh & Hg').
    eexists _, st'. split; [exact Hrun|]. split; [apply post_process_nonempty|].
    split; [exact Hh | lia]. }
  unfold ChatManager.process_message, catch, mbind, M_bind.
  unfold ChatManager.cache_get at 1, TTLCache.get.
  destruct (TTLCache.cache (ChatManager._query_cache st)
              !! ChatManager._normalize_message message) as [e|] eqn:He.
  - destruct (Qltb (ChatManager.clock st) (TTLCache.expires e)) eqn:Hfresh.
    + destruct (String.eqb_spec (TTLCache.value e) "") as [Heq|Hne]; simpl.
      * match goal with
        | |- context [answer' _ _ _ ?s] =>
            destruct (Hmiss s) as (text & st1 & -> & Hrest)
        end.
        now exists text, st1.
      * eexists _, _. split; [reflexivity|]. simpl.
        split; [assumption|]. split; [now rewrite <- app_assoc | lia].
    + match goal with
      | |- context [answer' _ _ _ ?s] =>
          destruct (Hmiss s) as (text & st1 & -> & Hrest)
      end.
      now exists text, st1.
  - match goal with
    | |- context [answer' _ _ _ ?s] =>
        destruct (Hmiss s) as (text & st1 & -> & Hrest)
    end.
    now exists text, st1.
Qed.

(** X10: when the session cache has no entry for the message and every
    call of the generation client fails (it raises, or takes 15 seconds
    or more), [process_message] calls the client exactly three times and
    answers with the post-processed fallback text made from the message
    and the knowledge retrieved. *)
Theorem X10_three_failed_attempts_then_fallback (message : string)
    (k : ChatManager.retrieval) (st : ChatManager.t)
    (title retrieved_info knowledge_source : string) :
  TTLCache.cache (ChatManager._query_cache st) !! ChatManager._normalize_message message
  = None ->
  fst (ChatManager.await_knowledge k st) = Ok (title, retrieved_info, knowledge_source) ->
  (forall n chat_history preamble,
     ChatSession.fails (cohere_client n message chat_history preamble)) ->
  exists st',
    process_message' message k st
    = (Ok (ChatManager._post_process_response
             (ChatManager._create_fallback_response fallback_knowledge
                message title retrieved_info) message title), st')
    /\ ChatManager.generations st' = (ChatManager.generations st + 3)%nat.
Proof.
  intros Hmiss Hk Hdown. rewrite (process_miss message k st Hmiss).
  destruct (answer_runs message (ChatManager._normalize_message message) k st)
    as (title' & info' & source' & st1 & generated & st2 & Hk' & Hgen & _ & Hg1 & _ & _
        & st' & Hrun & _ & Hg').
  rewrite Hk' in Hk. simpl in Hk. injection Hk as -> -> ->.
  destruct (generate_all_fail message (last_n 6 (ChatManager.history st))
              (ChatManager._build_system_prompt message title retrieved_info
                 (ChatManager._analyze_question_type
                    (ChatManager._normalize_message message)) knowledge_source)
              title retrieved_info st1) as (st2' & Hgen' & Hg2);
    [intros n; apply Hdown|].
  rewrite Hgen in Hgen'. injection Hgen' as -> <-.
  exists st'. split; [exact Hrun|]. lia.
Qed.

(** X11: when the session cache has no entry for the message and the
    first call of the generation client returns a text within 15 seconds,
    [process_message] calls the client once and answers with that text
    post-processed. *)
Theorem X11_first_attempt_answers (message : string) (k : ChatManager.retrieval)
    (st : ChatManager.t) (title retrieved_info knowledge_source text : string) :
  let reply :=
    cohere_client (ChatManager.generations st) message (last_n 6 (ChatManager.history st))
      (ChatManager._build_system_prompt message title retrieved_info
         (ChatManager._analyze_question_type (ChatManager._normalize_message message))
         knowledge_source) in
  TTLCache.cache (ChatManager._query_cache st) !! ChatManager._normalize_message message
  = None ->
  fst (ChatManager.await_knowledge k st) = Ok (title, retrieved_info, knowledge_source) ->
  (ChatManager.latency reply < 15)%Q ->
  ChatManager.outcome reply = Ok text ->
  exists st',
    process_message' message k st
    = (Ok (ChatManager._post_process_response text message title), st')
    /\ ChatManager.generations st' = S (ChatManager.generations st).
Proof.
  intros reply Hmiss Hk Hfast Hok. rewrite (process_miss message k st Hmiss).
  destruct (answer_runs message (ChatManager._normalize_message message) k st)
    as (title' & info' & source' & st1 & generated & st2 & Hk' & Hgen & _ & Hg1 & _ & _
        & st' & Hrun & _ & Hg').
  rewrite Hk' in Hk. simpl in Hk. injection Hk as -> -> ->.
  rewrite generate_round in Hgen. cbn [Nat.leb] in Hgen.
  unfold reply in Hfast, Hok. rewrite <- Hg1 in Hfast, Hok.
  destruct (call_client_succeeds message _ _ st1 text Hfast Hok) as (st1' & Hcall).
  destruct (call_client_keeps cohere_client message (last_n 6 (ChatManager.history st))
              (ChatManager._build_system_prompt message title retrieved_info
                 (ChatManager._analyze_question_type
                    (ChatManager._normalize_message message)) knowledge_source) st1)
    as (_ & _ & Hg).
  rewrite Hcall in Hgen, Hg. injection Hgen as <- <-. simpl in Hg.
  exists st'. split; [exact Hrun|]. congruence.
Qed.

(** X12: clearing the history does not clear the session cache: after a
    message has been processed and the history cleared, a message with the
    same normalized form, before the entry expires, gets the same text
    from the cache with no call of the generation client, and the history
    then holds just these two turns. *)
Theorem X12_clear_history_keeps_cached_answers (m1 m2 : string)
    (k1 k2 : ChatManager.retrieval) (st : ChatManager.t) (d : Q) :
  ChatManager._normalize_message m2 = ChatManager._normalize_message m1 ->
  exists text st1 e,
    process_message' m1 k1 st = (Ok text, st1)
    /\ ChatSession.get_history (ChatSession.clear_history st1) = []
    /\ TTLCache.cache (ChatManager._query_cache st1)
         !! ChatManager._normalize_message m1 = Some e
    /\ ((ChatManager.clock st1 + d < TTLCache.expires e)%Q ->
        exists st2,
          process_message' m2 k2 (snd (ChatManager.sleep d (ChatSession.clear_history st1)))
          = (Ok text, st2)
          /\ ChatSession.get_history st2 = [Turn "user" m2; Turn "assistant" text]
          /\ ChatManager.generations st2 = ChatManager.generations st1).
Proof.
  intros Hsame.
  destruct (process_caches fallback_knowledge cohere_client m1 k1 st)
    as (text & st1 & e & Hrun & He & Hval & Hne & _).
  exists text, st1, e. split; [exact Hrun|]. split; [reflexivity|]. split; [exact He|].
  intros Hfresh. subst text.
  rewrite (process_hit fallback_knowledge cohere_client m2 k2
             (snd (ChatManager.sleep d (ChatSession.clear_history st1))) e).
  - eexists. split; [reflexivity|]. now split.
  - simpl. now rewrite Hsame.
  - exact Hfresh.
  - exact Hne.
Qed.

Lemma ignores_ret {A : Type} (a : A) : ChatSession.ignores_history (mret a).
Proof. intros h st. reflexivity. Qed.

Lemma ignores_bind {A B : Type} (m : M ChatManager.t A) (f : A -> M ChatManager.t B) :
  ChatSession.ignores_history m ->
  (forall a, ChatSession.ignores_history (f a)) ->
  ChatSession.ignores_history (mbind f m).
Proof.
  intros Hm Hf h st. unfold mbind, M_bind. rewrite Hm.
  destruct (m st) as [[a|e] st1]; simpl; [apply Hf | reflexivity].
Qed.

Lemma ignores_catch {A : Type} (m : M ChatManager.t A) (f : exc -> M ChatManager.t A) :
  ChatSession.ignores_history m ->
  (forall e, ChatSession.ignores_history (f e)) ->
  ChatSession.ignores_history (catch m f).
Proof.
  intros Hm Hf h st. unfold catch. rewrite Hm.
  destruct (m st) as [[a|e] st1]; simpl; [reflexivity | apply Hf].
Qed.

Lemma ignores_sleep (d : Q) : ChatSession.ignores_history (ChatManager.sleep d).
Proof. intros h st. reflexivity. Qed.

Lemma ignores_call_client (message : string) (chat_history : list turn) (preamble : string) :
  ChatSession.ignores_history
    (ChatManager.call_client cohere_client message chat_history preamble).
Proof.
  intros h st. unfold ChatManager.call_client. simpl.
  destruct (Qle_bool 15 _); reflexivity.
Qed.

Lemma ignores_await_knowledge (k : ChatManager.retrieval) :
  ChatSession.ignores_history (ChatManager.await_knowledge k).
Proof.
  intros h st. unfold ChatManager.await_knowledge.
  destruct (Qle_bool 10 _); [reflexivity|].
  destruct (ChatManager._retrieve_knowledge _ _ _) as [[title info]|e]; reflexivity.
Qed.

Lemma ignores_cache_get (key : string) : ChatSession.ignores_history (ChatManager.cache_get key).
Proof.
  intros h st. unfold ChatManager.cache_get. simpl.
  destruct (TTLCache.get _ _ _). reflexivity.
Qed.

Lemma ignores_generate (message : string) (chat_history : list turn)
    (system_prompt title retrieved_info : string)
    (fuel current_retry : nat) (response : option string) :
  ChatSession.ignores_history
    (generate' fuel current_retry response message chat_history system_prompt
               title retrieved_info).
Proof.
  revert current_retry response.
  induction fuel as [|fuel IH]; intros current_retry response;
    cbn [ChatManager.generate]; [apply ignores_ret|].
  destruct (current_retry <=? 2)%nat; [|apply ignores_ret].
  apply ignores_catch.
  - apply ignores_bind; [apply ignores_call_client | intros r; apply ignores_ret].
  - intros e. cbv zeta. destruct (S current_retry <=? 2)%nat; [|apply IH].
    apply ignores_bind; [apply ignores_sleep | intros _; apply IH].
Qed.

(** X13: only the last six turns of the history reach the answer: two
    sessions that differ in their history alone, and agree on its last six
    turns, give the same answer to a message, make the same number of
    calls of the generation client and end with the same session cache. *)
Theorem X13_answer_depends_on_last_six_turns (message : string)
    (k : ChatManager.retrieval) (st : ChatManager.t) (h : list turn) :
  last_n 6 h = last_n 6 (ChatManager.history st) ->
  let run := process_message' message k st in
  let run' := process_message' message k (ChatSession.with_history h st) in
  fst run' = fst run
  /\ ChatManager._query_cache (snd run') = ChatManager._query_cache (snd run)
  /\ ChatManager.generations (snd run') = ChatManager.generations (snd run)
  /\ ChatManager.clock (snd run') = ChatManager.clock (snd run).
Proof.
  intros Hlast.
  assert (Hanswer : forall key st0,
            ChatManager.history st0 = ChatManager.history st ->
            let a := answer' message key k st0 in
            let a' := answer' message key k (ChatSession.with_history h st0) in
            fst a' = fst a
            /\ ChatManager._query_cache (snd a') = ChatManager._query_cache (snd a)
            /\ ChatManager.generations (snd a') = ChatManager.generations (snd a)
            /\ ChatManager.clock (snd a') = ChatManager.clock (snd a)).
  { intros key st0 Hh0. unfold ChatManager.answer, mbind, M_bind, read.
    cbn [ChatManager.history ChatSession.with_history]. rewrite Hlast, Hh0.
    rewrite (ignores_await_knowledge k h st0).
    destruct (ChatManager.await_knowledge k st0) as [[[[title info] source]|e] st1];
      cbn [fst snd]; [|now repeat split].
    match goal with
    | |- context [generate' 4 0 None ?m ?c ?p ?t ?i (ChatSession.with_history h st1)] =>
        rewrite (ignores_generate m c p t i 4 0 None h st1);
          destruct (generate' 4 0 None m c p t i st1) as [[[[generated|]|]|e] st2]
    end; cbn [fst snd]; now repeat split. }
  unfold ChatManager.process_message, catch, mbind, M_bind.
  rewrite (ignores_cache_get (ChatManager._normalize_message message) h st).
  destruct (ChatManager.cache_get (ChatManager._normalize_message message) st)
    as [[[text|]|e] st1] eqn:Hget; cbn [fst snd].
  - assert (Hh1 : ChatManager.history st1 = ChatManager.history st).
    { unfold ChatManager.cache_get in Hget.
      destruct (TTLCache.get _ _ _). now injection Hget as _ <-. }
    destruct (negb (String.eqb text "")); [now repeat split|].
    destruct (Hanswer (ChatManager._normalize_message message) st1 Hh1)
      as (Hf & Hc & Hg & Ht).
    destruct (answer' _ _ _ (ChatSession.with_history h st1)) as [[a'|e'] s'];
      destruct (answer' _ _ _ st1) as [[a|e0] s0]; simpl in *;
      try discriminate; repeat split; assumption.
  - assert (Hh1 : ChatManager.history st1 = ChatManager.history st).
    { unfold ChatManager.cache_get in Hget.
      destruct (TTLCache.get _ _ _). now injection Hget as _ <-. }
    destruct (Hanswer (ChatManager._normalize_message message) st1 Hh1)
      as (Hf & Hc & Hg & Ht).
    destruct (answer' _ _ _ (ChatSession.with_history h st1)) as [[a'|e'] s'];
      destruct (answer' _ _ _ st1) as [[a|e0] s0]; simpl in *;
      try discriminate; repeat split; assumption.
  - now repeat split.
Qed.

End ManagerMore.

(** ** Text generation, embeddings and the response cache *)

Lemma throttle_keeps (st st2 : CohereClient.t) (tokens : Z) :
  CohereText.throttle st tokens = Ok st2 ->
  CohereClient.calls st2 = CohereClient.calls st
  /\ CohereClient.cache st2 = CohereClient.cache st
  /\ CohereClient.retry_backoff st2 = CohereClient.retry_backoff st.
Proof.
  unfold CohereText.throttle.
  destruct (RateLimiter.acquire _ _ _) as [[w l]|e]; [|discriminate].
  intros [= <-]. destruct (Qltb 0 w); now repeat split.
Qed.

Lemma throttle_total (st : CohereClient.t) (tokens : Z) :
  (0 < RateLimiter.rate (CohereClient.rate_limiter st))%Q ->
  (0 < RateLimiter.per (CohereClient.rate_limiter st))%Q ->
  exists st2, CohereText.throttle st tokens = Ok st2.
Proof.
  intros Hrate Hper. unfold CohereText.throttle.
  rewrite (acquire_spec _ _ _ Hrate Hper).
  destruct (Qltb _ _); cbv zeta; eexists; reflexivity.
Qed.

(** a lookup that finds no entry, or one that has expired, misses and
    leaves the cache well formed *)
Lemma get_miss {V : Type} (c : KnowledgeCache.t V) (key : string) (now : Q) :
  KnowledgeCache.wf c ->
  (forall e, PyDict.get (KnowledgeCache.cache c) key = Some e ->
             (KnowledgeCache.expires e <= now)%Q) ->
  exists c', KnowledgeCache.get c key now = Ok (None, c') /\ KnowledgeCache.wf c'.
Proof.
  intros Hwf Hold.
  destruct (get_keeps c key now Hwf) as (r & c' & Hget & Hwf' & _).
  exists c'. split; [|exact Hwf'].
  destruct (PyDict.get (KnowledgeCache.cache c) key) as [e|] eqn:E.
  - destruct (get_entry c key e now E) as [_ Hexp].
    destruct (Hexp (Hold e eq_refl)) as (c'' & Hget' & _). congruence.
  - unfold KnowledgeCache.get in Hget |- *. rewrite E in Hget |- *. congruence.
Qed.

Lemma ttl_or_day_or_hour (b : bool) (default : Q) :
  KnowledgeCache.ttl_or (Some (if b then 86400%Q else 3600%Q)) default
  = if b then 86400%Q else 3600%Q.
Proof. now destruct b. Qed.

Lemma fold_signature (f : string -> string * string -> string) (l1 l2 : list turn)
    (acc : string) :
  map CohereText.turn_signature l1 = map CohereText.turn_signature l2 ->
  fold_left (fun acc msg => f acc (CohereText.turn_signature msg)) l1 acc
  = fold_left (fun acc msg => f acc (CohereText.turn_signature msg)) l2 acc.
Proof.
  revert l2 acc. induction l1 as [|x l1 IH]; intros [|y l2] acc Hmap;
    try discriminate; [reflexivity|].
  pose proof (f_equal (hd (CohereText.turn_signature x)) Hmap) as Hxy.
  pose proof (f_equal (@tl _) Hmap) as Htl. cbn [map hd tl] in Hxy, Htl.
  cbn [fold_left]. rewrite Hxy. now apply IH.
Qed.

(** the history enters a cache key through the roles and the first
    twenty characters of its last three turns *)
Lemma history_str_signature (h1 h2 : list turn) :
  map CohereText.turn_signature (last_n 3 h1)
  = map CohereText.turn_signature (last_n 3 h2) ->
  CohereClient.history_str h1 = CohereClient.history_str h2.
Proof.
  intros Hsig. unfold CohereClient.history_str.
  exact (fold_signature (fun acc sig => acc +:+ fst sig +:+ ":" +:+ snd sig +:+ ";")
           _ _ "" Hsig).
Qed.

Section ClientMore.
Context (format_float : Q -> string) (upstream : nat -> CohereClient.reply).

Lemma chat_hit (st st2 : CohereClient.t) (message : string) (chat_history : list turn)
    (model : string) (temperature : Q) (retry_on_error : bool)
    (e : KnowledgeCache.entry string) :
  CohereText.throttle st (CohereClient.request_cost message chat_history) = Ok st2 ->
  PyDict.get (KnowledgeCache.cache (CohereClient.cache st))
             (CohereClient.cache_key format_float message chat_history model temperature)
  = Some e ->
  (CohereClient.clock st2 < KnowledgeCache.expires e)%Q ->
  KnowledgeCache.value e <> "" ->
  exists st',
    CohereClient.chat format_float upstream st message chat_history model temperature
                      false retry_on_error
    = Some (Ok (KnowledgeCache.value e), st')
    /\ CohereClient.calls st' = CohereClient.calls st
    /\ KnowledgeCache.cache (CohereClient.cache st')
       = KnowledgeCache.cache (CohereClient.cache st).
Proof.
  intros Hthrottle He Hfresh Hvalue.
  destruct (throttle_keeps _ _ _ Hthrottle) as (Hcalls & Hcache & _).
  unfold CohereClient.chat, CohereClient.chat_with.
  unfold CohereText.throttle in Hthrottle.
  destruct (RateLimiter.acquire _ _ _) as [[w l]|err]; [|discriminate].
  injection Hthrottle as Hst2. cbv zeta. rewrite Hst2.
  rewrite <- Hcache in He.
  destruct (get_entry _ _ _ (CohereClient.clock st2) He) as [Hhit _].
  destruct (Hhit Hfresh) as (c' & -> & Hc').
  destruct (String.eqb_spec (KnowledgeCache.value e) "") as [Hempty|_]; [contradiction|].
  eexists. split; [reflexivity|]. split; [exact Hcalls|].
  simpl. now rewrite Hc', Hcache.
Qed.

(** X14: the response cache of [chat] is keyed by the first 50 characters
    of the message and by the roles and first 20 characters of the last
    three turns of the history: a non-streamed request that agrees on
    these with one whose non-empty answer is cached and has not expired
    once the rate-limit wait is over gets that answer, with no upstream
    call and the cached entries unchanged. *)
Theorem X14_chat_serves_cached_answer_of_similar_request
    (st st2 : CohereClient.t) (m1 m2 : string) (h1 h2 : list turn) (model : string)
    (temperature : Q) (retry_on_error : bool) (e : KnowledgeCache.entry string) :
  PyStr.take 50 m2 = PyStr.take 50 m1 ->
  map CohereText.turn_signature (last_n 3 h2)
  = map CohereText.turn_signature (last_n 3 h1) ->
  CohereText.throttle st (CohereClient.request_cost m2 h2) = Ok st2 ->
  PyDict.get (KnowledgeCache.cache (CohereClient.cache st))
             (CohereClient.cache_key format_float m1 h1 model temperature) = Some e ->
  (CohereClient.clock st2 < KnowledgeCache.expires e)%Q ->
  KnowledgeCache.value e <> "" ->
  exists st',
    CohereClient.chat format_float upstream st m2 h2 model temperature false
                      retry_on_error
    = Some (Ok (KnowledgeCache.value e), st')
    /\ CohereClient.calls st' = CohereClient.calls st
    /\ KnowledgeCache.cache (CohereClient.cache st')
       = KnowledgeCache.cache (CohereClient.cache st).
Proof.
  intros Hmessage Hhistory Hthrottle He Hfresh Hvalue.
  apply (chat_hit st st2 m2 h2 model temperature retry_on_error e);
    try assumption.
  rewrite <- He. f_equal. unfold CohereClient.cache_key.
  now rewrite Hmessage, (history_str_signature _ _ Hhistory).
Qed.

(** X15: when the response cache is well formed and holds no unexpired
    entry for the request, a non-empty answer that a non-streamed [chat]
    gets from upstream at its first attempt is stored for a day when the
    temperature is below 0.5 and for an hour otherwise, counted from the
    end of the upstream call: the same request made again is answered with
    the same text and no upstream call as long as its rate-limit wait ends
    before that time. *)
Theorem X15_chat_answer_is_served_again_until_its_ttl
    (st st2 : CohereClient.t) (message : string) (chat_history : list turn)
    (model : string) (temperature : Q) (retry_on_error : bool) (text : string) :
  KnowledgeCache.wf (CohereClient.cache st) ->
  CohereText.throttle st (CohereClient.request_cost message chat_history) = Ok st2 ->
  (forall e,
     PyDict.get (KnowledgeCache.cache (CohereClient.cache st))
       (CohereClient.cache_key format_float message chat_history model temperature)
     = Some e ->
     (KnowledgeCache.expires e <= CohereClient.clock st2)%Q) ->
  CohereClient.outcome (upstream (CohereClient.calls st)) = Ok text ->
  text <> "" ->
  exists st',
    CohereClient.chat format_float upstream st message chat_history model temperature
                      false retry_on_error = Some (Ok text, st')
    /\ CohereClient.calls st' = S (CohereClient.calls st)
    /\ forall (elapsed : Q) (st3 : CohereClient.t),
         CohereText.throttle (CohereClient.sleep elapsed st')
                             (CohereClient.request_cost message chat_history) = Ok st3 ->
         (CohereClient.clock st3
          < CohereClient.clock st2
            + CohereClient.latency (upstream (CohereClient.calls st))
            + (if Qltb temperature (1 # 2) then 86400 else 3600))%Q ->
         exists st'',
           CohereClient.chat format_float upstream (CohereClient.sleep elapsed st')
                             message chat_history model temperature false retry_on_error
           = Some (Ok text, st'')
           /\ CohereClient.calls st'' = S (CohereClient.calls st).
Proof.
  intros Hwf Hthrottle Hold Hup Htext.
  destruct (throttle_keeps _ _ _ Hthrottle) as (Hcalls & Hcache & Hbackoff).
  set (key := CohereClient.cache_key format_float message chat_history model temperature)
    in *.
  rewrite <- Hcache in Hwf, Hold.
  destruct (get_miss _ key (CohereClient.clock st2) Hwf Hold) as (c' & Hget & Hwf').
  set (st1 := CohereClient.Client (CohereClient.rate_limiter st2) c'
                (CohereClient.retry_backoff st2)
                (CohereClient.clock st2
                 + CohereClient.latency (upstream (CohereClient.calls st)))%Q
                (S (CohereClient.calls st))).
  set (ttl := if Qltb temperature (1 # 2) then 86400%Q else 3600%Q).
  destruct (set_keeps c' key text (Some ttl) (CohereClient.clock st1) Hwf')
    as (c1 & Hset & _).
  assert (Hrun : CohereClient.chat format_float upstream st message chat_history model
                   temperature false retry_on_error
                 = Some (Ok text, CohereClient.with_cache st1 c1)).
  { unfold CohereClient.chat, CohereClient.chat_with.
    unfold CohereText.throttle in Hthrottle.
    destruct (RateLimiter.acquire _ _ _) as [[w l]|err]; [|discriminate].
    injection Hthrottle as Hst2. cbv zeta. rewrite Hst2. fold key. rewrite Hget.
    cbn [CohereClient.retry_loop]. unfold CohereClient.attempt.
    cbn [CohereClient.calls CohereClient.with_cache CohereClient.cache
         CohereClient.rate_limiter CohereClient.retry_backoff CohereClient.clock].
    rewrite Hcalls, Hup. fold st1. fold ttl.
    change (CohereClient.clock st1) with
      (CohereClient.clock st2 + CohereClient.latency (upstream (CohereClient.calls st)))%Q
      in Hset.
    now rewrite Hset. }
  exists (CohereClient.with_cache st1 c1). split; [exact Hrun|]. split; [reflexivity|].
  intros elapsed st3 Hthrottle3 Hfresh.
  destruct (chat_hit (CohereClient.sleep elapsed (CohereClient.with_cache st1 c1)) st3
              message chat_history model temperature retry_on_error
              (KnowledgeCache.Entry text
                 (CohereClient.clock st1
                  + KnowledgeCache.ttl_or (Some ttl) (KnowledgeCache.ttl c'))%Q))
    as (st'' & Hrun'' & Hcalls'' & _).
  - exact Hthrottle3.
  - exact (set_stores _ _ _ _ _ _ Hset).
  - unfold ttl at 1. rewrite ttl_or_day_or_hour. exact Hfresh.
  - exact Htext.
  - exists st''. split; [exact Hrun''|]. exact Hcalls''.
Qed.

End ClientMore.

Section GenerateMore.
Context (format_float : Q -> string) (upstream : nat -> CohereClient.reply).




(** X17: the cache of [generate_text] is keyed by the first 100 characters
    of the prompt, the model, the token limit and the temperature: a
    prompt that shares its first 100 characters with one whose non-empty
    text is cached and has not expired once the rate-limit wait is over
    gets that text, with no upstream call. *)
Theorem X17_generate_text_serves_cached_text_of_similar_prompt
    (st st2 : CohereClient.t) (p1 p2 model : string) (max_tokens : Z) (temperature : Q)
    (retry_on_error : bool) (e : KnowledgeCache.entry string) :
  PyStr.take 100 p2 = PyStr.take 100 p1 ->
  CohereText.throttle st (1 + Z.of_nat (String.length p2) / 1000) = Ok st2 ->
  PyDict.get (KnowledgeCache.cache (CohereClient.cache st))
             (CohereText.generate_key format_float p1 model max_tokens temperature)
  = Some e ->
  (CohereClient.clock st2 < KnowledgeCache.expires e)%Q ->
  KnowledgeCache.value e <> "" ->
  exists st',
    CohereText.generate_text format_float upstream st p2 model max_tokens temperature
                             retry_on_error
    = Some (Ok (KnowledgeCache.value e), st')
    /\ CohereClient.calls st' = CohereClient.calls st.
Proof.
  intros Hprefix Hthrottle He Hfresh Hvalue.
  destruct (throttle_keeps _ _ _ Hthrottle) as (Hcalls & Hcache & _).
  unfold CohereText.generate_text. rewrite Hthrottle. cbv zeta.
  unfold CohereText.generate_key in He |- *. rewrite Hprefix.
  rewrite <- Hcache in He.
  destruct (get_entry _ _ _ (CohereClient.clock st2) He) as [Hhit _].
  destruct (Hhit Hfresh) as (c' & -> & _).
  destruct (String.eqb_spec (KnowledgeCache.value e) "") as [Hempty|_]; [contradiction|].
  eexists. split; [reflexivity|]. exact Hcalls.
Qed.

End GenerateMore.

(** X18: with a limiter of positive rate and period, [embed_text] calls
    upstream at most twice: it returns the embeddings of the first call
    when that succeeds; otherwise it sleeps two seconds and calls again,
    and returns the embeddings of the second call or raises [LLMError]
    when that fails too. *)
Theorem X18_embed_text_retries_once (upstream : nat -> CohereText.embed_reply)
    (st : CohereClient.t) (texts : list string) :
  (0 < RateLimiter.rate (CohereClient.rate_limiter st))%Q ->
  (0 < RateLimiter.per (CohereClient.rate_limiter st))%Q ->
  exists st2,
    CohereText.throttle st (Z.max 1 (Z.of_nat (length texts) / 5)) = Ok st2
    /\ let run := CohereText.embed_text upstream st texts in
       let first := upstream (CohereClient.calls st) in
       let second := upstream (S (CohereClient.calls st)) in
       match CohereText.embed_outcome first with
       | Ok embeddings =>
           fst run = Ok embeddings
           /\ CohereClient.calls (snd run) = S (CohereClient.calls st)
           /\ CohereClient.clock (snd run)
              = (CohereClient.clock st2 + CohereText.embed_latency first)%Q
       | Raise _ =>
           CohereClient.calls (snd run) = S (S (CohereClient.calls st))
           /\ CohereClient.clock (snd run)
              = (CohereClient.clock st2 + CohereText.embed_latency first + 2
                 + CohereText.embed_latency second)%Q
           /\ fst run = match CohereText.embed_outcome second with
                        | Ok embeddings => Ok embeddings
                        | Raise _ => Raise LLMError
                        end
       end.
Proof.
  intros Hrate Hper.
  destruct (throttle_total st (Z.max 1 (Z.of_nat (length texts) / 5)) Hrate Hper)
    as (st2 & Hthrottle).
  exists st2. split; [exact Hthrottle|].
  destruct (throttle_keeps _ _ _ Hthrottle) as (Hcalls & _ & _).
  unfold CohereText.embed_text. rewrite Hthrottle. cbv zeta.
  cbn [CohereClient.calls CohereClient.sleep CohereText.called].
  rewrite Hcalls.
  destruct (CohereText.embed_outcome (upstream (CohereClient.calls st))) as [emb|e];
    [|destruct (CohereText.embed_outcome (upstream (S (CohereClient.calls st))))
        as [emb|e']];
    cbn [fst snd CohereClient.calls CohereClient.clock CohereText.called
         CohereClient.sleep];
    rewrite ?Hcalls; now repeat split.
Qed.

(** ** Concrete runs *)

Lemma X2_entry_just_read_is_not_evicted_next_witness :
  exists c',
    KnowledgeCache.get two_entries "a" 5%Q = Ok (Some "x", c')
    /\ KnowledgeCache.lru_key (KnowledgeCache.access_times c') <> Some "a".
Proof.
  assert (Hwf : KnowledgeCache.wf two_entries).
  { split; [reflexivity|]. refine (bool_decide_unpack _ _). vm_compute. exact I. }
  eexists. split; [reflexivity|].
  refine (proj2 (X2_entry_just_read_is_not_evicted_next
                   two_entries "a" "b" "x" 5%Q 2%Q _ Hwf eq_refl _ eq_refl _));
    [discriminate | reflexivity].
Defined.

Lemma X3_set_and_get_leave_other_entries_witness :
  exists c',
    KnowledgeCache.set two_entries "c" "z" None 3%Q = Ok c'
    /\ PyDict.get (KnowledgeCache.cache c') "b"
       = Some (KnowledgeCache.Entry "y" 100%Q).
Proof.
  assert (Hwf : KnowledgeCache.wf two_entries).
  { split; [reflexivity|]. refine (bool_decide_unpack _ _). vm_compute. exact I. }
  destruct (X3_set_and_get_leave_other_entries two_entries "c" "z" None 3%Q Hwf)
    as [(c' & Hset & Hrest) _].
  exists c'. split; [exact Hset|].
  rewrite (Hrest "b"); [reflexivity | discriminate | left; discriminate].
Defined.

Lemma X10_three_failed_attempts_then_fallback_witness :
  exists text st',
    ChatManager.process_message [] client_down "Any sports news?" nothing_found
      (ChatManager.init 0) = (Ok text, st')
    /\ ChatManager.generations st' = 3%nat.
Proof.
  destruct (X10_three_failed_attempts_then_fallback [] client_down "Any sports news?"
              nothing_found (ChatManager.init 0) "" "" "")
    as (st' & Hrun & Hgen);
    [reflexivity | reflexivity | intros n h pre; right; now exists OtherError |].
  eexists _, st'. split; [exact Hrun | exact Hgen].
Defined.

Lemma X11_first_attempt_answers_witness :
  exists st',
    ChatManager.process_message [] client_up "What is Rust?" nothing_found
      (ChatManager.init 0)
    = (Ok (ChatManager._post_process_response
             "Rust is a systems programming language." "What is Rust?" ""), st')
    /\ ChatManager.generations st' = 1%nat.
Proof.
  exact (X11_first_attempt_answers [] client_up "What is Rust?" nothing_found
           (ChatManager.init 0) "" "" "" "Rust is a systems programming language."
           eq_refl eq_refl eq_refl eq_refl).
Defined.

Lemma X12_clear_history_keeps_cached_answers_witness :
  exists text st1 st2,
    ChatManager.process_message [] client_up "What is Rust?" nothing_found
      (ChatManager.init 0) = (Ok text, st1)
    /\ ChatManager.process_message [] client_up "  what IS  rust? " nothing_found
         (snd (ChatManager.sleep 60 (ChatSession.clear_history st1))) = (Ok text, st2)
    /\ ChatSession.get_history st2
       = [Turn "user" "  what IS  rust? "; Turn "assistant" text].
Proof.
  destruct (X12_clear_history_keeps_cached_answers [] client_up "What is Rust?"
              "  what IS  rust? " nothing_found nothing_found (ChatManager.init 0) 60%Q)
    as (text & st1 & e & Hfirst & _ & He & Hsecond); [reflexivity|].
  assert (Hfresh : (ChatManager.clock st1 + 60 < TTLCache.expires e)%Q).
  { vm_compute in Hfirst. injection Hfirst as _ <-.
    vm_compute in He. injection He as <-. reflexivity. }
  destruct (Hsecond Hfresh) as (st2 & Hrun2 & Hhist & _).
  now exists text, st1, st2.
Defined.

Lemma X13_answer_depends_on_last_six_turns_witness :
  fst (ChatManager.process_message [] client_up "What is Rust?" nothing_found
         (ChatSession.with_history (tl seven_turns)
            (ChatSession.with_history seven_turns (ChatManager.init 0))))
  = fst (ChatManager.process_message [] client_up "What is Rust?" nothing_found
           (ChatSession.with_history seven_turns (ChatManager.init 0))).
Proof.
  exact (proj1 (X13_answer_depends_on_last_six_turns [] client_up "What is Rust?"
                  nothing_found (ChatSession.with_history seven_turns (ChatManager.init 0))
                  (tl seven_turns) eq_refl)).
Defined.

Lemma X14_chat_serves_cached_answer_of_similar_request_witness :
  exists st',
    CohereClient.chat (fun _ => "0.7") upstream_down
      (client_with (CohereClient.cache_key (fun _ => "0.7") (fifty_letters +:+ " one")
                      [] "command" (7 # 10)))
      (fifty_letters +:+ " two") [] "command" (7 # 10) false true
    = Some (Ok "Cached text.", st')
    /\ CohereClient.calls st' = 0%nat.
Proof.
  destruct (X14_chat_serves_cached_answer_of_similar_request (fun _ => "0.7")
              upstream_down
              (client_with (CohereClient.cache_key (fun _ => "0.7")
                              (fifty_letters +:+ " one") [] "command" (7 # 10)))
              _ (fifty_letters +:+ " one") (fifty_letters +:+ " two") [] [] "command"
              (7 # 10) true (KnowledgeCache.Entry "Cached text." 100%Q)
              eq_refl eq_refl eq_refl)
    as (st' & Hrun & Hcalls & _); [reflexivity | reflexivity | discriminate|].
  exists st'. split; [exact Hrun | exact Hcalls].
Defined.

Lemma X15_chat_answer_is_served_again_until_its_ttl_witness :
  exists st',
    CohereClient.chat (fun _ => "0.7") upstream_up (CohereClient.init 0)
      "Hello" [] "command" (7 # 10) false true = Some (Ok "Hello there.", st')
    /\ CohereClient.calls st' = 1%nat.
Proof.
  assert (Hwf : KnowledgeCache.wf (CohereClient.cache (CohereClient.init 0)))
    by (split; [reflexivity | apply NoDup_nil_2]).
  destruct (X15_chat_answer_is_served_again_until_its_ttl (fun _ => "0.7") upstream_up
              (CohereClient.init 0) _ "Hello" [] "command" (7 # 10) true "Hello there."
              Hwf eq_refl)
    as (st' & Hrun & Hcalls & _); [discriminate | reflexivity | discriminate |].
  exists st'. split; [exact Hrun | exact Hcalls].
Defined.


Lemma X17_generate_text_serves_cached_text_of_similar_prompt_witness :
  exists st',
    CohereText.generate_text (fun _ => "0.7") upstream_down
      (client_with (CohereText.generate_key (fun _ => "0.7") (hundred_letters +:+ " one")
                      "command" 1024 (7 # 10)))
      (hundred_letters +:+ " two") "command" 1024 (7 # 10) true
    = Some (Ok "Cached text.", st')
    /\ CohereClient.calls st' = 0%nat.
Proof.
  exact (X17_generate_text_serves_cached_text_of_similar_prompt (fun _ => "0.7")
           upstream_down
           (client_with (CohereText.generate_key (fun _ => "0.7")
                           (hundred_letters +:+ " one") "command" 1024 (7 # 10)))
           _ (hundred_letters +:+ " one") (hundred_letters +:+ " two") "command" 1024
           (7 # 10) true (KnowledgeCache.Entry "Cached text." 100%Q)
           eq_refl eq_refl eq_refl eq_refl ltac:(discriminate)).
Defined.

Lemma X18_embed_text_retries_once_witness :
  fst (CohereText.embed_text embed_flaky (CohereClient.init 0) ["a"; "b"])
  = Ok [[1 # 2; 1 # 4]%Q]
  /\ CohereClient.calls (snd (CohereText.embed_text embed_flaky (CohereClient.init 0)
                                ["a"; "b"])) = 2%nat.
Proof.
  destruct (X18_embed_text_retries_once embed_flaky (CohereClient.init 0) ["a"; "b"])
    as (st2 & _ & Hcalls & _ & Hrun); [reflexivity | reflexivity |].
  split; [exact Hrun | exact Hcalls].
Defined.

(** ** The encyclopedic provider: failures and repeated calls *)

Lemma get_keeps_ttl {V : Type} (c c' : KnowledgeCache.t V) (key : string) (now : Q)
    (r : option V) :
  KnowledgeCache.get c key now = Ok (r, c') ->
  KnowledgeCache.ttl c' = KnowledgeCache.ttl c.
Proof.
  unfold KnowledgeCache.get.
  destruct (PyDict.get (KnowledgeCache.cache c) key) as [e|]; [|now intros [= _ <-]].
  destruct (Qltb now (KnowledgeCache.expires e)); [now intros [= _ <-]|].
  destruct (PyDict.del (KnowledgeCache.cache c) key); simpl; [|discriminate].
  destruct (if PyDict.contains _ key then _ else _); simpl; [|discriminate].
  now intros [= _ <-].
Qed.

Section ServiceMore.
Context (wiki : WikipediaService.wikipedia).
Implicit Types (st : WikipediaService.t) (key title query : string).

(** what a call of the package through [wait_for] leaves: one call more,
    the cache as it was, the clock advanced by the timeout at most *)
Lemma wait_for_runs {A : Type} (call : nat -> WikipediaService.reply A) st :
  let r := call (WikipediaService.calls st) in
  exists st',
    snd (WikipediaService.wait_for call st) = st'
    /\ WikipediaService.calls st' = S (WikipediaService.calls st)
    /\ WikipediaService.cache st' = WikipediaService.cache st
    /\ WikipediaService.timeout st' = WikipediaService.timeout st
    /\ (WikipediaService.clock st'
        <= WikipediaService.clock st + WikipediaService.timeout st)%Q
    /\ ((WikipediaService.timeout st <= WikipediaService.latency r)%Q ->
        fst (WikipediaService.wait_for call st) = Raise TimeoutError)
    /\ ((WikipediaService.latency r < WikipediaService.timeout st)%Q ->
        fst (WikipediaService.wait_for call st) = WikipediaService.outcome r
        /\ WikipediaService.clock st'
           = (WikipediaService.clock st + WikipediaService.latency r)%Q).
Proof.
  intros r. unfold WikipediaService.wait_for. fold r.
  destruct (Qle_bool (WikipediaService.timeout st) (WikipediaService.latency r)) eqn:E;
    eexists; (split; [reflexivity|]);
    cbn [fst snd WikipediaService.calls WikipediaService.cache
         WikipediaService.timeout WikipediaService.clock].
  - apply Qle_bool_iff in E.
    split; [reflexivity|]. split; [reflexivity|]. split; [reflexivity|].
    split; [lra|]. split; [reflexivity|]. intros Hlt. lra.
  - assert (Hlt : ~ (WikipediaService.timeout st <= WikipediaService.latency r)%Q)
      by (intros Hle; apply Qle_bool_iff in Hle; congruence).
    split; [reflexivity|]. split; [reflexivity|]. split; [reflexivity|].
    split; [lra|]. split; [intros Hle; contradiction|]. intros _. now split.
Qed.

Lemma service_cache_set_wf key (v : WikipediaService.value) (ttl' : option Q) st :
  KnowledgeCache.wf (WikipediaService.cache st) ->
  exists c,
    WikipediaService.cache_set key v ttl' st
    = (Ok tt, WikipediaService.Service (WikipediaService.timeout st) c
                (WikipediaService.clock st) (WikipediaService.calls st))
    /\ KnowledgeCache.wf c
    /\ PyDict.get (KnowledgeCache.cache c) key
       = Some (KnowledgeCache.Entry v
                 (WikipediaService.clock st
                  + KnowledgeCache.ttl_or ttl'
                      (KnowledgeCache.ttl (WikipediaService.cache st)))%Q).
Proof.
  intros Hwf. unfold WikipediaService.cache_set.
  destruct (set_keeps _ key v ttl' (WikipediaService.clock st) Hwf) as (c & Hset & Hwf' & _).
  exists c. rewrite Hset. split; [reflexivity|]. split; [exact Hwf'|].
  exact (set_stores _ _ _ _ _ _ Hset).
Qed.

(** the [try] of [search] on a well-formed cache *)
Lemma fetch_results_runs (cleaned_query : string) (limit : Z) key st :
  KnowledgeCache.wf (WikipediaService.cache st) ->
  let call := WikipediaService.wiki_search wiki (WikipediaService.calls st)
                cleaned_query limit in
  exists v st',
    WikipediaService.fetch_results wiki cleaned_query limit key st = (Ok v, st')
    /\ WikipediaService.calls st' = S (WikipediaService.calls st)
    /\ WikipediaService.timeout st' = WikipediaService.timeout st
    /\ KnowledgeCache.wf (WikipediaService.cache st')
    /\ (WikipediaService.clock st'
        <= WikipediaService.clock st + WikipediaService.timeout st)%Q
    /\ ((WikipediaService.timeout st <= WikipediaService.latency call)%Q
        \/ (exists e, WikipediaService.outcome call = Raise e) ->
        v = WikipediaService.VList []
        /\ WikipediaService.cache st' = WikipediaService.cache st)
    /\ (forall search_results,
          (WikipediaService.latency call < WikipediaService.timeout st)%Q ->
          WikipediaService.outcome call = Ok search_results ->
          v = WikipediaService.VList (WikipediaService.filter_results [] search_results)
          /\ WikipediaService.clock st'
             = (WikipediaService.clock st + WikipediaService.latency call)%Q
          /\ PyDict.get (KnowledgeCache.cache (WikipediaService.cache st')) key
             = Some (KnowledgeCache.Entry v
                       (WikipediaService.clock st + WikipediaService.latency call
                        + KnowledgeCache.ttl (WikipediaService.cache st))%Q)).
Proof.
  intros Hwf call.
  destruct (wait_for_runs
              (fun n => WikipediaService.wiki_search wiki n cleaned_query limit) st)
    as (st1 & Hst1 & Hcalls & Hcache & Htimeout & Hclock & Hlate & Hintime).
  cbv beta in Hlate, Hintime. fold call in Hlate, Hintime.
  unfold WikipediaService.fetch_results, catch, mbind, M_bind.
  destruct (WikipediaService.wait_for _ st) as [r st1'] eqn:Hwait.
  cbn [fst snd] in *. subst st1'.
  destruct r as [search_results|e].
  - assert (Hwf1 : KnowledgeCache.wf (WikipediaService.cache st1)) by now rewrite Hcache.
    destruct (service_cache_set_wf key
                (WikipediaService.VList (WikipediaService.filter_results [] search_results))
                None st1 Hwf1) as (c & -> & Hwfc & Hstored).
    eexists _, _. split; [reflexivity|].
    cbn [WikipediaService.calls WikipediaService.timeout WikipediaService.cache
         WikipediaService.clock mret M_ret].
    split; [exact Hcalls|]. split; [exact Htimeout|]. split; [exact Hwfc|].
    split; [exact Hclock|]. split.
    + intros [Hle|[e He]].
      * specialize (Hlate Hle). discriminate.
      * destruct (Qlt_le_dec (WikipediaService.latency call) (WikipediaService.timeout st))
          as [Hlt|Hle]; [|specialize (Hlate Hle); discriminate].
        destruct (Hintime Hlt) as [Hout _]. congruence.
    + intros results Hlt Hok. destruct (Hintime Hlt) as [Hout Hclk].
      assert (results = search_results) by congruence. subst results.
      split; [reflexivity|]. split; [exact Hclk|].
      rewrite Hstored. rewrite Hclk, Hcache. reflexivity.
  - eexists _, _. split; [reflexivity|].
    split; [exact Hcalls|]. split; [exact Htimeout|].
    split; [now rewrite Hcache|]. split; [exact Hclock|]. split.
    + intros _. split; [reflexivity | exact Hcache].
    + intros results Hlt Hok. destruct (Hintime Hlt) as [Hout _]. congruence.
Qed.

(** a lookup that finds an unexpired value that tests true is served *)
Lemma search_hit query (limit : Z) st (e : KnowledgeCache.entry WikipediaService.value) :
  PyStr.is_blank query = false ->
  PyDict.get (KnowledgeCache.cache (WikipediaService.cache st))
             (WikipediaService.search_key query limit) = Some e ->
  (WikipediaService.clock st < KnowledgeCache.expires e)%Q ->
  WikipediaService.truthy (KnowledgeCache.value e) = true ->
  exists st',
    WikipediaService.search wiki query limit st = (Ok (KnowledgeCache.value e), st')
    /\ WikipediaService.calls st' = WikipediaService.calls st.
Proof.
  intros Hblank He Hfresh Htrue. unfold WikipediaService.search. rewrite Hblank.
  unfold mbind, M_bind, WikipediaService.cache_get.
  destruct (get_entry _ _ _ (WikipediaService.clock st) He) as [Hhit _].
  destruct (Hhit Hfresh) as (c' & -> & _). rewrite Htrue.
  eexists. split; reflexivity.
Qed.

(** X19: on a well-formed cache and with a timeout that is not negative,
    [search] never raises, whatever the package does: it returns a value,
    makes at most one call of the package, ends at most the timeout after
    it started and leaves the cache well formed. *)
Theorem X19_search_never_raises query (limit : Z) st :
  KnowledgeCache.wf (WikipediaService.cache st) ->
  (0 <= WikipediaService.timeout st)%Q ->
  exists v st',
    WikipediaService.search wiki query limit st = (Ok v, st')
    /\ (WikipediaService.calls st' <= S (WikipediaService.calls st))%nat
    /\ (WikipediaService.clock st'
        <= WikipediaService.clock st + WikipediaService.timeout st)%Q
    /\ KnowledgeCache.wf (WikipediaService.cache st')
    /\ WikipediaService.timeout st' = WikipediaService.timeout st.
Proof.
  intros Hwf Htimeout. unfold WikipediaService.search.
  destruct (PyStr.is_blank query).
  { eexists _, st. split; [reflexivity|]. split; [lia|]. split; [lra|].
    split; [exact Hwf | reflexivity]. }
  unfold mbind, M_bind.
  destruct (service_cache_get (WikipediaService.search_key query limit) st)
    as (cached & c & _ & -> & Hwfc). specialize (Hwfc Hwf).
  set (st1 := WikipediaService.Service _ c _ _).
  assert (Hfetch : exists v st',
            WikipediaService.fetch_results wiki (WikipediaService._clean_query query) limit
              (WikipediaService.search_key query limit) st1 = (Ok v, st')
            /\ (WikipediaService.calls st' <= S (WikipediaService.calls st))%nat
            /\ (WikipediaService.clock st'
                <= WikipediaService.clock st + WikipediaService.timeout st)%Q
            /\ KnowledgeCache.wf (WikipediaService.cache st')
            /\ WikipediaService.timeout st' = WikipediaService.timeout st).
  { destruct (fetch_results_runs (WikipediaService._clean_query query) limit
                (WikipediaService.search_key query limit) st1 Hwfc)
      as (v & st' & Hrun & Hcalls & Ht & Hwf' & Hclock & _).
    exists v, st'. split; [exact Hrun|]. split; [simpl in Hcalls; lia|].
    split; [exact Hclock|]. split; [exact Hwf' | exact Ht]. }
  destruct cached as [v|]; [|exact Hfetch].
  destruct (WikipediaService.truthy v); [|exact Hfetch].
  eexists _, st1. split; [reflexivity|].
  split; [simpl; lia|]. split; [simpl; lra|]. split; [exact Hwfc | reflexivity].
Qed.

(** X20: when the lookup misses and the call of the package times out or
    raises, [search] returns the empty list after that one call and stores
    nothing: the cache is as the lookup left it. *)
Theorem X20_failed_search_returns_nothing_and_stores_nothing query (limit : Z) st :
  PyStr.is_blank query = false ->
  WikipediaService.misses (WikipediaService.search_key query limit) st ->
  KnowledgeCache.wf (WikipediaService.cache st) ->
  let call := WikipediaService.wiki_search wiki (WikipediaService.calls st)
                (WikipediaService._clean_query query) limit in
  (WikipediaService.timeout st <= WikipediaService.latency call)%Q
  \/ (exists e, WikipediaService.outcome call = Raise e) ->
  exists st',
    WikipediaService.search wiki query limit st = (Ok (WikipediaService.VList []), st')
    /\ WikipediaService.calls st' = S (WikipediaService.calls st)
    /\ WikipediaService.cache st'
       = WikipediaService.cache
           (snd (WikipediaService.cache_get (WikipediaService.search_key query limit) st)).
Proof.
  intros Hblank Hmiss Hwf call Hfail.
  rewrite (search_miss wiki query limit st Hblank Hmiss).
  destruct (service_cache_get (WikipediaService.search_key query limit) st)
    as (cached & c & _ & -> & Hwfc). specialize (Hwfc Hwf). cbn [snd].
  set (st1 := WikipediaService.Service _ c _ _).
  destruct (fetch_results_runs (WikipediaService._clean_query query) limit
              (WikipediaService.search_key query limit) st1 Hwfc)
    as (v & st' & Hrun & Hcalls & _ & _ & _ & Hfailed & _).
  destruct (Hfailed Hfail) as [-> Hcache].
  exists st'. split; [exact Hrun|]. split; [exact Hcalls | exact Hcache].
Qed.

(** X21: titles that [search] gets from the package and keeps are stored
    under the cleaned query and the limit for the default time to live of
    the cache: a query with the same cleaned form and limit, made before
    that time has passed since the call returned, gets the same titles
    with no call of the package. *)
Theorem X21_search_results_are_served_to_queries_cleaned_alike query (limit : Z) st
    (search_results : list string) :
  PyStr.is_blank query = false ->
  WikipediaService.misses (WikipediaService.search_key query limit) st ->
  KnowledgeCache.wf (WikipediaService.cache st) ->
  let call := WikipediaService.wiki_search wiki (WikipediaService.calls st)
                (WikipediaService._clean_query query) limit in
  (WikipediaService.latency call < WikipediaService.timeout st)%Q ->
  WikipediaService.outcome call = Ok search_results ->
  WikipediaService.filter_results [] search_results <> [] ->
  exists st',
    WikipediaService.search wiki query limit st
    = (Ok (WikipediaService.VList (WikipediaService.filter_results [] search_results)), st')
    /\ WikipediaService.calls st' = S (WikipediaService.calls st)
    /\ forall query' (d : Q),
         PyStr.is_blank query' = false ->
         WikipediaService._clean_query query' = WikipediaService._clean_query query ->
         (d < KnowledgeCache.ttl (WikipediaService.cache st))%Q ->
         exists st'',
           WikipediaService.search wiki query' limit (WikipediaService.later d st')
           = (Ok (WikipediaService.VList
                    (WikipediaService.filter_results [] search_results)), st'')
           /\ WikipediaService.calls st'' = S (WikipediaService.calls st).
Proof.
  intros Hblank Hmiss Hwf call Hlt Hok Hkept.
  rewrite (search_miss wiki query limit st Hblank Hmiss).
  destruct (service_cache_get (WikipediaService.search_key query limit) st)
    as (cached & c & Hget & -> & Hwfc). specialize (Hwfc Hwf). cbn [snd].
  pose proof (get_keeps_ttl _ _ _ _ _ Hget) as Httl.
  set (st1 := WikipediaService.Service _ c _ _).
  destruct (fetch_results_runs (WikipediaService._clean_query query) limit
              (WikipediaService.search_key query limit) st1 Hwfc)
    as (v & st' & Hrun & Hcalls & _ & _ & _ & _ & Hdone).
  destruct (Hdone search_results Hlt Hok) as (-> & Hclock & Hstored).
  exists st'. split; [exact Hrun|]. split; [exact Hcalls|].
  intros query' d Hblank' Hsame Hd.
  assert (Hkey : WikipediaService.search_key query' limit
                 = WikipediaService.search_key query limit)
    by (unfold WikipediaService.search_key; now rewrite Hsame).
  pose proof Hstored as Hstored'. rewrite <- Hkey in Hstored'.
  destruct (search_hit query' limit (WikipediaService.later d st') _ Hblank' Hstored')
    as (st'' & Hrun'' & Hcalls'').
  - cbn [WikipediaService.later WikipediaService.clock KnowledgeCache.expires].
    rewrite Hclock. cbn [WikipediaService.cache st1] in *. rewrite Httl.
    change (WikipediaService.clock st1) with (WikipediaService.clock st). lra.
  - cbn [KnowledgeCache.value WikipediaService.truthy].
    destruct (WikipediaService.filter_results [] search_results); [contradiction|reflexivity].
  - exists st''. split; [exact Hrun''|]. rewrite Hcalls''. exact Hcalls.
Qed.

(** the full-page attempt of [get_page_summary]: one call of the package,
    the cache as it was *)
Lemma from_page_runs title st :
  let call := WikipediaService.wiki_page wiki (WikipediaService.calls st) title in
  exists r st',
    WikipediaService.from_page wiki title st = (r, st')
    /\ WikipediaService.calls st' = S (WikipediaService.calls st)
    /\ WikipediaService.cache st' = WikipediaService.cache st
    /\ WikipediaService.timeout st' = WikipediaService.timeout st
    /\ (WikipediaService.clock st'
        <= WikipediaService.clock st + WikipediaService.timeout st)%Q
    /\ ((WikipediaService.timeout st <= WikipediaService.latency call)%Q
        \/ (exists e, WikipediaService.outcome call = Raise e) ->
        exists e, r = Raise e).
Proof.
  intros call.
  destruct (wait_for_runs (fun n => WikipediaService.wiki_page wiki n title) st)
    as (st1 & Hst1 & Hcalls & Hcache & Htimeout & Hclock & Hlate & Hintime).
  cbv beta in Hlate, Hintime. fold call in Hlate, Hintime.
  unfold WikipediaService.from_page, mbind, M_bind.
  destruct (WikipediaService.wait_for _ st) as [r st1'] eqn:Hwait.
  cbn [fst snd] in *. subst st1'.
  assert (Hfail : (WikipediaService.timeout st <= WikipediaService.latency call)%Q
                  \/ (exists e, WikipediaService.outcome call = Raise e) ->
                  exists e, r = Raise e).
  { intros [Hle|[e He]]; [exists TimeoutError; now apply Hlate|].
    destruct (Qlt_le_dec (WikipediaService.latency call) (WikipediaService.timeout st))
      as [Hlt|Hle]; [|exists TimeoutError; now apply Hlate].
    destruct (Hintime Hlt) as [Hout _]. exists e. congruence. }
  destruct r as [pg|e].
  - unfold lift. destruct (WikipediaService.content pg) as [content|e].
    + destruct (WikipediaService.extract content) as [summary|].
      * eexists _, _. split; [reflexivity|]. repeat (split; [assumption|]).
        intros H. destruct (Hfail H) as [e He]. discriminate.
      * eexists _, _. split; [reflexivity|]. repeat (split; [assumption|]).
        intros H. destruct (Hfail H) as [e He]. discriminate.
    + eexists _, _. split; [reflexivity|]. repeat (split; [assumption|]).
      intros _. now exists e.
  - eexists _, _. split; [reflexivity|]. repeat (split; [assumption|]).
    intros _. now exists e.
Qed.

(** the handlers that end [get_page_summary] on a well-formed cache: a
    disambiguation becomes a text stored for a day, anything else nothing *)
Lemma summary_handler title key (e : exc) st :
  KnowledgeCache.wf (WikipediaService.cache st) ->
  exists r st',
    match e with
    | DisambiguationError options =>
        let result := WikipediaService.disambiguation_text title (firstn 3 options) in
        mbind (fun _ : unit => mret (Some (WikipediaService.VStr result)))
              (WikipediaService.cache_set key (WikipediaService.VStr result) (Some 86400%Q))
    | _ => mret None
    end st = (Ok r, st')
    /\ WikipediaService.calls st' = WikipediaService.calls st
    /\ WikipediaService.clock st' = WikipediaService.clock st
    /\ WikipediaService.timeout st' = WikipediaService.timeout st
    /\ KnowledgeCache.wf (WikipediaService.cache st')
    /\ match e with
       | DisambiguationError options =>
           r = Some (WikipediaService.VStr
                       (WikipediaService.disambiguation_text title (firstn 3 options)))
           /\ PyDict.get (KnowledgeCache.cache (WikipediaService.cache st')) key
              = Some (KnowledgeCache.Entry
                        (WikipediaService.VStr
                           (WikipediaService.disambiguation_text title (firstn 3 options)))
                        (WikipediaService.clock st + 86400)%Q)
       | _ => r = None /\ st' = st
       end.
Proof.
  intros Hwf.
  destruct e as [| | | |options| | |];
    try (exists None, st; split; [reflexivity|];
         split; [reflexivity|]; split; [reflexivity|]; split; [reflexivity|];
         split; [exact Hwf | now split]).
  cbv zeta. unfold mbind, M_bind.
  destruct (service_cache_set_wf key
              (WikipediaService.VStr
                 (WikipediaService.disambiguation_text title (firstn 3 options)))
              (Some 86400%Q) st Hwf) as (c & -> & Hwfc & Hstored).
  eexists _, _. split; [reflexivity|].
  split; [reflexivity|]. split; [reflexivity|]. split; [reflexivity|].
  split; [exact Hwfc|]. split; [reflexivity | exact Hstored].
Qed.


(** X23: when the lookup misses and both the call for the page and the
    call for the plain summary fail, [get_page_summary] has called the
    package twice and returns nothing, storing nothing, unless the second
    call raised a disambiguation in time: it then returns a sentence that
    names the title and the first three options, stored for one day. *)
Theorem X23_summary_of_a_page_that_cannot_be_fetched title (sentences : Z) st :
  PyStr.is_blank title = false ->
  WikipediaService.misses (WikipediaService.summary_key title sentences) st ->
  KnowledgeCache.wf (WikipediaService.cache st) ->
  let page_call := WikipediaService.wiki_page wiki (WikipediaService.calls st) title in
  let summary_call :=
    WikipediaService.wiki_summary wiki (S (WikipediaService.calls st)) title sentences in
  let looked_up :=
    snd (WikipediaService.cache_get (WikipediaService.summary_key title sentences) st) in
  (WikipediaService.timeout st <= WikipediaService.latency page_call)%Q
  \/ (exists e, WikipediaService.outcome page_call = Raise e) ->
  exists r st',
    WikipediaService.get_page_summary wiki title sentences st = (Ok r, st')
    /\ WikipediaService.calls st' = S (S (WikipediaService.calls st))
    /\ (forall options,
          (WikipediaService.latency summary_call < WikipediaService.timeout st)%Q ->
          WikipediaService.outcome summary_call = Raise (DisambiguationError options) ->
          let text := WikipediaService.disambiguation_text title (firstn 3 options) in
          r = Some (WikipediaService.VStr text)
          /\ PyDict.get (KnowledgeCache.cache (WikipediaService.cache st'))
               (WikipediaService.summary_key title sentences)
             = Some (KnowledgeCache.Entry (WikipediaService.VStr text)
                       (WikipediaService.clock st' + 86400)%Q))
    /\ ((WikipediaService.timeout st <= WikipediaService.latency summary_call)%Q
        \/ (exists e, WikipediaService.outcome summary_call = Raise e
                      /\ forall options, e <> DisambiguationError options) ->
        r = None
        /\ WikipediaService.cache st' = WikipediaService.cache looked_up).
Proof.
  intros Hblank Hmiss Hwf page_call summary_call looked_up Hpage.
  rewrite (summary_miss wiki title sentences st Hblank Hmiss). fold looked_up.
  unfold looked_up.
  destruct (service_cache_get (WikipediaService.summary_key title sentences) st)
    as (cached & c & _ & -> & Hwfc). specialize (Hwfc Hwf). cbn [snd].
  set (st1 := WikipediaService.Service _ c _ _).
  set (key := WikipediaService.summary_key title sentences).
  unfold WikipediaService.fetch_summary, catch. unfold mbind at 1, M_bind at 1.
  destruct (from_page_runs title st1)
    as (r1 & st2 & -> & Hcalls2 & Hcache2 & Htimeout2 & _ & Hfail).
  destruct (Hfail Hpage) as [e1 ->].
  destruct (wait_for_runs
              (fun n => WikipediaService.wiki_summary wiki n title sentences) st2)
    as (st3 & Hst3 & Hcalls3 & Hcache3 & Htimeout3 & _ & Hlate & Hintime).
  cbv beta in Hlate, Hintime. rewrite Hcalls2, Htimeout2 in Hlate, Hintime.
  change (WikipediaService.calls st1) with (WikipediaService.calls st) in Hlate, Hintime.
  change (WikipediaService.timeout st1) with (WikipediaService.timeout st)
    in Hlate, Hintime.
  fold summary_call in Hlate, Hintime.
  destruct (WikipediaService.wait_for _ st2) as [r3 st3'].
  cbn [fst snd] in Hst3, Hlate, Hintime. subst st3'.
  assert (Hwf3 : KnowledgeCache.wf (WikipediaService.cache st3))
    by now rewrite Hcache3, Hcache2.
  assert (Hcalls : WikipediaService.calls st3 = S (S (WikipediaService.calls st)))
    by (rewrite Hcalls3, Hcalls2; reflexivity).
  destruct r3 as [summary|e3].
  - (* the second call answered: neither case of the statement applies *)
    unfold mbind, M_bind.
    destruct (service_cache_set_wf key
                (WikipediaService.VStr (WikipediaService._clean_content summary))
                (Some (7 * 86400)%Q) st3 Hwf3) as (c3 & -> & _ & _).
    eexists _, _. split; [reflexivity|]. split; [exact Hcalls|]. split.
    + intros options Hlt Hout. destruct (Hintime Hlt) as [Hr _]. congruence.
    + intros [Hle|(e & He & _)]; [specialize (Hlate Hle); discriminate|].
      destruct (Qlt_le_dec (WikipediaService.latency summary_call)
                  (WikipediaService.timeout st)) as [Hlt|Hle];
        [|specialize (Hlate Hle); discriminate].
      destruct (Hintime Hlt) as [Hr _]. congruence.
  - destruct (summary_handler title key e3 st3 Hwf3)
      as (r & st' & Hrun & Hc & Hk & _ & _ & Hcases).
    exists r, st'. split; [exact Hrun|]. split; [now rewrite Hc|]. split.
    + intros options Hlt Hout. destruct (Hintime Hlt) as [Hr _].
      assert (e3 = DisambiguationError options) by congruence. subst e3.
      destruct Hcases as [-> Hstored]. split; [reflexivity|].
      rewrite Hk. exact Hstored.
    + intros Hother.
      assert (Hnot : forall options, e3 <> DisambiguationError options).
      { destruct Hother as [Hle|(e & He & Hne)].
        - specialize (Hlate Hle). injection Hlate as ->. discriminate.
        - destruct (Qlt_le_dec (WikipediaService.latency summary_call)
                      (WikipediaService.timeout st)) as [Hlt|Hle].
          + destruct (Hintime Hlt) as [Hr _]. assert (e3 = e) by congruence. now subst.
          + specialize (Hlate Hle). injection Hlate as ->. discriminate. }
      destruct e3 as [| | | |options| | |];
        try (destruct Hcases as [-> ->]; split; [reflexivity|];
             now rewrite Hcache3, Hcache2).
      exfalso. now apply (Hnot options).
Qed.

End ServiceMore.

(** ** Concrete runs of the encyclopedic provider *)

Lemma X19_search_never_raises_witness :
  exists v st',
    WikipediaService.search wiki_down "What is Rust?" 5 (WikipediaService.init 8 0)
    = (Ok v, st')
    /\ (WikipediaService.clock st' <= 0 + 8)%Q.
Proof.
  destruct (X19_search_never_raises wiki_down "What is Rust?" 5
              (WikipediaService.init 8 0) fresh_service_wf)
    as (v & st' & Hrun & _ & Hclock & _); [discriminate|].
  now exists v, st'.
Defined.

Lemma X20_failed_search_returns_nothing_and_stores_nothing_witness :
  exists st',
    WikipediaService.search wiki_down "What is Rust?" 5 (WikipediaService.init 8 0)
    = (Ok (WikipediaService.VList []), st')
    /\ WikipediaService.calls st' = 1%nat
    /\ KnowledgeCache.size (WikipediaService.cache st') = 0%nat.
Proof.
  destruct (X20_failed_search_returns_nothing_and_stores_nothing wiki_down
              "What is Rust?" 5 (WikipediaService.init 8 0))
    as (st' & Hrun & Hcalls & Hcache);
    [reflexivity | exact I | exact fresh_service_wf | right; now exists OtherError |].
  exists st'. split; [exact Hrun|]. split; [exact Hcalls|]. now rewrite Hcache.
Defined.

Lemma X21_search_results_are_served_to_queries_cleaned_alike_witness :
  exists st' st'',
    WikipediaService.search wiki_ambiguous "What is Mercury?" 5 (WikipediaService.init 8 0)
    = (Ok (WikipediaService.VList ["Mercury (planet)"; "Mercury (element)"]), st')
    /\ WikipediaService.search wiki_ambiguous "mercury" 5 (WikipediaService.later 3600 st')
       = (Ok (WikipediaService.VList ["Mercury (planet)"; "Mercury (element)"]), st'')
    /\ WikipediaService.calls st'' = 1%nat.
Proof.
  destruct (X21_search_results_are_served_to_queries_cleaned_alike wiki_ambiguous
              "What is Mercury?" 5 (WikipediaService.init 8 0)
              ["Mercury (planet)"; "Mercury (element)"])
    as (st' & Hrun & _ & Hagain);
    [reflexivity | exact I | exact fresh_service_wf | reflexivity | reflexivity
     | discriminate |].
  destruct (Hagain "mercury" 3600%Q) as (st'' & Hrun'' & Hcalls'');
    [reflexivity | reflexivity | reflexivity |].
  exists st', st''. split; [exact Hrun|]. split; [exact Hrun'' | exact Hcalls''].
Defined.


Lemma X23_summary_of_a_page_that_cannot_be_fetched_witness :
  exists st',
    WikipediaService.get_page_summary wiki_ambiguous "Mercury" 5
      (WikipediaService.init 8 0)
    = (Ok (Some (WikipediaService.VStr
                   (WikipediaService.disambiguation_text "Mercury"
                      ["Mercury (planet)"; "Mercury (element)"; "Mercury (mythology)"]))),
       st')
    /\ WikipediaService.calls st' = 2%nat.
Proof.
  destruct (X23_summary_of_a_page_that_cannot_be_fetched wiki_ambiguous "Mercury" 5
              (WikipediaService.init 8 0))
    as (r & st' & Hrun & Hcalls & Hambiguous & _);
    [reflexivity | exact I | exact fresh_service_wf
     | right; eexists; reflexivity |].
  destruct (Hambiguous ["Mercury (planet)"; "Mercury (element)"; "Mercury (mythology)";
                        "Mercury Records"]) as [-> _]; [reflexivity | reflexivity |].
  exists st'. split; [exact Hrun | exact Hcalls].
Defined.

(** ** The static knowledge base *)

Lemma Qle_bool_spec (x y : Q) : Qle_bool x y = true <-> (x <= y)%Q.
Proof. apply Qle_bool_iff. Qed.

(** the share of the words of the query and of the key that both have *)
Lemma overlap_ratio (query_words key_words : gset string) :
  size (query_words ∩ key_words) <> 0%nat ->
  let ratio :=
    (inject_Z (Z.of_nat (size (query_words ∩ key_words)))
     / inject_Z (Z.of_nat (Nat.max (size query_words) (size key_words))))%Q in
  (0 < ratio)%Q /\ (ratio <= 1)%Q /\ ((1 <= ratio)%Q <-> query_words = key_words).
Proof.
  intros Hsome ratio.
  pose proof (subseteq_size _ _ (intersection_subseteq_l query_words key_words)) as Hq.
  pose proof (subseteq_size _ _ (intersection_subseteq_r query_words key_words)) as Hk.
  set (a := size (query_words ∩ key_words)) in *.
  set (b := Nat.max (size query_words) (size key_words)) in *.
  assert (Hab : (a <= b)%nat) by (unfold b; lia).
  assert (Hb : (0 < inject_Z (Z.of_nat b))%Q).
  { change 0%Q with (inject_Z 0). rewrite <- Zlt_Qlt. lia. }
  assert (Ha : (0 < inject_Z (Z.of_nat a))%Q).
  { change 0%Q with (inject_Z 0). rewrite <- Zlt_Qlt. lia. }
  split; [|split].
  - unfold ratio. apply Qlt_shift_div_l; [exact Hb|]. lra.
  - unfold ratio. apply Qle_shift_div_r; [exact Hb|].
    rewrite Qmult_1_l. rewrite <- Zle_Qle. lia.
  - split.
    + intros Hone.
      assert (Hba : (b <= a)%nat).
      { destruct (Nat.le_gt_cases b a) as [Hle|Hgt]; [exact Hle|]. exfalso.
        assert (Hlt : (ratio < 1)%Q).
        { unfold ratio. apply Qlt_shift_div_r; [exact Hb|].
          rewrite Qmult_1_l. rewrite <- Zlt_Qlt. lia. }
        lra. }
      assert (Hql : query_words ∩ key_words = query_words).
      { apply set_subseteq_size_eq; [apply intersection_subseteq_l|]. fold a. lia. }
      assert (Hkl : query_words ∩ key_words = key_words).
      { apply set_subseteq_size_eq; [apply intersection_subseteq_r|]. fold a. lia. }
      congruence.
    + intros Hsame. unfold ratio.
      apply Qle_shift_div_l; [exact Hb|]. rewrite Qmult_1_l. rewrite <- Zle_Qle.
      assert (b <= a)%nat; [|lia].
      unfold a, b. rewrite Hsame.
      rewrite (intersection_idemp_L key_words). lia.
Qed.

(** X24: a relevance score lies between 0 and 1 and is 1 for the key
    itself only. It reaches the threshold 0.3 of [search] exactly when the
    query is the key, one of the two contains the other, or the two are
    made of the same words: a query that shares only some of its words
    with a key never reaches it. *)
Theorem X24_relevance_reaches_the_threshold (query key : string) :
  let score := KnowledgeBase._calculate_relevance query key in
  (0 <= score)%Q /\ (score <= 1)%Q
  /\ ((score == 1)%Q <-> query = key)
  /\ ((3 # 10 <= score)%Q <->
      query = key
      \/ PyStr.contains (" " +:+ query +:+ " ") (" " +:+ key +:+ " ") = true
      \/ String.prefix key query = true
      \/ PyStr.contains query key = true
      \/ PyStr.contains key query = true
      \/ (KnowledgeBase.words query = KnowledgeBase.words key
          /\ KnowledgeBase.words query <> ∅)).
Proof.
  unfold KnowledgeBase._calculate_relevance.
  destruct (String.eqb_spec query key) as [Heq|Hne].
  { cbv zeta. split; [lra|]. split; [lra|]. split; [now split|]. split; [now left | lra]. }
  destruct (PyStr.contains (" " +:+ query +:+ " ") (" " +:+ key +:+ " ")) eqn:E1.
  { cbv zeta. split; [lra|]. split; [lra|]. split.
    - split; [intros H; exfalso; revert H; discriminate | contradiction].
    - split; [intros _; right; now left | intros _; lra]. }
  destruct (String.prefix key query) eqn:E2.
  { cbv zeta. split; [lra|]. split; [lra|]. split.
    - split; [intros H; exfalso; revert H; discriminate | contradiction].
    - split; [intros _; right; right; now left | intros _; lra]. }
  destruct (PyStr.contains query key) eqn:E3.
  { cbv zeta. split; [lra|]. split; [lra|]. split.
    - split; [intros H; exfalso; revert H; discriminate | contradiction].
    - split; [intros _; right; right; right; now left | intros _; lra]. }
  destruct (PyStr.contains key query) eqn:E4.
  { cbv zeta. split; [lra|]. split; [lra|]. split.
    - split; [intros H; exfalso; revert H; discriminate | contradiction].
    - split; [intros _; right; right; right; right; now left | intros _; lra]. }
  cbv zeta.
  destruct (Nat.eqb_spec (size (KnowledgeBase.words query ∩ KnowledgeBase.words key)) 0)
    as [Hnone|Hsome].
  { split; [lra|]. split; [lra|]. split.
    - split; [intros H; exfalso; revert H; discriminate | contradiction].
    - split; [intros H; exfalso; lra|].
      intros [H|[H|[H|[H|[H|[Hsame Hwords]]]]]]; try congruence.
      exfalso. apply Hwords. apply size_empty_inv in Hnone.
      apply leibniz_equiv in Hnone. rewrite <- Hsame in Hnone.
      now rewrite (intersection_idemp_L (KnowledgeBase.words query)) in Hnone. }
  destruct (overlap_ratio _ _ Hsome) as (Hpos & Hle & Hone).
  set (ratio := (inject_Z _ / inject_Z _)%Q) in *.
  split; [nra|]. split; [nra|]. split.
  - split; [intros H; exfalso; nra | contradiction].
  - split.
    + intros Hscore. repeat right. assert (Hr : (1 <= ratio)%Q) by nra.
      apply Hone in Hr. split; [exact Hr|]. intros Hempty.
      apply Hsome. rewrite Hempty. rewrite intersection_empty_l_L. apply size_empty.
    + intros [H|[H|[H|[H|[H|[Hsame _]]]]]]; try congruence.
      apply Hone in Hsame. nra.
Qed.

Section BaseFacts.
Context (str_title : string -> string).

(** the loop of [search] ends with the first item of the best score, when
    some item scores above the starting score *)
Lemma fold_better (normalized_query : string) (items : PyDict.dict string)
    (best : string * string * Q) :
  let score := KnowledgeBase._calculate_relevance normalized_query in
  let result := fold_left (KnowledgeBase.better str_title normalized_query) items best in
  (result = best /\ forall item, In item items -> (score (fst item) <= snd best)%Q)
  \/ exists pre key info post,
       items = pre ++ (key, info) :: post
       /\ result = (str_title key, info, score key)
       /\ (snd best < score key)%Q
       /\ (forall item, In item pre -> (score (fst item) < score key)%Q)
       /\ (forall item, In item post -> (score (fst item) <= score key)%Q).
Proof.
  intros score. revert best.
  induction items as [|[k i] rest IH]; intros best; cbv zeta; cbn [fold_left].
  - left. split; [reflexivity | intros item []].
  - assert (Hstep : KnowledgeBase.better str_title normalized_query best (k, i)
                    = if Qltb (snd best) (score k)
                      then (str_title k, i, score k) else best) by reflexivity.
    rewrite Hstep. clear Hstep.
    destruct (Qltb (snd best) (score k)) eqn:E.
    + apply Qltb_lt in E.
      destruct (IH (str_title k, i, score k))
        as [[Hres Hrest]|(pre & key & info & post & Hitems & Hres & Hlt & Hpre & Hpost)];
        rewrite Hres.
      * right. exists [], k, i, rest. split; [reflexivity|]. split; [reflexivity|].
        split; [exact E|]. split; [intros item []|]. exact Hrest.
      * right. exists ((k, i) :: pre), key, info, post.
        split; [now rewrite Hitems|]. split; [reflexivity|]. cbn [snd] in Hlt.
        split; [lra|]. split; [|exact Hpost].
        intros item [<-|Hin]; [exact Hlt | now apply Hpre].
    + apply Qltb_ge in E.
      destruct (IH best)
        as [[Hres Hrest]|(pre & key & info & post & Hitems & Hres & Hlt & Hpre & Hpost)];
        rewrite Hres.
      * left. split; [reflexivity|].
        intros item [<-|Hin]; [exact E | now apply Hrest].
      * right. exists ((k, i) :: pre), key, info, post.
        split; [now rewrite Hitems|]. split; [reflexivity|].
        split; [exact Hlt|]. split; [|exact Hpost].
        intros item [<-|Hin]; [cbn [fst]; lra | now apply Hpre].
Qed.

(** X25: when its cache holds nothing for the query, [search] on a
    well-formed cache returns the title-cased key and the text of the
    first entry of the table whose relevance to the lowercased query is the
    highest, provided this is at least 0.3, and stores this pair for the
    default time to live; when no entry scores 0.3 it returns two empty
    strings and stores nothing. *)
Theorem X25_search_returns_the_first_best_entry (kb : KnowledgeBase.t) (query : string)
    (now : Q) :
  KnowledgeCache.wf (KnowledgeBase.cache kb) ->
  PyDict.get (KnowledgeCache.cache (KnowledgeBase.cache kb))
             (KnowledgeBase.search_key query) = None ->
  let score := KnowledgeBase._calculate_relevance (PyStr.lower query) in
  exists r kb',
    KnowledgeBase.search str_title kb query now = Ok (r, kb')
    /\ ((r = ("", "") /\ kb' = kb
         /\ forall item, In item (KnowledgeBase.fallback_knowledge kb) ->
                         (score (fst item) < 3 # 10)%Q)
        \/ exists pre key info post,
             KnowledgeBase.fallback_knowledge kb = pre ++ (key, info) :: post
             /\ r = (str_title key, info)
             /\ (3 # 10 <= score key)%Q
             /\ (forall item, In item pre -> (score (fst item) < score key)%Q)
             /\ (forall item, In item post -> (score (fst item) <= score key)%Q)
             /\ KnowledgeBase.fallback_knowledge kb' = KnowledgeBase.fallback_knowledge kb
             /\ PyDict.get (KnowledgeCache.cache (KnowledgeBase.cache kb'))
                           (KnowledgeBase.search_key query)
                = Some (KnowledgeCache.Entry r
                          (now + KnowledgeCache.ttl (KnowledgeBase.cache kb))%Q)).
Proof.
  intros Hwf Hmiss score. unfold KnowledgeBase.search.
  assert (Hget : KnowledgeCache.get (KnowledgeBase.cache kb)
                   (KnowledgeBase.search_key query) now
                 = Ok (None, KnowledgeBase.cache kb))
    by (unfold KnowledgeCache.get; now rewrite Hmiss).
  rewrite Hget. cbn [mbind res_bind fst snd]. unfold KnowledgeBase.best_of.
  assert (Hsame : KnowledgeBase.with_cache kb (KnowledgeBase.cache kb) = kb)
    by now destruct kb.
  destruct (fold_better (PyStr.lower query) (KnowledgeBase.fallback_knowledge kb)
              ("", "", 0%Q))
    as [[-> Hall]|(pre & key & info & post & Htable & -> & Hlt & Hpre & Hpost)].
  - cbn [fst snd] in *. change (Qle_bool (3 # 10) 0) with false. cbv iota.
    eexists _, _. split; [reflexivity|]. left.
    split; [reflexivity|]. split; [exact Hsame|].
    intros item Hin. specialize (Hall item Hin). fold score in Hall. lra.
  - cbn [fst snd] in *. fold score in Hlt, Hpre, Hpost |- *.
    destruct (Qle_bool (3 # 10) (score key)) eqn:E.
    + apply Qle_bool_iff in E.
      destruct (set_keeps (KnowledgeBase.cache kb) (KnowledgeBase.search_key query)
                  (str_title key, info) None now Hwf) as (c & Hset & _).
      rewrite Hset. cbn [mbind res_bind].
      eexists _, _. split; [reflexivity|]. right.
      exists pre, key, info, post. split; [exact Htable|]. split; [reflexivity|].
      split; [exact E|]. split; [exact Hpre|]. split; [exact Hpost|].
      split; [reflexivity|]. exact (set_stores _ _ _ _ _ _ Hset).
    + assert (Hlow : (score key < 3 # 10)%Q).
      { apply Qnot_le_lt. intros Hle. apply Qle_bool_iff in Hle. congruence. }
      eexists _, _. split; [reflexivity|]. left.
      split; [reflexivity|]. split; [exact Hsame|].
      intros item Hin. rewrite Htable in Hin. apply in_app_or in Hin.
      destruct Hin as [Hin|[<-|Hin]].
      * specialize (Hpre item Hin). lra.
      * exact Hlow.
      * specialize (Hpost item Hin). lra.
Qed.

(** the empty query is found in every key *)
Lemma relevance_of_empty_query (key : string) :
  key <> "" -> KnowledgeBase._calculate_relevance "" key = 5 # 10.
Proof.
  intros Hkey. destruct key as [|c key]; [contradiction|].
  unfold KnowledgeBase._calculate_relevance.
  change (String.eqb "" (String c key)) with false. cbv iota.
  assert (Hin : PyStr.contains (String c key) "" = true) by reflexivity.
  assert (Hpadded : PyStr.contains (" " +:+ "" +:+ " ") (" " +:+ String c key +:+ " ")
                    = false).
  { change (" " +:+ "" +:+ " ") with (String " "%char (String " "%char EmptyString)).
    change (" " +:+ String c key +:+ " ")
      with (String " "%char (String c (key +:+ " "))).
    cbn [PyStr.contains String.prefix].
    destruct (ascii_dec " " " ") as [_|Hne]; [|now contradiction Hne].
    destruct (ascii_dec c " "); [|reflexivity].
    destruct key; reflexivity. }
  rewrite Hpadded.
  change (String.prefix (String c key) "") with false. cbv iota.
  change (PyStr.contains "" (String c key)) with false. cbv iota.
  now rewrite Hin.
Qed.

(** X26: the empty query is a substring of every key, so every non-empty
    key scores 0.5 against it: when the cache holds nothing for it,
    [search] answers the empty query with the first entry of the table. *)
Theorem X26_empty_query_returns_the_first_entry (kb : KnowledgeBase.t)
    (key info : string) (rest : PyDict.dict string) (now : Q) :
  KnowledgeCache.wf (KnowledgeBase.cache kb) ->
  PyDict.get (KnowledgeCache.cache (KnowledgeBase.cache kb))
             (KnowledgeBase.search_key "") = None ->
  KnowledgeBase.fallback_knowledge kb = (key, info) :: rest ->
  (forall item, In item (KnowledgeBase.fallback_knowledge kb) -> fst item <> "") ->
  exists kb',
    KnowledgeBase.search str_title kb "" now = Ok ((str_title key, info), kb')
    /\ PyDict.get (KnowledgeCache.cache (KnowledgeBase.cache kb'))
                  (KnowledgeBase.search_key "")
       = Some (KnowledgeCache.Entry (str_title key, info)
                 (now + KnowledgeCache.ttl (KnowledgeBase.cache kb))%Q).
Proof.
  intros Hwf Hmiss Htable Hkeys. unfold KnowledgeBase.search.
  assert (Hget : KnowledgeCache.get (KnowledgeBase.cache kb)
                   (KnowledgeBase.search_key "") now
                 = Ok (None, KnowledgeBase.cache kb))
    by (unfold KnowledgeCache.get; now rewrite Hmiss).
  rewrite Hget. cbn [mbind res_bind fst snd]. unfold KnowledgeBase.best_of.
  change (PyStr.lower "") with "".
  assert (Hscore : forall item, In item (KnowledgeBase.fallback_knowledge kb) ->
                                KnowledgeBase._calculate_relevance "" (fst item) = 5 # 10)
    by (intros item Hin; apply relevance_of_empty_query; now apply Hkeys).
  destruct (fold_better "" (KnowledgeBase.fallback_knowledge kb) ("", "", 0%Q))
    as [[_ Hall]|(pre & key' & info' & post & Htable' & -> & _ & Hpre & _)].
  - exfalso. specialize (Hall (key, info)). rewrite Htable in Hall.
    specialize (Hall (or_introl eq_refl)).
    rewrite (Hscore (key, info)) in Hall by (rewrite Htable; now left).
    cbn in Hall. lra.
  - assert (Hkey' : KnowledgeBase._calculate_relevance "" key' = 5 # 10).
    { apply (Hscore (key', info')). rewrite Htable'. apply in_or_app. right. now left. }
    destruct pre as [|first pre].
    + rewrite Htable in Htable'. injection Htable' as <- <- _.
      cbn [fst snd]. rewrite Hkey'. change (Qle_bool (3 # 10) (5 # 10)) with true.
      cbv iota.
      destruct (set_keeps (KnowledgeBase.cache kb) (KnowledgeBase.search_key "")
                  (str_title key, info) None now Hwf) as (c & Hset & _).
      rewrite Hset. cbn [mbind res_bind].
      eexists. split; [reflexivity|]. exact (set_stores _ _ _ _ _ _ Hset).
    + exfalso. specialize (Hpre first (or_introl eq_refl)).
      rewrite (Hscore first), Hkey' in Hpre by (rewrite Htable'; now left).
      lra.
Qed.

End BaseFacts.

(** ** Concrete runs of the static knowledge base *)

Example ascii_title_sample :
  ascii_title "machine learning: it's 2nd-BEST" = "Machine Learning: It'S 2Nd-Best".
Proof. reflexivity. Qed.

Example relevance_samples :
  KnowledgeBase._calculate_relevance "what is machine learning?" "machine learning"
  = 7 # 10
  /\ KnowledgeBase._calculate_relevance "learning machine" "machine learning"
     = ((3 # 10) * (inject_Z 2 / inject_Z 2))%Q
  /\ KnowledgeBase._calculate_relevance "quantum physics" "quantum computing"
     = ((3 # 10) * (inject_Z 1 / inject_Z 2))%Q
  /\ KnowledgeBase._calculate_relevance "rust" "machine learning" = 0%Q.
Proof. repeat split; vm_compute; reflexivity. Qed.

Lemma fresh_base_wf (table : PyDict.dict string) :
  KnowledgeCache.wf (KnowledgeBase.cache (KnowledgeBase.init table)).
Proof. split; [reflexivity | apply NoDup_nil_2]. Qed.

Lemma X25_search_returns_the_first_best_entry_witness :
  exists kb',
    KnowledgeBase.search ascii_title (KnowledgeBase.init two_topics)
      "What is machine learning?" 0
    = Ok (("Machine Learning",
           "Machine Learning is a subset of AI that gives computers the ability to learn from data without being explicitly programmed."),
          kb').
Proof.
  destruct (X25_search_returns_the_first_best_entry ascii_title
              (KnowledgeBase.init two_topics) "What is machine learning?" 0
              (fresh_base_wf two_topics) eq_refl)
    as (r & kb' & Hrun & _).
  pose proof Hrun as Hvalue. vm_compute in Hvalue. injection Hvalue as Hr _.
  exists kb'. rewrite Hrun, <- Hr. reflexivity.
Defined.

Lemma X26_empty_query_returns_the_first_entry_witness :
  exists kb',
    KnowledgeBase.search ascii_title (KnowledgeBase.init two_topics) "" 0
    = Ok (("Ai",
           "Artificial Intelligence (AI) refers to systems that can perform tasks requiring human intelligence."),
          kb').
Proof.
  destruct (X26_empty_query_returns_the_first_entry ascii_title
              (KnowledgeBase.init two_topics) "ai"
              "Artificial Intelligence (AI) refers to systems that can perform tasks requiring human intelligence."
              [("machine learning", "Machine Learning is a subset of AI that gives computers the ability to learn from data without being explicitly programmed.")]
              0 (fresh_base_wf two_topics) eq_refl eq_refl)
    as (kb' & Hrun & _).
  - intros item [<-|[<-|[]]]; discriminate.
  - exists kb'. exact Hrun.
Defined.

(** ** The connection manager *)

Section ConnectionFacts.
Context {WebSocket : Type}.
Implicit Types (m : ConnectionManager.t WebSocket) (client_id : string).



(** what is left of a client once a list of clients has been disconnected *)
Lemma disconnect_all_lookup m (ids : list string) client_id :
  let m' := fold_left ConnectionManager.disconnect ids m in
  (In client_id ids ->
   ConnectionManager.active_connections m' !! client_id = None
   /\ ConnectionManager.chat_managers m' !! client_id = None
   /\ ConnectionManager.last_activity m' !! client_id = None)
  /\ (~ In client_id ids ->
      ConnectionManager.active_connections m' !! client_id
      = ConnectionManager.active_connections m !! client_id
      /\ ConnectionManager.chat_managers m' !! client_id
         = ConnectionManager.chat_managers m !! client_id
      /\ ConnectionManager.last_activity m' !! client_id
         = ConnectionManager.last_activity m !! client_id).
Proof.
  cbv zeta. revert m. induction ids as [|id ids IH]; intros m; cbn [fold_left].
  - split; [intros [] | now intros _].
  - destruct (IH (ConnectionManager.disconnect m id)) as [Hin Hout].
    destruct (string_dec id client_id) as [->|Hne].
    + split; [|intros Hnot; exfalso; apply Hnot; now left].
      intros _. destruct (in_dec string_dec client_id ids) as [Hi|Hni];
        [now apply Hin|].
      destruct (Hout Hni) as (-> & -> & ->). cbn.
      now rewrite !lookup_delete_eq.
    + split.
      * intros [Heq|Hi]; [congruence | now apply Hin].
      * intros Hnot. destruct Hout as (-> & -> & ->); [intros Hi; apply Hnot; now right|].
        cbn. now rewrite !lookup_delete_ne by exact Hne.
Qed.

Lemma idle_clients_spec m (current_time : Q) client_id :
  In client_id (ConnectionManager.idle_clients m current_time)
  <-> exists last_active,
        ConnectionManager.last_activity m !! client_id = Some last_active
        /\ (ConnectionManager.idle_threshold < current_time - last_active)%Q.
Proof.
  unfold ConnectionManager.idle_clients. rewrite in_map_iff. split.
  - intros ([id a] & <- & Hin). apply filter_In in Hin as [Hin Hidle].
    exists a. split; [|now apply Qltb_lt].
    apply elem_of_map_to_list. now apply list_elem_of_In.
  - intros (a & Ha & Hidle). exists (client_id, a). split; [reflexivity|].
    apply filter_In. split; [|now apply Qltb_lt].
    apply list_elem_of_In. now apply elem_of_map_to_list.
Qed.

(** X27: one round of the cleanup loop removes, from the three
    dictionaries, exactly the clients whose last activity is more than
    7200 seconds before the clock reading of the round; every other
    client, one idle for exactly 7200 seconds included, keeps its socket,
    its chat manager and its last activity. *)
Theorem X27_cleanup_removes_exactly_the_idle_clients m (current_time : Q) client_id :
  let m' := ConnectionManager.cleanup_round m current_time in
  (forall last_active,
     ConnectionManager.last_activity m !! client_id = Some last_active ->
     (7200 < current_time - last_active)%Q ->
     ConnectionManager.active_connections m' !! client_id = None
     /\ ConnectionManager.chat_managers m' !! client_id = None
     /\ ConnectionManager.last_activity m' !! client_id = None)
  /\ ((forall last_active,
         ConnectionManager.last_activity m !! client_id = Some last_active ->
         (current_time - last_active <= 7200)%Q) ->
      ConnectionManager.active_connections m' !! client_id
      = ConnectionManager.active_connections m !! client_id
      /\ ConnectionManager.chat_managers m' !! client_id
         = ConnectionManager.chat_managers m !! client_id
      /\ ConnectionManager.last_activity m' !! client_id
         = ConnectionManager.last_activity m !! client_id).
Proof.
  cbv zeta. unfold ConnectionManager.cleanup_round.
  destruct (disconnect_all_lookup m (ConnectionManager.idle_clients m current_time)
              client_id) as [Hin Hout].
  split.
  - intros a Ha Hidle. apply Hin. apply idle_clients_spec. now exists a.
  - intros Hactive. apply Hout. intros Hidle.
    apply idle_clients_spec in Hidle as (a & Ha & Hidle).
    specialize (Hactive a Ha). unfold ConnectionManager.idle_threshold in Hidle. lra.
Qed.




End ConnectionFacts.

(** ** Concrete runs of the connection manager *)

